(** * aio_lambda_api: a shallow embedding of the dispatch core

    The development follows the Python sources module by module:
    - [aio_lambda_api/json.py], [exceptions.py]: values and exceptions;
    - [_responses.py]: [Response] / [JSONResponse] with the status/content
      coupling of the two property setters;
    - [_requests.py], [_backends/aws_lambda.py]: [Request], the trigger
      parsers and the serializers;
    - [_core.py]: the [Handler] (route table, single and batch dispatch).

    Python objects that the code mutates (the log event of the current
    context, the in-flight response, the request with its lazily filled
    attributes) live in an explicit per-attempt store; exceptions are the
    [Raise] branch of [result]. *)

From Stdlib Require Import ZArith Lia Strings.Byte Ascii DecimalString.
From stdpp Require Import base option list strings gmap.

Set Warnings "-register-all".
Local Open Scope Z_scope.
Local Open Scope string_scope.

(** ** Python values

    The values that flow through the program: what [loads] produces (JSON),
    plus the bytes-like objects a body can be.  [int] is unbounded, hence [Z];
    dictionaries keep insertion order and have string keys (they come from
    JSON documents or keyword construction), so they are association lists.
    Floats do not occur in any property of this development and are left
    out. *)

Inductive byteslike := Bytes | ByteArray | MemoryView.

Inductive pyval :=
| PNone
| PBool (b : bool)
| PInt (z : Z)
| PStr (s : string)
| PBin (k : byteslike) (bs : list byte)
| PList (l : list pyval)
| PDict (kvs : list (string * pyval)).

(** Python truthiness ([if x:], [x or y]). *)
Definition truthy (v : pyval) : bool :=
  match v with
  | PNone => false
  | PBool b => b
  | PInt z => negb (Z.eqb z 0)
  | PStr s => negb (String.eqb s EmptyString)
  | PBin _ bs => match bs with [] => false | _ => true end
  | PList l => match l with [] => false | _ => true end
  | PDict kvs => match kvs with [] => false | _ => true end
  end.

(** [x or y] *)
Definition py_or (x y : pyval) : pyval := if truthy x then x else y.

(** ** Exceptions ([exceptions.py] and the builtins the code catches)

    The type embeds Python's [Exception] class, the domain of the
    [except Exception] clause of [Handler._handle_request].  An
    [HTTPException] keeps its [status_code], [_detail] and [_error_detail];
    its [headers] attribute is never read. *)

Inductive exception :=
| HTTPException (status_code : Z) (detail : pyval) (error_detail : pyval)
| ValidationError (errors : pyval)
| KeyError (key : pyval)
| IndexError
| TypeError
| AttributeError
| ValueError (msg : string)
| JSONDecodeError
| UnicodeDecodeError
| BinasciiError
| TimeoutError
| OtherError (cls : string) (msg : string).

Inductive result (A : Type) :=
| Return (a : A)
| Raise (e : exception).
Arguments Return {A} a.
Arguments Raise {A} e.

#[global] Instance result_ret : MRet result := fun _ a => Return a.
#[global] Instance result_bind : MBind result := fun _ _ f m =>
  match m with Return a => f a | Raise e => Raise e end.
#[global] Instance result_fmap : FMap result := fun _ _ f m =>
  match m with Return a => Return (f a) | Raise e => Raise e end.

(** [try: m except KeyError: h] *)
Definition except_KeyError {A} (m : result A) (h : result A) : result A :=
  match m with
  | Raise (KeyError _) => h
  | _ => m
  end.

(** ** Dictionary and sequence primitives *)

Fixpoint assoc_get {V} (k : string) (kvs : list (string * V)) : option V :=
  match kvs with
  | [] => None
  | (k', v) :: rest => if String.eqb k k' then Some v else assoc_get k rest
  end.

(** [d[k] = v] on a dict: replace in place, or append. *)
Fixpoint assoc_set {V} (k : string) (v : V) (kvs : list (string * V))
  : list (string * V) :=
  match kvs with
  | [] => [(k, v)]
  | (k', v') :: rest =>
      if String.eqb k k' then (k', v) :: rest else (k', v') :: assoc_set k v rest
  end.

Fixpoint assoc_del {V} (k : string) (kvs : list (string * V))
  : list (string * V) :=
  match kvs with
  | [] => []
  | (k', v') :: rest =>
      if String.eqb k k' then rest else (k', v') :: assoc_del k rest
  end.

(** [o[k]] for a string key [k]. *)
Definition getitem (o : pyval) (k : string) : result pyval :=
  match o with
  | PDict kvs =>
      match assoc_get k kvs with
      | Some v => Return v
      | None => Raise (KeyError (PStr k))
      end
  | _ => Raise TypeError
  end.

(** [o[i]] for a non-negative literal index [i]. *)
Definition getindex (o : pyval) (i : nat) : result pyval :=
  match o with
  | PList l =>
      match l !! i with
      | Some v => Return v
      | None => Raise IndexError
      end
  | PDict _ => Raise (KeyError (PInt (Z.of_nat i)))
  | PStr s =>
      match String.get i s with
      | Some c => Return (PStr (String c EmptyString))
      | None => Raise IndexError
      end
  | PBin _ bs =>
      match bs !! i with
      | Some b => Return (PInt (Z.of_N (Byte.to_N b)))
      | None => Raise IndexError
      end
  | _ => Raise TypeError
  end.

(** [o.get(k, default)]; only dicts have the method. *)
Definition dict_get (o : pyval) (k : string) (dflt : pyval) : result pyval :=
  match o with
  | PDict kvs => Return (default dflt (assoc_get k kvs))
  | _ => Raise AttributeError
  end.

(** ** Strings and bytes

    A Python [str] is represented by its UTF-8 encoding, one [ascii] per
    byte, so [s.encode()] is the identity on the byte sequence. *)

Definition str_encode (s : string) : list byte := String.list_byte_of_string s.

Definition is_ascii (b : byte) : bool := (Byte.to_N b <? 128)%N.

(** [bs.decode()].  Pure ASCII input decodes byte for byte; the model does not
    decode multi-byte sequences (the program only decodes Base64 text). *)
Definition bytes_decode (bs : list byte) : result string :=
  if forallb is_ascii bs then Return (String.string_of_list_byte bs)
  else Raise UnicodeDecodeError.

(** [len(s)] of a [str]: code points, that is, bytes that are not UTF-8
    continuation bytes. *)
Definition is_continuation (b : byte) : bool :=
  ((128 <=? Byte.to_N b) && (Byte.to_N b <? 192))%N.

Definition str_len (s : string) : nat :=
  length (filter (fun b => is_continuation b = false) (str_encode s)).

(** [str(n)] of an [int]. *)
Definition str_of_int (z : Z) : string := NilZero.string_of_int (Z.to_int z).

(** ** Base64 ([base64.b64encode] / [base64.b64decode], RFC 4648)

    Standard-library functions, modelled on the standard alphabet with
    padding.  The decoder is the lenient one [b64decode] calls by default
    ([validate=False]): it skips the characters outside the alphabet and
    stops at the padding that completes a group. *)

Module Base64.

Definition alphabet : list byte :=
  String.list_byte_of_string
    "ABCDEFGHIJKLMNOPQRSTUVWXYZabcdefghijklmnopqrstuvwxyz0123456789+/".

Definition pad : byte := "=".

Definition char (d : N) : byte := nth (N.to_nat d) alphabet pad.

Fixpoint index_of (c : byte) (l : list byte) (i : N) : option N :=
  match l with
  | [] => None
  | x :: rest => if Byte.eqb c x then Some i else index_of c rest (N.succ i)
  end.

Definition val (c : byte) : option N := index_of c alphabet 0%N.

Definition byte_of (n : N) : byte :=
  match Byte.of_N (n mod 256) with Some b => b | None => "000" end.

Section Sextets.
Local Open Scope N_scope.

(** The four 6-bit groups of the 24 bits [a b c]. *)
Definition sextets (a b c : N) : N * N * N * N :=
  (a / 4, (a mod 4) * 16 + b / 16, (b mod 16) * 4 + c / 64, c mod 64).

(** The three octets of four 6-bit groups. *)
Definition octets (d0 d1 d2 d3 : N) : N * N * N :=
  (d0 * 4 + d1 / 16, (d1 mod 16) * 16 + d2 / 4, (d2 mod 4) * 64 + d3).
End Sextets.

Fixpoint b64encode (bs : list byte) : list byte :=
  match bs with
  | [] => []
  | [a] =>
      let '(d0, d1, _, _) := sextets (Byte.to_N a) 0 0 in
      [char d0; char d1; pad; pad]
  | [a; b] =>
      let '(d0, d1, d2, _) := sextets (Byte.to_N a) (Byte.to_N b) 0 in
      [char d0; char d1; char d2; pad]
  | a :: b :: c :: rest =>
      let '(d0, d1, d2, d3) := sextets (Byte.to_N a) (Byte.to_N b) (Byte.to_N c) in
      char d0 :: char d1 :: char d2 :: char d3 :: b64encode rest
  end.

Definition is_pad (c : byte) : bool := Byte.eqb c pad.

(** The loop of [binascii.a2b_base64] without strict mode.  [quad_pos] is
    the number of characters read in the current group of four, [leftchar]
    the bits of them that are not written yet, [pads] the padding characters
    met in a row.  A padding character counts only after two characters of
    a group; the one that completes the group ends the decoding, whatever
    follows it.  At the end of the input an open group is an error. *)
Fixpoint a2b_base64 (cs : list byte) (quad_pos : nat) (leftchar : N)
    (pads : nat) : result (list byte) :=
  match cs with
  | [] =>
      match quad_pos with
      | O => Return []
      | _ => Raise BinasciiError
      end
  | c :: rest =>
      if is_pad c then
        if (2 <=? quad_pos)%nat then
          if (4 <=? quad_pos + S pads)%nat then Return []
          else a2b_base64 rest quad_pos leftchar (S pads)
        else a2b_base64 rest quad_pos leftchar pads
      else
        match val c with
        | None => a2b_base64 rest quad_pos leftchar pads
        | Some d =>
            match quad_pos with
            | 0%nat => a2b_base64 rest 1%nat d 0%nat
            | 1%nat =>
                cons (byte_of (leftchar * 4 + d / 16)%N)
                  <$> a2b_base64 rest 2%nat (d mod 16)%N 0%nat
            | 2%nat =>
                cons (byte_of (leftchar * 16 + d / 4)%N)
                  <$> a2b_base64 rest 3%nat (d mod 4)%N 0%nat
            | _ =>
                cons (byte_of (leftchar * 64 + d)%N)
                  <$> a2b_base64 rest 0%nat 0%N 0%nat
            end
        end
  end.

Definition b64decode (cs : list byte) : result (list byte) :=
  a2b_base64 cs 0%nat 0%N 0%nat.

End Base64.

(** ** External collaborators

    [LogEvent] is jhalog's log scope of the current context
    ([LogEvent.from_context()]): only the attributes the program reads or
    writes are kept. *)

Record LogEvent := {
  ev_id : pyval;
  ev_method : pyval;
  ev_path : pyval;
  ev_user_agent : pyval;
  ev_status_code : option Z;
  ev_error_detail : pyval;
}.

Definition ev_set_status_code (value : Z) (ev : LogEvent) : LogEvent :=
  {| ev_id := ev_id ev; ev_method := ev_method ev; ev_path := ev_path ev;
     ev_user_agent := ev_user_agent ev; ev_status_code := Some value;
     ev_error_detail := ev_error_detail ev |}.

Definition ev_set_error_detail (value : pyval) (ev : LogEvent) : LogEvent :=
  {| ev_id := ev_id ev; ev_method := ev_method ev; ev_path := ev_path ev;
     ev_user_agent := ev_user_agent ev; ev_status_code := ev_status_code ev;
     ev_error_detail := value |}.

(** Functions the sources import from outside [src/]: the JSON codec
    ([json.py] re-exports [loads]/[dumps] of orjson or of the standard
    library), the builtin [str], jhalog's exception classifier, and
    [aio_lambda_api.status.get_status_message], a module of this package that
    is not among the sources (a status-code to message table). *)
Class Externals := {
  loads : pyval → result pyval;
  dumps : pyval → result string;
  py_str : pyval → string;
  get_status_message : Z → string;
  status_code_from_exception : exception → LogEvent → (Z * pyval) * LogEvent;
}.

(** ** [_responses.py] *)

Module Response.

Inductive class := Response | JSONResponse.

Record t := {
  cls : class;
  _content : pyval;
  _status_code : Z;
  _headers : list (string * pyval);
  _media_type : option string;
}.

(** [_MEDIA_TYPE] *)
Definition _MEDIA_TYPE (c : class) : option string :=
  match c with
  | Response => None
  | JSONResponse => Some "application/json"
  end.

Definition with_content (self : t) (value : pyval) : t :=
  {| cls := cls self; _content := value; _status_code := _status_code self;
     _headers := _headers self; _media_type := _media_type self |}.

Definition with_status_code (self : t) (value : Z) : t :=
  {| cls := cls self; _content := _content self; _status_code := value;
     _headers := _headers self; _media_type := _media_type self |}.

Definition with_header (self : t) (k : string) (v : pyval) : t :=
  {| cls := cls self; _content := _content self;
     _status_code := _status_code self;
     _headers := assoc_set k v (_headers self);
     _media_type := _media_type self |}.

Definition is_None (v : pyval) : bool :=
  match v with PNone => true | _ => false end.

(** [@status_code.setter]: writes the object and the log event of the
    current context. *)
Definition status_code_setter (self : t) (value : Z) (ev : LogEvent)
  : t * LogEvent :=
  let value := if is_None (_content self) && Z.eqb value 200 then 204 else value in
  (with_status_code self value, ev_set_status_code value ev).

(** [@content.setter] *)
Definition content_setter (self : t) (value : pyval) (ev : LogEvent)
  : t * LogEvent :=
  let self := with_content self value in
  if negb (is_None value) && Z.eqb (_status_code self) 204
  then (with_status_code self 200, ev_set_status_code 200 ev)
  else (self, ev).

(** [__init__].  [_status_code] does not exist before the setter runs; the
    placeholder [0] passed to it is overwritten. *)
Definition __init__ (c : class) (content : pyval) (status_code : Z)
    (headers : option (list (string * pyval))) (media_type : option string)
    (ev : LogEvent) : t * LogEvent :=
  let self :=
    {| cls := c; _content := content; _status_code := 0; _headers := [];
       _media_type :=
         match media_type with
         | Some m => if String.eqb m EmptyString then _MEDIA_TYPE c else Some m
         | None => _MEDIA_TYPE c
         end |} in
  let '(self, ev) := status_code_setter self status_code ev in
  let headers := match headers with Some (x :: h) => x :: h | _ => [] end in
  let self :=
    {| cls := cls self; _content := _content self;
       _status_code := _status_code self;
       _headers := assoc_set "x-request-id" (ev_id ev) headers;
       _media_type := _media_type self |} in
  (self, ev).

(** [len(body)] *)
Definition len (v : pyval) : result nat :=
  match v with
  | PStr s => Return (str_len s)
  | PBin _ bs => Return (length bs)
  | PList l => Return (length l)
  | PDict kvs => Return (length kvs)
  | _ => Raise TypeError
  end.

Section Methods.
Context `{!Externals}.

(** [_render], overridden by [JSONResponse]. *)
Definition _render (self : t) (content : pyval) : result pyval :=
  match cls self with
  | Response => Return content
  | JSONResponse => PStr <$> dumps content
  end.

(** [body()]: returns the rendered body and the mutated object. *)
Definition body (self : t) : result pyval * t :=
  let self :=
    if is_None (_content self) && (400 <=? _status_code self)%Z
    then with_content self
           (PDict [("detail", PStr (get_status_message (_status_code self)))])
    else self in
  if is_None (_content self) then (Return PNone, self)
  else
    match _render self (_content self) with
    | Raise e => (Raise e, self)
    | Return body =>
        match len body with
        | Raise e => (Raise e, self)
        | Return n =>
            let self :=
              with_header self "content-length"
                (PStr (str_of_int (Z.of_nat n))) in
            let self :=
              match _media_type self with
              | Some m => with_header self "content-type" (PStr m)
              | None => self
              end in
            (Return body, self)
        end
    end.
End Methods.

End Response.

(** ** [_requests.py] and the [Request] subclass of [_backends/aws_lambda.py] *)

(** [key.lower()], on ASCII letters (header names). *)
Definition lower_ascii (c : ascii) : ascii :=
  let n := nat_of_ascii c in
  if (65 <=? n)%nat && (n <=? 90)%nat then ascii_of_nat (n + 32) else c.

Fixpoint lower (s : string) : string :=
  match s with
  | EmptyString => EmptyString
  | String c rest => String (lower_ascii c) (lower rest)
  end.

Module Request.

(** [Request] is the base class, [AwsRequest] the subclass
    [aws_lambda.Request], which adds [event] and [_context] and overrides
    [body]. *)
Inductive class := Request | AwsRequest.

(** An attribute that [__init__] may leave unset ([_body], [_json]) is an
    [option]: reading it when [None] is the [AttributeError] branch. *)
Record t := {
  cls : class;
  event : pyval;
  _context : pyval;
  _headers : list (string * pyval);
  _body : option pyval;
  _json : option pyval;
  _path : pyval;
  _method : pyval;
  _raises_exceptions : pyval;
}.

Definition with_body (self : t) (value : pyval) : t :=
  {| cls := cls self; event := event self; _context := _context self;
     _headers := _headers self; _body := Some value; _json := _json self;
     _path := _path self; _method := _method self;
     _raises_exceptions := _raises_exceptions self |}.

Definition with_json (self : t) (value : pyval) : t :=
  {| cls := cls self; event := event self; _context := _context self;
     _headers := _headers self; _body := _body self; _json := Some value;
     _path := _path self; _method := _method self;
     _raises_exceptions := _raises_exceptions self |}.

(** [{key.lower(): value for key, value in headers.items()}] *)
Definition lower_keys (headers : list (string * pyval)) : list (string * pyval) :=
  fold_left (fun acc kv => assoc_set (lower (fst kv)) (snd kv) acc) headers [].

(** [_requests.Request.__init__]; [c], [ev] and [ctx] are what the subclass
    sets before delegating ([Request], [PNone], [PNone] for the base class). *)
Definition __init__ (c : class) (ev ctx : pyval) (path method : pyval)
    (headers : option (list (string * pyval))) (body : pyval)
    (raises_exceptions : pyval) : t :=
  {| cls := c; event := ev; _context := ctx;
     _headers := match headers with
                 | Some (x :: h) => lower_keys (x :: h)
                 | _ => []
                 end;
     _body := match body with PNone => None | b => Some b end;
     _json := None;
     _path := path; _method := method;
     _raises_exceptions := raises_exceptions |}.

(** [aws_lambda.Request.__init__].  [headers.setdefault] writes into the
    dictionary held by [event] when [event.get("headers")] is a non-empty
    dictionary, so the stored [event] carries the update. *)
Definition aws__init__ (ev ctx : pyval) (raises_exceptions : pyval) : result t :=
  request_context ← getitem ev "requestContext";
  '(method, path) ←
    match getitem request_context "http" with
    | Raise (KeyError _) =>
        method ← getitem request_context "httpMethod";
        path ← getitem request_context "path";
        Return (method, path)
    | Raise e => Raise e
    | Return http =>
        method ← getitem http "method";
        path ← getitem http "path";
        Return (method, path)
    end;
  h ← dict_get ev "headers" PNone;
  match py_or h (PDict []) with
  | PDict kvs =>
      match getitem ev "requestContext" ≫= (λ rc, getitem rc "requestId") with
      | Raise (KeyError _) =>
          Return (__init__ AwsRequest ev ctx path method (Some kvs) PNone
                    raises_exceptions)
      | Raise e => Raise e
      | Return request_id =>
          let kvs' :=
            match assoc_get "x-request-id" kvs with
            | Some _ => kvs
            | None => assoc_set "x-request-id" request_id kvs
            end in
          let ev' :=
            match ev, truthy h with
            | PDict e, true => PDict (assoc_set "headers" (PDict kvs') e)
            | _, _ => ev
            end in
          Return (__init__ AwsRequest ev' ctx path method (Some kvs') PNone
                    raises_exceptions)
      end
  | _ => Raise AttributeError
  end.

(** [self.event]: an attribute of the subclass only. *)
Definition get_event (self : t) : result pyval :=
  match cls self with
  | AwsRequest => Return (event self)
  | Request => Raise AttributeError
  end.

Section Methods.
Context `{!Externals}.

(** [body()], with the override of the subclass. *)
Definition body (self : t) : result pyval * t :=
  match _body self with
  | Some b => (Return b, self)
  | None =>
      match cls self with
      | Request => (Return PNone, self)
      | AwsRequest =>
          let r :=
            body ← dict_get (event self) "body" PNone;
            match body with
            | PNone => Return PNone
            | PStr s =>
                let body := str_encode s in
                encoded ← dict_get (event self) "isBase64Encoded" (PBool false);
                if truthy encoded
                then PBin Bytes <$> Base64.b64decode body
                else Return (PBin Bytes body)
            | _ => Raise AttributeError
            end in
          match r with
          | Return b => (Return b, with_body self b)
          | Raise e => (Raise e, self)
          end
      end
  end.

(** [json()] *)
Definition json (self : t) : result pyval * t :=
  match _json self with
  | Some j => (Return j, self)
  | None =>
      match body self with
      | (Raise e, self) => (Raise e, self)
      | (Return body, self) =>
          let r :=
            match body with
            | PNone => Return body
            | _ =>
                match loads body with
                | Raise JSONDecodeError => Return body
                | r => r
                end
            end in
          match r with
          | Return body => (Return body, with_json self body)
          | Raise e => (Raise e, self)
          end
      end
  end.
End Methods.

End Request.

(** ** [_backends/aws_lambda.py]: the [Backend] *)

(** [s.split(':', 1)]: the text before and after the first colon, or the
    whole text when there is none. *)
Fixpoint split_colon (s : string) : string * option string :=
  match s with
  | EmptyString => (EmptyString, None)
  | String c rest =>
      if Ascii.eqb c ":" then (EmptyString, Some rest)
      else let '(a, b) := split_colon rest in (String c a, b)
  end.

(** [event_source.split(':', 1)[1]] *)
Definition source_name (event_source : pyval) : result string :=
  match event_source with
  | PStr s =>
      match snd (split_colon s) with
      | Some name => Return name
      | None => Raise IndexError
      end
  | PBin _ _ => Raise TypeError
  | _ => Raise AttributeError
  end.

(** [for x in o]: the items an iteration over [o] yields. *)
Definition iterate (o : pyval) : result (list pyval) :=
  match o with
  | PList l => Return l
  | PDict kvs => Return (map (λ kv, PStr (fst kv)) kvs)
  | PStr s =>
      Return (map (λ c, PStr (String c EmptyString))
                (String.list_ascii_of_string s))
  | PBin _ bs => Return (map (λ b, PInt (Z.of_N (Byte.to_N b))) bs)
  | _ => Raise TypeError
  end.

(** [o.pop(k)] for a string key: the value and the object without the key. *)
Definition dict_pop (o : pyval) (k : string) : result (pyval * pyval) :=
  match o with
  | PDict kvs =>
      match assoc_get k kvs with
      | Some v => Return (v, PDict (assoc_del k kvs))
      | None => Raise (KeyError (PStr k))
      end
  | PList _ | PBin ByteArray _ => Raise TypeError
  | _ => Raise AttributeError
  end.

(** [o[k] = v] for a string key. *)
Definition setitem (o : pyval) (k : string) (v : pyval) : result pyval :=
  match o with
  | PDict kvs => Return (PDict (assoc_set k v kvs))
  | _ => Raise TypeError
  end.

(** What [parse_request] returns. *)
Inductive parsed :=
| Single (request : Request.t)
| Many (requests : list Request.t).

Module Backend.
Section Backend.
Context `{!Externals}.

(** One iteration of the generator [_parse_event_mq]. *)
Definition _parse_record_mq (record : pyval) : result pyval :=
  '(data, record) ← dict_pop record "data";
  record_event ← loads data;
  record_event ← setitem record_event "eventSource" (PStr "aws:mq");
  setitem record_event "eventData" record.

(** One iteration of the generator [_parse_event_sqs]. *)
Definition _parse_record_sqs (record : pyval) : result pyval :=
  '(body, record) ← dict_pop record "body";
  record_event ← loads body;
  record_event ← setitem record_event "eventSource" (PStr "aws:sqs");
  record_event ← setitem record_event "eventData" record;
  setitem record_event "eventRaisesExceptions" (PBool false).

(** One iteration of the generator [_parse_event_sns]; the pop mutates the
    dictionary under [record["Sns"]]. *)
Definition _parse_record_sns (record : pyval) : result pyval :=
  sns ← getitem record "Sns";
  '(message, sns) ← dict_pop sns "Message";
  record ← setitem record "Sns" sns;
  record_event ← loads message;
  record_event ← setitem record_event "eventSource" (PStr "aws:sns");
  setitem record_event "eventData" record.

(** [getattr(self, f"_parse_event_{name}")]: the key of the records in the
    event and the body of the generator's loop. *)
Definition _parse_event (name : string)
  : result (string * (pyval → result pyval)) :=
  if String.eqb name "mq" then Return ("messages", _parse_record_mq)
  else if String.eqb name "sqs" then Return ("Records", _parse_record_sqs)
  else if String.eqb name "sns" then Return ("Records", _parse_record_sns)
  else Raise AttributeError.

(** The list comprehension of [parse_request], consuming the generator:
    each record is parsed and turned into a [Request] before the next one
    is looked at. *)
Fixpoint parse_records (parse : pyval → result pyval) (context : pyval)
    (records : list pyval) : result (list Request.t) :=
  match records with
  | [] => Return []
  | record :: rest =>
      record_event ← parse record;
      raises_exceptions ←
        dict_get record_event "eventRaisesExceptions" (PBool true);
      request ← Request.aws__init__ record_event context raises_exceptions;
      requests ← parse_records parse context rest;
      Return (request :: requests)
  end.

(** The two [try] blocks of [parse_request] that look for the event source:
    [None] is the [return []] of the inner [except]. *)
Definition find_event_source (event : list (string * pyval))
  : option (result pyval) :=
  match getitem (PDict event) "eventSource" with
  | Raise (KeyError _) =>
      match
        records ← getitem (PDict event) "Records";
        first ← getindex records 0;
        getitem first "eventSource"
      with
      | Raise IndexError | Raise (KeyError _) => None
      | r => Some r
      end
  | r => Some r
  end.

Definition parse_request (event : list (string * pyval)) (context : pyval)
  : result parsed :=
  match assoc_get "requestContext" event with
  | Some _ =>
      Single <$> Request.aws__init__ (PDict event) context (PBool true)
  | None =>
      match find_event_source event with
      | None => Return (Many [])
      | Some event_source =>
          event_source ← event_source;
          name ← source_name event_source;
          '(key, parse) ← _parse_event name;
          records ← getitem (PDict event) key;
          records ← iterate records;
          Many <$> parse_records parse context records
      end
  end.

(** [request.event["eventData"]["messageId"]] *)
Definition message_id (request : Request.t) : result pyval :=
  ev ← Request.get_event request;
  data ← getitem ev "eventData";
  getitem data "messageId".

(** The comprehension [failures] of [_serialize_event_sqs]. *)
Fixpoint failures (resp_req : list (Response.t * Request.t))
  : result (list pyval) :=
  match resp_req with
  | [] => Return []
  | (response, request) :: rest =>
      if (400 <=? Response._status_code response)%Z then
        id ← message_id request;
        tl ← failures rest;
        Return (id :: tl)
      else failures rest
  end.

Definition _serialize_event_sqs (resp_req : list (Response.t * Request.t))
  : result pyval :=
  failures ← failures resp_req;
  match failures with
  | [] => Return PNone
  | _ =>
      Return (PDict [("batchItemFailures",
                      PList (map (λ message_id,
                                    PDict [("itemIdentifier", message_id)])
                               failures))])
  end.

(** [serialize_response]: the envelope and the response object as
    [body()] leaves it. *)
Definition serialize_response (response : Response.t) (request : Request.t)
  : result pyval * Response.t :=
  match Response.body response with
  | (Raise e, response) => (Raise e, response)
  | (Return body, response) =>
      let r :=
        match body with
        | PBin _ bs =>
            s ← bytes_decode (Base64.b64encode bs); Return (PStr s, true)
        | _ => Return (body, false)
        end in
      (('(body, is_base64_encoded) ← r;
        Return (PDict [("body", body);
                       ("statusCode",
                        PStr (str_of_int (Response._status_code response)));
                       ("headers", PDict (Response._headers response));
                       ("isBase64Encoded", PBool is_base64_encoded)])),
       response)
  end.

(** [getattr(self, f"_serialize_event_{name}")] *)
Definition _serialize_event (name : string)
  : result (list (Response.t * Request.t) → result pyval) :=
  if String.eqb name "sqs" then Return _serialize_event_sqs
  else Raise AttributeError.

(** [first_req.event['eventSource']] *)
Definition event_source (request : Request.t) : result pyval :=
  ev ← Request.get_event request;
  getitem ev "eventSource".

Definition serialize_responses (resp_req : list (Response.t * Request.t))
  : result pyval :=
  match resp_req with
  | [] => Return PNone
  | (_, first_req) :: _ =>
      event_source ← event_source first_req;
      name ← source_name event_source;
      match _serialize_event name with
      | Raise AttributeError => Return PNone
      | Raise e => Raise e
      | Return method => method resp_req
      end
  end.
End Backend.
End Backend.

(** ** Coroutines

    A coroutine that is awaited runs up to its next suspension point, where
    the event loop may run another task.  Every handler is awaited under
    [wait_for(func, FUNCTION_TIMEOUT)], so it ends after finitely many
    suspensions, by returning or by raising (possibly [TimeoutError]). *)

Inductive coro (A : Type) :=
| Done (a : A)
| Suspended (k : coro A).
Arguments Done {A} a.
Arguments Suspended {A} k.

(** [await c] from a caller that is itself a coroutine. *)
Fixpoint coro_bind {A B} (c : coro A) (f : A → coro B) : coro B :=
  match c with
  | Done a => f a
  | Suspended k => Suspended (coro_bind k f)
  end.

(** [loop.run_until_complete(c)] with nothing else to run. *)
Fixpoint force {A} (c : coro A) : A :=
  match c with
  | Done a => a
  | Suspended k => force k
  end.

(** Number of suspension points left. *)
Fixpoint suspensions {A} (c : coro A) : nat :=
  match c with
  | Done _ => 0
  | Suspended k => S (suspensions k)
  end.

(** ** [asyncio.gather]

    [gather] wraps each coroutine in a task and resolves when all of them
    are done, with the results in the order of its arguments, or as soon as
    one of them raises, with that exception.  Which task the loop resumes next
    depends on the completion of the awaited I/O: it is the [schedule], a
    list of task indices. *)

(** [ensure_future(c)]: a task that has not run yet. *)
Definition spawn {A} (c : coro A) : coro A := Suspended c.

Definition returned_value {A} (c : coro (result A)) : option A :=
  match c with
  | Done (Return a) => Some a
  | _ => None
  end.

(** The results, when every task has returned. *)
Fixpoint all_returned {A} (tasks : list (coro (result A))) : option (list A) :=
  match tasks with
  | [] => Some []
  | c :: rest =>
      match returned_value c, all_returned rest with
      | Some a, Some results => Some (a :: results)
      | _, _ => None
      end
  end.

(** [None]: the schedule ends with tasks still pending. *)
Fixpoint gather_loop {A} (schedule : list nat) (tasks : list (coro (result A)))
  : option (result (list A)) :=
  match all_returned tasks with
  | Some results => Some (Return results)
  | None =>
      match schedule with
      | [] => None
      | i :: schedule =>
          match tasks !! i with
          | Some (Suspended (Done (Raise e))) => Some (Raise e)
          | Some (Suspended k) => gather_loop schedule (<[i := k]> tasks)
          | _ => gather_loop schedule tasks
          end
      end
  end.

Definition gather {A} (schedule : list nat) (coros : list (coro (result A)))
  : option (result (list A)) :=
  gather_loop schedule (map spawn coros).

(** ** [_core.py]: the [Handler] *)

Module Handler.

(** The classes [_check_signature] records for injection. *)
Inductive param_cls := ParamRequest | ParamResponse.

(** A keyword argument: an entry of the JSON body, or a reference to the
    live request or to the in-flight response. *)
Inductive arg :=
| ArgValue (v : pyval)
| ArgRequest
| ArgResponse.

(** What a route function returns: a full [Response] or a content. *)
Inductive returned :=
| Content (v : pyval)
| FullResponse (r : Response.t).

(** The objects a handling attempt owns, which the route function reaches
    through its injected arguments and [get_logger()]. *)
Record Frame := {
  f_event : LogEvent;
  f_request : Request.t;
  f_response : Response.t;
}.

(** The coroutine object made by calling a route function, as awaited under
    [wait_for]. *)
Definition Coroutine : Type := Frame → coro (result returned * Frame).

Record _APIRoute := {
  status_code : Z;
  func : list (string * arg) → result Coroutine;
  params : list (string * param_cls);
}.

(** [self._routes] *)
Abbreviation Routes := (gmap string (gmap string _APIRoute)).

(** [f'Route already registered: {method} "{path}".'] *)
Definition already_registered (method path : string) : string :=
  "Route already registered: " +:+ method +:+ " "
  +:+ String "034"%char path +:+ String "034"%char ".".

(** The decorator returned by [_api_route]; [params] is the outcome of
    [_check_signature(func)].  Returns the outcome and the table as the call
    leaves it. *)
Definition _api_route (path method : string) (status : option Z)
    (f : list (string * arg) → result Coroutine)
    (ps : list (string * param_cls)) (routes : Routes)
  : result unit * Routes :=
  let '(path_routes, routes) :=
    match routes !! path with
    | Some path_routes => (path_routes, routes)
    | None => (∅, <[path := ∅]> routes)
    end in
  match path_routes !! method with
  | None =>
      let route :=
        {| func := f;
           status_code := match status with
                          | Some c => if Z.eqb c 0 then 200 else c
                          | None => 200
                          end;
           params := ps |} in
      (Return (), <[path := <[method := route]> path_routes]> routes)
  | Some _ => (Raise (ValueError (already_registered method path)), routes)
  end.

(** [d[k]] on a dictionary with string keys, for any key object. *)
Definition dict_lookup {V} (d : gmap string V) (k : pyval) : result V :=
  match k with
  | PStr s =>
      match d !! s with
      | Some v => Return v
      | None => Raise (KeyError k)
      end
  | PList _ | PDict _ | PBin ByteArray _ => Raise TypeError
  | _ => Raise (KeyError k)
  end.

(** The two lookups that open [_prepare_request]. *)
Definition lookup_route (routes : Routes) (path method : pyval)
  : result _APIRoute :=
  match dict_lookup routes path with
  | Raise (KeyError _) => Raise (HTTPException 404 PNone PNone)
  | Raise e => Raise e
  | Return path_routes =>
      match dict_lookup path_routes method with
      | Raise (KeyError _) => Raise (HTTPException 405 PNone PNone)
      | r => r
      end
  end.

(** [JSONResponse(content=..., status_code=...)] *)
Definition JSONResponse (content : pyval) (status : Z) (ev : LogEvent)
  : Response.t * LogEvent :=
  Response.__init__ Response.JSONResponse content status None None ev.

(** The loop over [route.params] in [_prepare_request]. *)
Definition inject (ps : list (string * param_cls)) (kwargs : list (string * arg))
  : list (string * arg) :=
  fold_left
    (λ kwargs p,
       assoc_set (fst p)
         (match snd p with ParamRequest => ArgRequest | ParamResponse => ArgResponse end)
         kwargs)
    ps kwargs.

(** [logger.create_event(method=..., path=..., id=..., user_agent=...)] *)
Definition create_event (request : Request.t) : LogEvent :=
  {| ev_id := default PNone (assoc_get "x-request-id" (Request._headers request));
     ev_method := Request._method request;
     ev_path := Request._path request;
     ev_user_agent :=
       default PNone (assoc_get "user-agent" (Request._headers request));
     ev_status_code := None;
     ev_error_detail := PNone |}.

Section Handler.
Context `{!Externals}.

(** [HTTPException.error_detail] *)
Definition error_detail (_error_detail _detail : pyval) : pyval :=
  if truthy _error_detail then PStr (py_str _error_detail)
  else if truthy _detail then PStr (py_str _detail)
  else PNone.

(** [_prepare_request]: the default response and the coroutine, with the
    log event and the request as the call leaves them. *)
Definition _prepare_request (routes : Routes) (request : Request.t)
    (ev : LogEvent)
  : result (Response.t * Coroutine) * LogEvent * Request.t :=
  match lookup_route routes (Request._path request) (Request._method request) with
  | Raise e => (Raise e, ev, request)
  | Return route =>
      let '(response, ev) := JSONResponse PNone (status_code route) ev in
      match Request.json request with
      | (Raise e, request) => (Raise e, ev, request)
      | (Return body, request) =>
          let kwargs :=
            match body with
            | PDict kvs => map (λ kv, (fst kv, ArgValue (snd kv))) kvs
            | _ => []
            end in
          let kwargs := inject (params route) kwargs in
          match func route kwargs with
          | Raise e => (Raise e, ev, request)
          | Return coroutine => (Return (response, coroutine), ev, request)
          end
      end
  end.

(** [_call_route_function], started in the frame of the attempt. *)
Definition _call_route_function (coroutine : Coroutine) (frame : Frame)
  : coro (result Response.t * LogEvent * Request.t) :=
  coro_bind (coroutine frame) (λ '(r, frame),
    match r with
    | Raise e => Done (Raise e, f_event frame, f_request frame)
    | Return (FullResponse content) =>
        Done (Return content, f_event frame, f_request frame)
    | Return (Content content) =>
        let '(response, ev) :=
          Response.content_setter (f_response frame) content (f_event frame) in
        Done (Return response, ev, f_request frame)
    end).

(** The [except] clauses of [_handle_request]. *)
Definition on_exception (e : exception) (ev : LogEvent) (request : Request.t)
  : result Response.t * LogEvent * Request.t :=
  match e with
  | HTTPException status _detail _error_detail =>
      let ev := ev_set_error_detail (error_detail _error_detail _detail) ev in
      let ev := ev_set_status_code status ev in
      let content :=
        match _detail with
        | PNone => PNone
        | _ => PDict [("detail", _detail)]
        end in
      let '(response, ev) := JSONResponse content status ev in
      (Return response, ev, request)
  | ValidationError errors =>
      let ev := ev_set_error_detail errors ev in
      let ev := ev_set_status_code 422 ev in
      let '(response, ev) := JSONResponse (PDict [("detail", errors)]) 422 ev in
      (Return response, ev, request)
  | _ =>
      let '((status, message), ev) := status_code_from_exception e ev in
      let '(response, ev) := JSONResponse message status ev in
      if truthy (Request._raises_exceptions request)
      then (Raise e, ev, request)
      else (Return response, ev, request)
  end.

(** The [try] body of [_handle_request]. *)
Definition attempt (routes : Routes) (request : Request.t) (ev : LogEvent)
  : coro (result Response.t * LogEvent * Request.t) :=
  match _prepare_request routes request ev with
  | (Raise e, ev, request) => Done (Raise e, ev, request)
  | (Return (response, coroutine), ev, request) =>
      _call_route_function coroutine
        {| f_event := ev; f_request := request; f_response := response |}
  end.

(** [_handle_request]: the response or the exception that leaves it, the
    log event as the [with] block leaves it, and the request. *)
Definition _handle_request (routes : Routes) (request : Request.t)
  : coro (result Response.t * LogEvent * Request.t) :=
  coro_bind (attempt routes request (create_event request)) (λ '(r, ev, request),
    match r with
    | Return response => Done (Return response, ev, request)
    | Raise e => Done (on_exception e ev request)
    end).

(** The task [gather] runs for one request: its response paired with the
    request object, or the exception. *)
Definition task (routes : Routes) (request : Request.t)
  : coro (result (Response.t * Request.t)) :=
  coro_bind (_handle_request routes request) (λ '(r, _, request),
    Done (response ← r; Return (response, request))).

(** [zip(await self._handle_requests(parsed), parsed)]: what [__acall__]
    hands to [serialize_responses]. *)
Definition _handle_requests (schedule : list nat) (routes : Routes)
    (requests : list Request.t)
  : option (result (list (Response.t * Request.t))) :=
  gather schedule (map (task routes) requests).

(** [__acall__].  [None]: the schedule ends before the batch does. *)
Definition __acall__ (schedule : list nat) (routes : Routes)
    (event : list (string * pyval)) (context : pyval)
  : option (result pyval) :=
  match Backend.parse_request event context with
  | Raise e => Some (Raise e)
  | Return (Single parsed) =>
      match force (_handle_request routes parsed) with
      | (Raise e, _, _) => Some (Raise e)
      | (Return response, _, parsed) =>
          Some (fst (Backend.serialize_response response parsed))
      end
  | Return (Many parsed) =>
      match _handle_requests schedule routes parsed with
      | None => None
      | Some (Raise e) => Some (Raise e)
      | Some (Return resp_req) => Some (Backend.serialize_responses resp_req)
      end
  end.
End Handler.

End Handler.

(** ** Registration histories

    A route table is built by the decorators ([get], [post], ...) applied at
    import time, that is, by a sequence of [_api_route] calls on the empty
    table of [Handler.__init__]; a call that raises leaves the handler
    usable. *)

Module Registry.
Import Handler.

Record registration := {
  reg_path : string;
  reg_method : string;
  reg_status : option Z;
  reg_func : list (string * arg) → result Coroutine;
  reg_params : list (string * param_cls);
}.

Definition register (routes : Routes) (r : registration) : Routes :=
  snd (_api_route (reg_path r) (reg_method r) (reg_status r) (reg_func r)
         (reg_params r) routes).

Definition register_all (regs : list registration) : Routes :=
  fold_left register regs ∅.

(** The route object a registration stores. *)
Definition route_of (r : registration) : _APIRoute :=
  {| func := reg_func r;
     status_code := match reg_status r with
                    | Some c => if Z.eqb c 0 then 200 else c
                    | None => 200
                    end;
     params := reg_params r |}.

(** The route of the first registration of [(path, method)]: later ones are
    duplicates. *)
Fixpoint first_registration (regs : list registration) (path method : string)
  : option _APIRoute :=
  match regs with
  | [] => None
  | r :: rest =>
      if String.eqb (reg_path r) path && String.eqb (reg_method r) method
      then Some (route_of r)
      else first_registration rest path method
  end.

(** Some route is registered under [path]. *)
Definition path_registered (regs : list registration) (path : string) : bool :=
  existsb (λ r, String.eqb (reg_path r) path) regs.

End Registry.

(** ** Fixtures

    Stand-ins for the collaborators and the events, contexts and route
    functions of [tests/conftest.py] and [tests/test_backend_aws_lambda.py],
    used by the examples. *)

Module Fixtures.
Import Handler.

Definition quote_char : ascii := "034"%char.
Definition backslash : ascii := "092"%char.

Section CodePoints.
Local Open Scope N_scope.

Definition in_range (lo hi : N) (b : byte) : bool :=
  (lo <=? Byte.to_N b) && (Byte.to_N b <=? hi).

Definition continuation (b : byte) : N := Byte.to_N b - 128.

(** [bs.decode("utf-8", "surrogatepass")], as the standard library's
    [json.loads] decodes bytes: the code points of [bs], or [None] for the
    [UnicodeDecodeError] (a stray or missing continuation byte, an overlong
    form, a code point above U+10FFFF). *)
Fixpoint utf8_code_points (bs : list byte) : option (list N) :=
  match bs with
  | [] => Some []
  | b0 :: rest =>
      let n0 := Byte.to_N b0 in
      if n0 <? 128 then cons n0 <$> utf8_code_points rest
      else if in_range 194 223 b0 then
        match rest with
        | b1 :: rest =>
            if in_range 128 191 b1
            then cons ((n0 - 192) * 64 + continuation b1)
                   <$> utf8_code_points rest
            else None
        | _ => None
        end
      else if in_range 224 239 b0 then
        match rest with
        | b1 :: b2 :: rest =>
            if in_range (if n0 =? 224 then 160 else 128) 191 b1
               && in_range 128 191 b2
            then cons ((n0 - 224) * 4096 + continuation b1 * 64
                       + continuation b2)
                   <$> utf8_code_points rest
            else None
        | _ => None
        end
      else if in_range 240 244 b0 then
        match rest with
        | b1 :: b2 :: b3 :: rest =>
            if in_range (if n0 =? 240 then 144 else 128)
                        (if n0 =? 244 then 143 else 191) b1
               && in_range 128 191 b2 && in_range 128 191 b3
            then cons ((n0 - 240) * 262144 + continuation b1 * 4096
                       + continuation b2 * 64 + continuation b3)
                   <$> utf8_code_points rest
            else None
        | _ => None
        end
      else None
  end.

(** The code points of a [str]; bytes that are no UTF-8 sequence stand for
    no [str] and are taken one by one. *)
Definition code_points (s : string) : list N :=
  default (map Byte.to_N (str_encode s)) (utf8_code_points (str_encode s)).

Definition hex_digit (n : N) : ascii :=
  nth (N.to_nat n) (String.list_ascii_of_string "0123456789abcdef") "0"%char.

(** [backslash u] and the four hexadecimal digits of [n]. *)
Definition escape_u (n : N) : list ascii :=
  [backslash; "u"%char; hex_digit (n / 4096); hex_digit (n / 256 mod 16);
   hex_digit (n / 16 mod 16); hex_digit (n mod 16)].

(** One character of [json.encoder.py_encode_basestring_ascii]: the quote,
    the backslash and the control characters with a short form get it, the
    other printable ASCII characters are copied, everything else is written
    as [backslash u] escapes, above U+FFFF as a surrogate pair. *)
Definition escape_code_point (n : N) : list ascii :=
  if n =? 34 then [backslash; quote_char]
  else if n =? 92 then [backslash; backslash]
  else if n =? 10 then [backslash; "n"%char]
  else if n =? 13 then [backslash; "r"%char]
  else if n =? 9 then [backslash; "t"%char]
  else if n =? 12 then [backslash; "f"%char]
  else if n =? 8 then [backslash; "b"%char]
  else if (32 <=? n) && (n <=? 126) then [ascii_of_N n]
  else if n <? 65536 then escape_u n
  else (escape_u (55296 + (n - 65536) / 1024 mod 1024)
        ++ escape_u (56320 + (n - 65536) mod 1024))%list.

End CodePoints.

Definition escape (s : string) : string :=
  String.string_of_list_ascii (flat_map escape_code_point (code_points s)).

Definition quoted (s : string) : string :=
  String quote_char (escape s) +:+ String quote_char EmptyString.

(** [json.dumps] of the standard library with its default separators and
    [ensure_ascii]; [None] is the [TypeError] for a value that is not JSON
    serializable. *)
Fixpoint dumps_text (v : pyval) : option string :=
  match v with
  | PNone => Some "null"
  | PBool true => Some "true"
  | PBool false => Some "false"
  | PInt z => Some (str_of_int z)
  | PStr s => Some (quoted s)
  | PBin _ _ => None
  | PList l =>
      items ← (fix items (l : list pyval) : option string :=
                 match l with
                 | [] => Some EmptyString
                 | [x] => dumps_text x
                 | x :: rest =>
                     a ← dumps_text x; b ← items rest; Some (a +:+ ", " +:+ b)
                 end) l;
      Some ("[" +:+ items +:+ "]")
  | PDict kvs =>
      items ← (fix items (l : list (string * pyval)) : option string :=
                 match l with
                 | [] => Some EmptyString
                 | [(k, x)] => a ← dumps_text x; Some (quoted k +:+ ": " +:+ a)
                 | (k, x) :: rest =>
                     a ← dumps_text x; b ← items rest;
                     Some (quoted k +:+ ": " +:+ a +:+ ", " +:+ b)
                 end) kvs;
      Some ("{" +:+ items +:+ "}")
  end.

Section Repr.
Local Open Scope N_scope.

Definition single_quote : ascii := "039"%char.

(** [backslash x] and the two hexadecimal digits of [n]. *)
Definition escape_x (n : N) : list ascii :=
  [backslash; "x"%char; hex_digit (n / 16 mod 16); hex_digit (n mod 16)].

(** The UTF-8 bytes of a code point. *)
Definition utf8_encode (n : N) : list N :=
  if n <? 128 then [n]
  else if n <? 2048 then [192 + n / 64; 128 + n mod 64]
  else if n <? 65536
  then [224 + n / 4096; 128 + n / 64 mod 64; 128 + n mod 64]
  else [240 + n / 262144; 128 + n / 4096 mod 64; 128 + n / 64 mod 64;
        128 + n mod 64].

(** The quote [repr] wraps a text in: the single quote, unless the text has
    one and no double quote. *)
Definition repr_quote (codes : list N) : N :=
  if existsb (N.eqb 39) codes && negb (existsb (N.eqb 34) codes)
  then 34 else 39.

(** One character of [repr] of a [str] or of bytes: the characters of
    [escaped] (the quote in use and the backslash) get a backslash, tab, line
    feed and carriage return have their short forms, the other control
    characters are written in hexadecimal.  Of the characters above ASCII,
    bytes write all in hexadecimal; a [str] keeps the printable ones, which
    the model takes to be those above U+00A0. *)
Definition repr_code (escaped : list N) (text : bool) (n : N) : list ascii :=
  if existsb (N.eqb n) escaped then [backslash; ascii_of_N n]
  else if n =? 9 then [backslash; "t"%char]
  else if n =? 10 then [backslash; "n"%char]
  else if n =? 13 then [backslash; "r"%char]
  else if (n <? 32) || (n =? 127) then escape_x n
  else if n <? 127 then [ascii_of_N n]
  else if negb text || (n <=? 160) then escape_x n
  else map ascii_of_N (utf8_encode n).

Definition repr_text (s : string) : string :=
  let codes := code_points s in
  let quote := repr_quote codes in
  String (ascii_of_N quote)
    (String.string_of_list_ascii (flat_map (repr_code [quote; 92] true) codes)
     +:+ String (ascii_of_N quote) EmptyString).

(** [repr] of [bytes]; the one of a [bytearray] has the same text between
    other brackets, except that it escapes the single quote whatever the
    quote in use ([always_single]). *)
Definition repr_bytes (always_single : bool) (bs : list byte) : string :=
  let codes := map Byte.to_N bs in
  let quote := repr_quote codes in
  String "b"%char
    (String (ascii_of_N quote)
       (String.string_of_list_ascii
          (flat_map
             (repr_code (if always_single then [39; 92] else [quote; 92]) false)
             codes)
        +:+ String (ascii_of_N quote) EmptyString)).

End Repr.

(** The builtin [repr]; the address in the text of a [memoryview] is left
    out. *)
Fixpoint py_repr (v : pyval) : string :=
  match v with
  | PNone => "None"
  | PBool true => "True"
  | PBool false => "False"
  | PInt z => str_of_int z
  | PStr s => repr_text s
  | PBin Bytes bs => repr_bytes false bs
  | PBin ByteArray bs => "bytearray(" +:+ repr_bytes true bs +:+ ")"
  | PBin MemoryView _ => "<memory>"
  | PList l =>
      "[" +:+ (fix items (l : list pyval) : string :=
                 match l with
                 | [] => EmptyString
                 | [x] => py_repr x
                 | x :: rest => py_repr x +:+ ", " +:+ items rest
                 end) l +:+ "]"
  | PDict kvs =>
      "{" +:+ (fix items (l : list (string * pyval)) : string :=
                 match l with
                 | [] => EmptyString
                 | [(k, x)] => repr_text k +:+ ": " +:+ py_repr x
                 | (k, x) :: rest =>
                     repr_text k +:+ ": " +:+ py_repr x +:+ ", " +:+ items rest
                 end) kvs +:+ "}"
  end.

(** The builtin [str]: a text is itself, any other value its [repr]. *)
Definition fixture_str (v : pyval) : string :=
  match v with
  | PStr s => s
  | _ => py_repr v
  end.

(** [init_event_context] of [conftest.py], version 2, with the body already
    serialized. *)
Definition init_event_context (path method : string) (body : pyval) : pyval :=
  PDict [("version", PStr "2.0");
         ("rawPath", PStr path);
         ("headers", PDict []);
         ("requestContext",
          PDict [("http", PDict [("method", PStr method); ("path", PStr path)]);
                 ("requestId", PStr "0123456789abcdef")]);
         ("isBase64Encoded", PBool false);
         ("body", body)].

(** The same event with the entry [eventRaisesExceptions] set to [False]:
    what a publisher writes to have the faults of its message answered
    rather than raised. *)
Definition quiet_event_context (path method : string) (body : pyval) : pyval :=
  match init_event_context path method body with
  | PDict kvs => PDict (kvs ++ [("eventRaisesExceptions", PBool false)])
  | v => v
  end.

(** The documents the stand-in decoder knows: [loads] inverts [dumps_text]
    on them and takes any other text for malformed JSON. *)
Definition documents : list pyval :=
  [PDict [];
   PInt 1;
   init_event_context "/" "GET" (PStr "{}");
   init_event_context "/raise_400" "GET" (PStr "{}");
   init_event_context "/raise_500" "GET" (PStr "{}");
   quiet_event_context "/raise_500" "GET" (PStr "{}")].

Definition known_document (text : string) : result pyval :=
  match
    List.find (λ d, bool_decide (dumps_text d = Some text)) documents
  with
  | Some d => Return d
  | None => Raise JSONDecodeError
  end.

(** [json.loads] of the standard library, the fallback of [json.py]: a
    [str] is parsed as it is, [bytes] and [bytearray] are decoded as UTF-8
    first, which raises [UnicodeDecodeError] on bytes that are not UTF-8,
    and any other object is a [TypeError].  (Byte-order marks and the
    decoder's detection of UTF-16 and UTF-32 input, by zero bytes in front,
    are not modelled.) *)
Definition fixture_loads (v : pyval) : result pyval :=
  match v with
  | PStr s => known_document s
  | PBin Bytes bs | PBin ByteArray bs =>
      match utf8_code_points bs with
      | Some _ => known_document (String.string_of_list_byte bs)
      | None => Raise UnicodeDecodeError
      end
  | _ => Raise TypeError
  end.

Definition fixture_status_message (status : Z) : string :=
  if Z.eqb status 400 then "Bad Request"
  else if Z.eqb status 401 then "Unauthorized"
  else if Z.eqb status 404 then "Not Found"
  else if Z.eqb status 405 then "Method Not Allowed"
  else if Z.eqb status 422 then "Unprocessable Entity"
  else if Z.eqb status 500 then "Internal Server Error"
  else if Z.eqb status 503 then "Service Unavailable"
  else EmptyString.

Definition fixture_externals : Externals := {|
  loads := fixture_loads;
  dumps v := match dumps_text v with
             | Some s => Return s
             | None => Raise TypeError
             end;
  py_str := fixture_str;
  get_status_message := fixture_status_message;
  status_code_from_exception e ev :=
    ((500, PNone),
     ev_set_error_detail (PStr "Traceback (most recent call last):") ev);
|}.

(** Route functions of [test_batch]: [get] returns [None], [get400] raises
    [HTTPException(400)], [get500] raises [ValueError("Invalid value.")]. *)
Definition get (kwargs : list (string * arg)) : result Coroutine :=
  Return (λ frame, Suspended (Done (Return (Content PNone), frame))).

Definition get400 (kwargs : list (string * arg)) : result Coroutine :=
  Return (λ frame, Done (Raise (HTTPException 400 PNone PNone), frame)).

Definition get500 (kwargs : list (string * arg)) : result Coroutine :=
  Return (λ frame, Done (Raise (ValueError "Invalid value."), frame)).

Definition routes : Routes :=
  Registry.register_all
    [ {| Registry.reg_path := "/"; Registry.reg_method := "GET";
         Registry.reg_status := None; Registry.reg_func := get;
         Registry.reg_params := [] |};
      {| Registry.reg_path := "/raise_400"; Registry.reg_method := "GET";
         Registry.reg_status := None; Registry.reg_func := get400;
         Registry.reg_params := [] |};
      {| Registry.reg_path := "/raise_500"; Registry.reg_method := "GET";
         Registry.reg_status := None; Registry.reg_func := get500;
         Registry.reg_params := [] |} ].

(** The serialized requests of [test_batch]. *)
Definition req (path : string) : pyval :=
  PStr (default EmptyString
          (dumps_text (init_event_context path "GET" (PStr "{}")))).

Definition quiet_req (path : string) : pyval :=
  PStr (default EmptyString
          (dumps_text (quiet_event_context path "GET" (PStr "{}")))).

Definition sqs_record (id : string) (body : pyval) : pyval :=
  PDict [("messageId", PStr id); ("body", body); ("eventSource", PStr "aws:sqs")].

Definition sns_record (id : string) (message : pyval) : pyval :=
  PDict [("messageId", PStr id); ("Sns", PDict [("Message", message)]);
         ("eventSource", PStr "aws:sns")].

Definition mq_event (messages : list pyval) : list (string * pyval) :=
  [("eventSource", PStr "aws:mq"); ("messages", PList messages)].

Definition mq_message (id : string) (data : pyval) : pyval :=
  PDict [("messageId", PStr id); ("data", data)].

(** The batches of [test_batch]: a queue batch whose items 2 and 3 fail,
    and a broker batch whose second message reaches [get500]. *)
Definition sqs_event : list (string * pyval) :=
  [("Records",
    PList [sqs_record "1" (req "/"); sqs_record "2" (req "/raise_400");
           sqs_record "3" (req "/raise_500"); sqs_record "4" (req "/")])].

Definition sns_event : list (string * pyval) :=
  [("Records", PList [sns_record "1" (req "/"); sns_record "2" (req "/")])].

Definition failing_mq_event : list (string * pyval) :=
  mq_event [mq_message "1" (req "/"); mq_message "2" (req "/raise_500")].

(** A topic batch whose second message asks for its faults to be answered. *)
Definition quiet_sns_event : list (string * pyval) :=
  [("Records",
    PList [sns_record "1" (req "/"); sns_record "2" (quiet_req "/raise_500")])].

(** A direct invocation, as [init_event_context] builds it. *)
Definition direct_event (path method : string) (body : pyval)
  : list (string * pyval) :=
  match init_event_context path method body with
  | PDict kvs => kvs
  | _ => []
  end.

(** The request of a direct invocation of [path] with [GET]. *)
Definition direct_request (path : string) : Request.t :=
  Request.__init__ Request.AwsRequest (init_event_context path "GET" PNone)
    PNone (PStr path) (PStr "GET") None PNone (PBool true).

(** The request of [test_binary_body]: the body [b"test"]. *)
Definition binary_request : Request.t :=
  Request.__init__ Request.Request PNone PNone (PStr "/") (PStr "POST") None
    (PBin Bytes (str_encode "test")) (PBool false).

(** A request whose body is the single byte [0xff], which is not UTF-8. *)
Definition undecodable_request : Request.t :=
  Request.__init__ Request.Request PNone PNone (PStr "/") (PStr "POST") None
    (PBin Bytes [Byte.xff]) (PBool false).

(** [Response(body, media_type="application/octet-stream")] of
    [test_binary_body], as [__init__] leaves it. *)
Definition binary_response : Response.t :=
  fst (Response.__init__ Response.Response (PBin Bytes (str_encode "test")) 200
         None (Some "application/octet-stream")
         (create_event binary_request)).

End Fixtures.

(** ** Vocabulary of the properties *)

(** [event] is a batch payload whose source names the kind [name] (the text
    after the colon: [sqs] for a queue, [sns] for a topic, [mq] for a
    broker). *)
Definition batch_of_kind (event : list (string * pyval)) (name : string) : Prop :=
  assoc_get "requestContext" event = None
  ∧ ∃ source, Backend.find_event_source event = Some (Return source)
              ∧ source_name source = Return name.

(** [r'] is the request object [r], possibly with its lazily computed
    attributes filled in. *)
Definition same_origin (r r' : Request.t) : Prop :=
  Request.cls r' = Request.cls r ∧ Request.event r' = Request.event r.

(** The pair reports a failure: [response.status_code >= 400]. *)
Definition failed (p : Response.t * Request.t) : bool :=
  (400 <=? Response._status_code (fst p))%Z.

(** The failure report of the queue trigger for the message ids [ids]. *)
Definition batchItemFailures (ids : list pyval) : pyval :=
  PDict [("batchItemFailures",
          PList (map (λ id, PDict [("itemIdentifier", id)]) ids))].

(** The entry of the request's event under the key [k]. *)
Definition event_entry (r : Request.t) (k : string) : option pyval :=
  match Request.event r with
  | PDict kvs => assoc_get k kvs
  | _ => None
  end.

(** The flag a decoded record asks for: its entry [eventRaisesExceptions],
    [True] when it has none. *)
Definition requested_flag (document : pyval) : pyval :=
  match document with
  | PDict kvs => default (PBool true) (assoc_get "eventRaisesExceptions" kvs)
  | _ => PBool true
  end.

(** The records of a batch payload, [event[key]] in iteration order, and
    the JSON text a record carries: [record["Sns"]["Message"]] for a topic,
    [record["data"]] for a broker. *)
Definition batch_records (event : list (string * pyval)) (key : string)
  : result (list pyval) :=
  getitem (PDict event) key ≫= iterate.

Definition topic_message (record : pyval) : result pyval :=
  getitem record "Sns" ≫= (λ sns, getitem sns "Message").

Definition broker_data (record : pyval) : result pyval :=
  getitem record "data".

(** The request of a direct invocation, or [dflt]. *)
Definition parsed_single (p : result parsed) (dflt : Request.t) : Request.t :=
  match p with
  | Return (Single r) => r
  | _ => dflt
  end.

(** The requests of a parse result and their [raises_exceptions] flags. *)
Definition parsed_requests (p : result parsed) : list Request.t :=
  match p with
  | Return (Single r) => [r]
  | Return (Many rs) => rs
  | Raise _ => []
  end.

Definition raises_flags (p : result parsed) : list pyval :=
  map Request._raises_exceptions (parsed_requests p).

(** An exception that is neither an [HTTPException] nor a
    [ValidationError]. *)
Definition unhandled_fault (e : exception) : Prop :=
  match e with
  | HTTPException _ _ _ | ValidationError _ => False
  | _ => True
  end.

(** Handling [request] returns the response and leaves the request object as
    in the pair [p]. *)
Definition handled `{!Externals}
    (routes : gmap string (gmap string Handler._APIRoute))
    (request : Request.t) (p : Response.t * Request.t) : Prop :=
  ∃ ev, force (Handler._handle_request routes request) = (Return (fst p), ev, snd p).

(** Every task gets more turns in [schedule] than it has suspension
    points. *)
Definition enough_turns {A} (schedule : list nat) (coros : list (coro A)) : Prop :=
  ∀ i c, coros !! i = Some c → (suspensions c < count_occ Nat.eq_dec schedule i)%nat.

(** The response envelope of a direct invocation. *)
Definition envelope (body : pyval) (response : Response.t)
    (is_base64_encoded : bool) : pyval :=
  PDict [("body", body);
         ("statusCode", PStr (str_of_int (Response._status_code response)));
         ("headers", PDict (Response._headers response));
         ("isBase64Encoded", PBool is_base64_encoded)].

(** The outcome of handling each request on its own, as pairs. *)
Definition handle_each `{!Externals}
    (routes : gmap string (gmap string Handler._APIRoute))
    (requests : list Request.t) : list (result Response.t * Request.t) :=
  map (λ request,
         let '(r, _, request1) := force (Handler._handle_request routes request) in
         (r, request1))
    requests.

(** The pairs among them that carry a response. *)
Definition returned_pairs (outcomes : list (result Response.t * Request.t))
  : list (Response.t * Request.t) :=
  omap (λ o, match fst o with
             | Return response => Some (response, snd o)
             | Raise _ => None
             end)
    outcomes.

(** ** The route decorators of [Handler]

    [delete], [get], [head], [options], [patch], [post] and [put] of
    [_core.py]: each is [_api_route] with its method name. *)

Module Decorators.
Import Handler.

Definition decorator : Type :=
  string → option Z → (list (string * arg) → result Coroutine) →
  list (string * param_cls) → Routes → result unit * Routes.

Definition delete : decorator := λ path status, _api_route path "DELETE" status.
Definition get : decorator := λ path status, _api_route path "GET" status.
Definition head : decorator := λ path status, _api_route path "HEAD" status.
Definition options : decorator := λ path status, _api_route path "OPTIONS" status.
Definition patch : decorator := λ path status, _api_route path "PATCH" status.
Definition post : decorator := λ path status, _api_route path "POST" status.
Definition put : decorator := λ path status, _api_route path "PUT" status.

(** The decorators with the method each one serves. *)
Definition all : list (string * decorator) :=
  [("DELETE", delete); ("GET", get); ("HEAD", head); ("OPTIONS", options);
   ("PATCH", patch); ("POST", post); ("PUT", put)].

End Decorators.

(** The route stored in the table under [(path, method)]. *)
Definition registered (routes : gmap string (gmap string Handler._APIRoute))
    (path method : string) : option Handler._APIRoute :=
  routes !! path ≫= (λ path_routes, path_routes !! method).

(** The route object [_api_route] builds. *)
Definition new_route (status : option Z)
    (f : list (string * Handler.arg) → result Handler.Coroutine)
    (ps : list (string * Handler.param_cls)) : Handler._APIRoute :=
  {| Handler.func := f;
     Handler.status_code := match status with
                            | Some c => if Z.eqb c 0 then 200 else c
                            | None => 200
                            end;
     Handler.params := ps |}.

(** The headers dictionary of an event: [event.get("headers") or dict()]. *)
Definition event_headers (event : list (string * pyval)) : list (string * pyval) :=
  match assoc_get "headers" event with
  | Some (PDict headers) => headers
  | _ => []
  end.

(** A character the Base64 decoder reads: one of the alphabet or the
    padding character. *)
Definition base64_significant (c : byte) : bool :=
  Base64.is_pad c || match Base64.val c with Some _ => true | None => false end.

(** ** Further scenarios

    Registrations, route functions, events and requests for the examples of
    the further properties. *)

Module Scenarios.
Import Handler Fixtures.

(** The registration of [get] under the root path. *)
Definition root_registration : Registry.registration :=
  {| Registry.reg_path := "/"; Registry.reg_method := "GET";
     Registry.reg_status := None; Registry.reg_func := get;
     Registry.reg_params := [] |}.

(** The table of a handler before any registration. *)
Definition no_routes : Routes := ∅.

(** A route function that raises [ValidationError] and one that returns a
    full [Response] with the status 418. *)
Definition invalid (kwargs : list (string * arg)) : result Coroutine :=
  Return (λ frame,
            Done (Raise (ValidationError
                           (PList [PStr "value is not a valid integer"])),
                  frame)).

Definition teapot_coroutine : Coroutine :=
  λ frame,
    let '(response, ev) :=
      Response.__init__ Response.Response (PStr "tea") 418 None
        (Some "text/plain") (f_event frame) in
    Done (Return (FullResponse response),
          {| f_event := ev; f_request := f_request frame;
             f_response := f_response frame |}).

Definition teapot (kwargs : list (string * arg)) : result Coroutine :=
  Return teapot_coroutine.

Definition teapot_registration : Registry.registration :=
  {| Registry.reg_path := "/teapot"; Registry.reg_method := "GET";
     Registry.reg_status := None; Registry.reg_func := teapot;
     Registry.reg_params := [] |}.

Definition more_routes : Routes :=
  Registry.register_all
    [ {| Registry.reg_path := "/invalid"; Registry.reg_method := "GET";
         Registry.reg_status := None; Registry.reg_func := invalid;
         Registry.reg_params := [] |};
      teapot_registration ].

(** The frame in which the route function of [GET /teapot] runs: the log
    event and the default response as [_prepare_request] leaves them. *)
Definition teapot_frame : Frame :=
  {| f_event := snd (JSONResponse PNone 200
                       (create_event (direct_request "/teapot")));
     f_request := direct_request "/teapot";
     f_response := fst (JSONResponse PNone 200
                          (create_event (direct_request "/teapot"))) |}.

(** An event of the REST API, whose client sent its own request id in
    mixed case, and one of the HTTP API whose client sent it in lower
    case. *)
Definition rest_context : list (string * pyval) :=
  [("httpMethod", PStr "GET"); ("path", PStr "/");
   ("requestId", PStr "0123456789abcdef")].

Definition rest_event : list (string * pyval) :=
  [("requestContext", PDict rest_context);
   ("headers", PDict [("X-Request-Id", PStr "sent-by-client")])].

Definition http_context : list (string * pyval) :=
  [("http", PDict [("method", PStr "GET"); ("path", PStr "/")]);
   ("requestId", PStr "0123456789abcdef")].

Definition traced_event : list (string * pyval) :=
  [("requestContext", PDict http_context);
   ("headers", PDict [("x-request-id", PStr "sent-by-client")])].

(** The request of an event, or [binary_request] when it has none. *)
Definition request_of `{!Externals} (event : list (string * pyval)) : Request.t :=
  parsed_single (Backend.parse_request event PNone) binary_request.

(** A request whose event carries the body [text], flagged as Base64. *)
Definition encoded_event (text : string) : list (string * pyval) :=
  [("body", PStr text); ("isBase64Encoded", PBool true)].

Definition encoded_request (text : string) : Request.t :=
  Request.__init__ Request.AwsRequest (PDict (encoded_event text)) PNone
    (PStr "/") (PStr "POST") None PNone (PBool true).

(** The Base64 text of [b"test"] broken by a line feed. *)
Definition broken_text : string :=
  "dGVz" +:+ String "010"%char "dA==".

(** A batch from a source that has no parser. *)
Definition stream_event : list (string * pyval) :=
  [("eventSource", PStr "aws:kinesis"); ("Records", PList [])].

(** The JSON text of the detail of a 404 answer. *)
Definition not_found_text : string :=
  default EmptyString (dumps_text (PDict [("detail", PStr "Not Found")])).

(** The second request of the broker batch of [test_batch]. *)
Definition failing_request `{!Externals} : Request.t :=
  default binary_request
    (parsed_requests (Backend.parse_request failing_mq_event PNone) !! 1%nat).

End Scenarios.

(** * Properties *)

(** ** Coroutines *)

Lemma force_coro_bind {A B} (c : coro A) (f : A → coro B) :
  force (coro_bind c f) = force (f (force c)).
Proof. induction c as [a|k IH]; simpl; [reflexivity | exact IH]. Qed.

(** ** The status/content coupling of [Response] *)

Section ResponseCoupling.
Context {ext : Externals}.
Import Response.

Lemma status_code_setter_event self value ev :
  ev_status_code (snd (status_code_setter self value ev))
  = Some (_status_code (fst (status_code_setter self value ev))).
Proof. reflexivity. Qed.

Lemma init_status c content status headers media_type ev :
  _status_code (fst (__init__ c content status headers media_type ev))
  = (if is_None content && Z.eqb status 200 then 204 else status)
  ∧ _content (fst (__init__ c content status headers media_type ev)) = content
  ∧ ev_status_code (snd (__init__ c content status headers media_type ev))
    = Some (if is_None content && Z.eqb status 200 then 204 else status).
Proof. unfold __init__, status_code_setter; simpl. auto. Qed.

(** What [_handle_request] returns when the route function returns a
    content and leaves the in-flight response as [_prepare_request] made
    it. *)
Lemma handle_request_content routes request route body request1 coroutine
    content (frame : Handler.Frame) :
  Handler.lookup_route routes (Request._path request) (Request._method request)
    = Return route →
  Request.json request = (Return body, request1) →
  Handler.func route
    (Handler.inject (Handler.params route)
       match body with
       | PDict kvs => map (λ kv, (fst kv, Handler.ArgValue (snd kv))) kvs
       | _ => []
       end) = Return coroutine →
  let '(response, ev) :=
    Handler.JSONResponse PNone (Handler.status_code route)
      (Handler.create_event request) in
  force (coroutine {| Handler.f_event := ev; Handler.f_request := request1;
                      Handler.f_response := response |})
    = (Return (Handler.Content content), frame) →
  force (Handler._handle_request routes request)
  = (Return (fst (content_setter (Handler.f_response frame) content
                    (Handler.f_event frame))),
     snd (content_setter (Handler.f_response frame) content
            (Handler.f_event frame)),
     Handler.f_request frame).
Proof.
  intros Hroute Hjson Hfunc.
  destruct (Handler.JSONResponse _ _ _) as [response ev] eqn:Hresp.
  intros Hco.
  unfold Handler._handle_request, Handler.attempt, Handler._prepare_request.
  rewrite Hroute, Hresp, Hjson, Hfunc.
  unfold Handler._call_route_function.
  rewrite !force_coro_bind, Hco. simpl.
  destruct (content_setter _ _ _); reflexivity.
Qed.

(** C6.  Setting [status_code] to 200 on a response without content stores
    204 (in the object and in the log event); setting a content other than
    [None] on a response whose status is 204 stores 200.  So, on a route
    whose default status is 200, a route function that returns [None] and
    leaves the objects of the attempt alone is answered with status 204, and
    a content assigned to that response afterwards brings it back to 200. *)
Theorem C6_status_content_coupling
    (r1 r2 : Response.t) (value : pyval) (ev : LogEvent)
    (routes : gmap string (gmap string Handler._APIRoute))
    (request request1 : Request.t) (route : Handler._APIRoute)
    (json_body : pyval) (coroutine : Handler.Coroutine)
    (Hnone : _content r1 = PNone)
    (H204 : _status_code r2 = 204)
    (Hvalue : value ≠ PNone)
    (Hroute : Handler.lookup_route routes (Request._path request)
                (Request._method request) = Return route)
    (Hdefault : Handler.status_code route = 200)
    (Hjson : Request.json request = (Return json_body, request1))
    (Hfunc : Handler.func route
               (Handler.inject (Handler.params route)
                  match json_body with
                  | PDict kvs => map (λ kv, (fst kv, Handler.ArgValue (snd kv))) kvs
                  | _ => []
                  end) = Return coroutine)
    (Hreturn : ∀ frame,
        force (coroutine frame) = (Return (Handler.Content PNone), frame)) :
  (_status_code (fst (status_code_setter r1 200 ev)) = 204
   ∧ ev_status_code (snd (status_code_setter r1 200 ev)) = Some 204)
  ∧ (_status_code (fst (content_setter r2 value ev)) = 200
     ∧ _content (fst (content_setter r2 value ev)) = value
     ∧ ev_status_code (snd (content_setter r2 value ev)) = Some 200)
  ∧ ∃ response ev1,
      force (Handler._handle_request routes request)
      = (Return response, ev1, request1)
      ∧ _status_code response = 204
      ∧ _content response = PNone
      ∧ ev_status_code ev1 = Some 204
      ∧ _status_code (fst (content_setter response value ev1)) = 200
      ∧ _content (fst (content_setter response value ev1)) = value.
Proof.
  assert (Hv : is_None value = false) by (destruct value; simpl; congruence).
  split; [| split].
  - unfold status_code_setter. rewrite Hnone. split; reflexivity.
  - unfold content_setter. simpl. rewrite Hv, H204. repeat split.
  - pose proof (handle_request_content routes request route json_body request1
                  coroutine PNone) as Hhandle.
    rewrite Hdefault in Hhandle.
    destruct (Handler.JSONResponse PNone 200 (Handler.create_event request))
      as [response0 ev0] eqn:Hresp.
    specialize (Hhandle _ Hroute Hjson Hfunc (Hreturn _)).
    unfold Handler.JSONResponse, __init__, status_code_setter in Hresp.
    simpl in Hresp. injection Hresp as <- <-.
    eexists _, _. split; [exact Hhandle |].
    unfold content_setter. simpl. rewrite Hv. simpl. repeat split.
Qed.

End ResponseCoupling.

(** ** Association lists *)

Lemma assoc_get_set_eq {V} k (v : V) kvs : assoc_get k (assoc_set k v kvs) = Some v.
Proof.
  induction kvs as [|[k' v'] rest IH]; simpl.
  - rewrite String.eqb_refl. reflexivity.
  - destruct (String.eqb k k') eqn:E; simpl; rewrite E; [reflexivity | exact IH].
Qed.

Lemma assoc_get_set_ne {V} k k' (v : V) kvs :
  k ≠ k' → assoc_get k (assoc_set k' v kvs) = assoc_get k kvs.
Proof.
  intros Hne. induction kvs as [|[k0 v0] rest IH]; simpl.
  - destruct (String.eqb_spec k k'); congruence.
  - destruct (String.eqb_spec k' k0) as [->|Hk0]; simpl.
    + destruct (String.eqb_spec k k0); congruence.
    + destruct (String.eqb_spec k k0); [reflexivity | exact IH].
Qed.

(** ** The batch serializers *)

Section BatchSerializers.
Import Backend.

Lemma failures_filter (resp_req : list (Response.t * Request.t)) (ids : list pyval) :
  Forall2 (λ p id, message_id (snd p) = Return id) resp_req ids →
  failures resp_req
  = Return (map snd (List.filter (λ pi, failed (fst pi)) (zip resp_req ids))).
Proof.
  induction 1 as [|[response request] id rest ids' Hid _ IH]; simpl.
  - reflexivity.
  - unfold failed at 1. simpl in *.
    destruct (400 <=? Response._status_code response)%Z; simpl.
    + rewrite Hid. simpl. rewrite IH. reflexivity.
    + exact IH.
Qed.

Lemma filter_failed_nil (resp_req : list (Response.t * Request.t)) (ids : list pyval) :
  length resp_req = length ids →
  List.filter (λ pi, failed (fst pi)) (zip resp_req ids) = []
  ↔ Forall (λ p, (Response._status_code (fst p) < 400)%Z) resp_req.
Proof.
  revert ids. induction resp_req as [|p rest IH]; intros [|id ids] Hlen;
    simpl in *; try discriminate.
  - split; [constructor | reflexivity].
  - unfold failed at 1. simpl.
    destruct (Z.leb_spec 400 (Response._status_code (fst p))) as [Hge|Hlt].
    + split; [discriminate |]. intros HF. inversion HF; subst. lia.
    + rewrite (IH ids) by lia. split.
      * intros HF. constructor; assumption.
      * intros HF. inversion HF; assumption.
Qed.

(** C1.  For pairs whose requests carry the message id of their record,
    [_serialize_event_sqs] reports exactly the ids of the pairs with
    [status_code >= 400], in order: a [batchItemFailures] object when there
    is at least one, and [None], never an empty list, when there is none.
    It is what [serialize_responses] returns for the pairs of a queue
    batch. *)
Theorem C1_sqs_failure_report
    (resp_req : list (Response.t * Request.t)) (ids : list pyval)
    (Hids : Forall2 (λ p id, message_id (snd p) = Return id) resp_req ids) :
  let failed_ids :=
    map snd (List.filter (λ pi, failed (fst pi)) (zip resp_req ids)) in
  _serialize_event_sqs resp_req
  = Return (match failed_ids with
            | [] => PNone
            | _ => batchItemFailures failed_ids
            end)
  ∧ (_serialize_event_sqs resp_req = Return PNone
     ↔ Forall (λ p, (Response._status_code (fst p) < 400)%Z) resp_req)
  ∧ (∀ first, head resp_req = Some first →
       event_source (snd first) = Return (PStr "aws:sqs") →
       serialize_responses resp_req = _serialize_event_sqs resp_req).
Proof.
  intros failed_ids.
  assert (Hdispatch : ∀ first, head resp_req = Some first →
            event_source (snd first) = Return (PStr "aws:sqs") →
            serialize_responses resp_req = _serialize_event_sqs resp_req).
  { intros first Hhead Hsource. destruct resp_req as [|[response first_req] rest];
      [discriminate |].
    simpl in Hhead. injection Hhead as <-. simpl in Hsource.
    unfold serialize_responses. rewrite Hsource. reflexivity. }
  assert (Hser : _serialize_event_sqs resp_req
                 = Return (match failed_ids with
                           | [] => PNone
                           | _ => batchItemFailures failed_ids
                           end)).
  { unfold _serialize_event_sqs. rewrite (failures_filter _ _ Hids). simpl.
    fold failed_ids. destruct failed_ids; reflexivity. }
  split; [exact Hser |]. split; [| exact Hdispatch].
  rewrite Hser, <- (filter_failed_nil resp_req ids)
    by (eapply Forall2_length; eassumption).
  subst failed_ids.
  destruct (List.filter _ _) as [|x l]; simpl.
  - split; reflexivity.
  - split; discriminate.
Qed.

(** A batch whose first request names another source is not acknowledged. *)
Lemma serialize_responses_other response first_req rest source name :
  event_source first_req = Return source →
  source_name source = Return name →
  name ≠ "sqs" →
  serialize_responses ((response, first_req) :: rest) = Return PNone.
Proof.
  intros Hsrc Hname Hne. unfold serialize_responses.
  rewrite Hsrc. simpl. rewrite Hname. simpl. unfold _serialize_event.
  destruct (String.eqb_spec name "sqs"); [contradiction | reflexivity].
Qed.

End BatchSerializers.

(** ** Parsing trigger payloads *)

(** Case analysis on the matches of a hypothesis about a monadic
    computation. *)
Ltac run_result H :=
  repeat (simpl in H; unfold mbind, result_bind, fmap, result_fmap in H;
          first [ discriminate H
                | match type of H with
                  | context [match ?x with _ => _ end] =>
                      let E := fresh "E" in destruct x eqn:E
                  end ]);
  simpl in H.

Section Parsing.
Context {ext : Externals}.
Import Backend.

Lemma getitem_set_eq o k v o' :
  setitem o k v = Return o' → getitem o' k = Return v.
Proof.
  destruct o; simpl; try discriminate. intros [= <-]. simpl.
  rewrite assoc_get_set_eq. reflexivity.
Qed.

Lemma getitem_set_ne o k k' v o' :
  setitem o k' v = Return o' → k ≠ k' →
  getitem o' k = getitem o k.
Proof.
  destruct o; simpl; try discriminate. intros [= <-] Hne. simpl.
  rewrite assoc_get_set_ne by exact Hne. reflexivity.
Qed.

Lemma dict_get_set_eq o k v o' dflt :
  setitem o k v = Return o' → dict_get o' k dflt = Return v.
Proof.
  destruct o; simpl; try discriminate. intros [= <-]. simpl.
  rewrite assoc_get_set_eq. reflexivity.
Qed.

(** What [aws_lambda.Request.__init__] stores: the flag it is given and the
    event, whose entries other than [headers] are untouched. *)
Lemma aws__init__stores ev ctx flag r :
  Request.aws__init__ ev ctx flag = Return r →
  Request.cls r = Request.AwsRequest
  ∧ Request._raises_exceptions r = flag
  ∧ Request._json r = None
  ∧ ∃ kvs kvs', ev = PDict kvs ∧ Request.event r = PDict kvs'
      ∧ ∀ k, k ≠ "headers" → assoc_get k kvs' = assoc_get k kvs.
Proof.
  unfold Request.aws__init__. intros Hr.
  destruct ev as [| | | | | |kvs]; try discriminate Hr.
  run_result Hr; simplify_eq; simpl; repeat split; try reflexivity;
    eexists _, _; repeat split; intros k Hk;
    rewrite ?assoc_get_set_ne by exact Hk; reflexivity.
Qed.

Lemma parse_record_sqs_spec record record_event :
  _parse_record_sqs record = Return record_event →
  getitem record_event "eventSource" = Return (PStr "aws:sqs")
  ∧ dict_get record_event "eventRaisesExceptions" (PBool true)
    = Return (PBool false).
Proof.
  unfold _parse_record_sqs. intros Hp. run_result Hp. split.
  - rewrite (getitem_set_ne _ _ _ _ _ Hp) by discriminate.
    match goal with
    | Hd : setitem _ "eventData" _ = Return _ |- _ =>
        rewrite (getitem_set_ne _ _ _ _ _ Hd) by discriminate
    end.
    eapply getitem_set_eq; eassumption.
  - eapply dict_get_set_eq; eassumption.
Qed.

Lemma parse_record_sns_spec record record_event :
  _parse_record_sns record = Return record_event →
  getitem record_event "eventSource" = Return (PStr "aws:sns").
Proof.
  unfold _parse_record_sns. intros Hp. run_result Hp.
  rewrite (getitem_set_ne _ _ _ _ _ Hp) by discriminate.
  eapply getitem_set_eq; eassumption.
Qed.

Lemma parse_record_mq_spec record record_event :
  _parse_record_mq record = Return record_event →
  getitem record_event "eventSource" = Return (PStr "aws:mq").
Proof.
  unfold _parse_record_mq. intros Hp. run_result Hp.
  rewrite (getitem_set_ne _ _ _ _ _ Hp) by discriminate.
  eapply getitem_set_eq; eassumption.
Qed.

(** A property of every parsed record event passes to every request of the
    batch. *)
Lemma parse_records_Forall parse ctx (P : pyval → Prop) (Q : Request.t → Prop) :
  (∀ record record_event, parse record = Return record_event → P record_event) →
  (∀ record_event flag r,
     P record_event →
     dict_get record_event "eventRaisesExceptions" (PBool true) = Return flag →
     Request.aws__init__ record_event ctx flag = Return r → Q r) →
  ∀ records rs, parse_records parse ctx records = Return rs → Forall Q rs.
Proof.
  intros HP HQ. induction records as [|record rest IH]; intros rs Hrs.
  - simpl in Hrs. simplify_eq. constructor.
  - simpl in Hrs. run_result Hrs. simplify_eq.
    constructor; [| apply IH; reflexivity].
    eapply HQ; [eapply HP | |]; eassumption.
Qed.

(** A batch payload is parsed record by record by the parser of its
    kind. *)
Lemma parse_request_batch event ctx name rs :
  batch_of_kind event name →
  parse_request event ctx = Return (Many rs) →
  ∃ key parse records,
    _parse_event name = Return (key, parse)
    ∧ parse_records parse ctx records = Return rs.
Proof.
  intros (Hdirect & source & Hsrc & Hname) Hparse.
  unfold parse_request in Hparse. rewrite Hdirect, Hsrc in Hparse.
  simpl in Hparse. rewrite Hname in Hparse.
  run_result Hparse. simplify_eq. eauto.
Qed.

(** The same, with the records the batch is read from. *)
Lemma parse_request_batch_records event ctx name rs :
  batch_of_kind event name →
  parse_request event ctx = Return (Many rs) →
  ∃ key parse records,
    _parse_event name = Return (key, parse)
    ∧ batch_records event key = Return records
    ∧ parse_records parse ctx records = Return rs.
Proof.
  intros (Hdirect & source & Hsrc & Hname) Hparse.
  unfold parse_request in Hparse. rewrite Hdirect, Hsrc in Hparse.
  unfold mbind, result_bind in Hparse. cbv beta iota in Hparse.
  rewrite Hname in Hparse.
  destruct (_parse_event name) as [[key parse]|]; [| discriminate].
  destruct (getitem (PDict event) key) as [items|] eqn:Hget; [| discriminate].
  destruct (iterate items) as [records|] eqn:Hiter; [| discriminate].
  destruct (parse_records parse ctx records) as [rs'|] eqn:Hrecords;
    [| discriminate].
  injection Hparse as <-.
  exists key, parse, records. unfold batch_records. rewrite Hget.
  auto.
Qed.

(** A relation between a record and the request made of it passes to the
    whole batch, record by record, in order. *)
Lemma parse_records_Forall2 parse ctx (R : pyval → Request.t → Prop) :
  (∀ record record_event flag r,
     parse record = Return record_event →
     dict_get record_event "eventRaisesExceptions" (PBool true) = Return flag →
     Request.aws__init__ record_event ctx flag = Return r → R record r) →
  ∀ records rs, parse_records parse ctx records = Return rs →
                Forall2 R records rs.
Proof.
  intros HR. induction records as [|record rest IH]; intros rs Hrs.
  - simpl in Hrs. simplify_eq. constructor.
  - simpl in Hrs. run_result Hrs. simplify_eq.
    constructor; [| apply IH; reflexivity].
    eapply HR; eassumption.
Qed.

Lemma dict_pop_getitem o k v o' :
  dict_pop o k = Return (v, o') → getitem o k = Return v.
Proof.
  destruct o as [| | | |[]| |kvs]; simpl; try discriminate.
  destruct (assoc_get k kvs); [| discriminate]. congruence.
Qed.

(** The two entries a topic or broker parser writes into the decoded
    document leave its [eventRaisesExceptions] entry as [loads] returned
    it. *)
Lemma source_and_data_keep_flag document source data e1 e2 :
  setitem document "eventSource" source = Return e1 →
  setitem e1 "eventData" data = Return e2 →
  dict_get e2 "eventRaisesExceptions" (PBool true)
  = Return (requested_flag document).
Proof.
  destruct document; simpl; try discriminate. intros [= <-]. simpl.
  intros [= <-]. simpl.
  rewrite !assoc_get_set_ne by discriminate. reflexivity.
Qed.

(** The topic parser decodes [record["Sns"]["Message"]] and does not touch
    the flag the decoded document asks for. *)
Lemma parse_record_sns_flag record record_event :
  _parse_record_sns record = Return record_event →
  ∃ message document,
    topic_message record = Return message
    ∧ loads message = Return document
    ∧ dict_get record_event "eventRaisesExceptions" (PBool true)
      = Return (requested_flag document).
Proof.
  unfold _parse_record_sns, topic_message. intros Hp.
  destruct (getitem record "Sns") as [sns|] eqn:Hsns; [| discriminate].
  simpl in Hp |- *.
  destruct (dict_pop sns "Message") as [[message sns']|] eqn:Hpop;
    [| discriminate].
  simpl in Hp.
  destruct (setitem record "Sns" sns') as [record'|]; [| discriminate].
  simpl in Hp.
  destruct (loads message) as [document|] eqn:Hloads; [| discriminate].
  simpl in Hp.
  destruct (setitem document "eventSource" _) as [e1|] eqn:Hsource;
    [| discriminate].
  simpl in Hp.
  exists message, document.
  split; [exact (dict_pop_getitem _ _ _ _ Hpop) |].
  split; [exact Hloads |].
  exact (source_and_data_keep_flag _ _ _ _ _ Hsource Hp).
Qed.

(** The broker parser decodes [record["data"]] and does not touch the flag
    the decoded document asks for. *)
Lemma parse_record_mq_flag record record_event :
  _parse_record_mq record = Return record_event →
  ∃ data document,
    broker_data record = Return data
    ∧ loads data = Return document
    ∧ dict_get record_event "eventRaisesExceptions" (PBool true)
      = Return (requested_flag document).
Proof.
  unfold _parse_record_mq, broker_data. intros Hp.
  destruct (dict_pop record "data") as [[data record']|] eqn:Hpop;
    [| discriminate].
  simpl in Hp.
  destruct (loads data) as [document|] eqn:Hloads; [| discriminate].
  simpl in Hp.
  destruct (setitem document "eventSource" _) as [e1|] eqn:Hsource;
    [| discriminate].
  simpl in Hp.
  exists data, document.
  split; [exact (dict_pop_getitem _ _ _ _ Hpop) |].
  split; [exact Hloads |].
  exact (source_and_data_keep_flag _ _ _ _ _ Hsource Hp).
Qed.

End Parsing.

(** ** Trigger kinds: flags and acknowledgments *)

Section TriggerKinds.
Context {ext : Externals}.
Import Backend.

Lemma parse_event_cases name key parse :
  _parse_event name = Return (key, parse) →
  (name = "mq" ∧ parse = _parse_record_mq)
  ∨ (name = "sqs" ∧ parse = _parse_record_sqs)
  ∨ (name = "sns" ∧ parse = _parse_record_sns).
Proof.
  unfold _parse_event.
  destruct (String.eqb_spec name "mq") as [->|_];
    [intros [= <- <-]; auto |].
  destruct (String.eqb_spec name "sqs") as [->|_];
    [intros [= <- <-]; auto |].
  destruct (String.eqb_spec name "sns") as [->|_];
    [intros [= <- <-]; auto |].
  discriminate.
Qed.

(** Every request of a batch has the flag its record event carries under
    [eventRaisesExceptions], [True] when the entry is missing. *)
Lemma parse_records_flag parse ctx records rs :
  parse_records parse ctx records = Return rs →
  Forall (λ r, Request._raises_exceptions r
               = default (PBool true) (event_entry r "eventRaisesExceptions"))
    rs.
Proof.
  apply (parse_records_Forall parse ctx (λ _, True)); [trivial |].
  intros record_event flag r _ Hflag Hinit.
  destruct (aws__init__stores _ _ _ _ Hinit)
    as (_ & -> & _ & kvs & kvs' & -> & Hev & Hsame).
  unfold event_entry. rewrite Hev, Hsame by discriminate.
  simpl in Hflag. congruence.
Qed.

Lemma parse_records_sqs_flag ctx records rs :
  parse_records _parse_record_sqs ctx records = Return rs →
  Forall (λ r, Request._raises_exceptions r = PBool false) rs.
Proof.
  apply (parse_records_Forall _ ctx
           (λ e, dict_get e "eventRaisesExceptions" (PBool true)
                 = Return (PBool false))).
  - intros record record_event Hp. apply (parse_record_sqs_spec _ _ Hp).
  - intros record_event flag r HP Hflag Hinit.
    destruct (aws__init__stores _ _ _ _ Hinit) as (_ & -> & _).
    congruence.
Qed.

(** Every request of a batch records the source its parser wrote. *)
Lemma parse_records_source parse ctx source records rs :
  (∀ record record_event,
     parse record = Return record_event →
     getitem record_event "eventSource" = Return (PStr source)) →
  parse_records parse ctx records = Return rs →
  Forall (λ r, event_source r = Return (PStr source)) rs.
Proof.
  intros Hparse.
  apply (parse_records_Forall parse ctx
           (λ e, getitem e "eventSource" = Return (PStr source)));
    [exact Hparse |].
  intros record_event flag r HP _ Hinit.
  destruct (aws__init__stores _ _ _ _ Hinit)
    as (Hcls & _ & _ & kvs & kvs' & -> & Hev & Hsame).
  unfold event_source, Request.get_event. rewrite Hcls, Hev. simpl.
  rewrite Hsame by discriminate. exact HP.
Qed.

(** The requests of a batch whose parser keeps the flag of the decoded
    document carry that flag, record by record. *)
Lemma parse_records_requested_flag parse (text : pyval → result pyval) ctx
    records rs :
  (∀ record record_event,
     parse record = Return record_event →
     ∃ message document,
       text record = Return message
       ∧ loads message = Return document
       ∧ dict_get record_event "eventRaisesExceptions" (PBool true)
         = Return (requested_flag document)) →
  parse_records parse ctx records = Return rs →
  Forall2 (λ record r,
             ∃ message document,
               text record = Return message
               ∧ loads message = Return document
               ∧ Request._raises_exceptions r = requested_flag document)
    records rs.
Proof.
  intros Hparse. apply parse_records_Forall2.
  intros record record_event flag r Hp Hflag Hinit.
  destruct (Hparse _ _ Hp) as (message & document & Htext & Hloads & Hkeep).
  destruct (aws__init__stores _ _ _ _ Hinit) as (_ & -> & _).
  exists message, document. repeat split; congruence.
Qed.

(** C4, as the code has it.  A request parsed from a direct invocation has
    [raises_exceptions] true and one parsed from a queue ([sqs]) record has
    it false.  The requests of a topic ([sns]) batch are made of the records
    under [Records], one each and in order, and the flag of each is the
    entry [eventRaisesExceptions] of the JSON document [loads] decodes from
    the record's [Sns.Message], true when the document has no such entry;
    the same holds for a broker ([mq]) batch with the records under
    [messages] and their [data].  In any batch the request keeps the flag in
    its event. *)
Theorem C4_raises_exceptions_by_trigger
    (context : pyval)
    (direct : list (string * pyval)) (request : Request.t)
    (queue : list (string * pyval)) (queue_requests : list Request.t)
    (batch : list (string * pyval)) (batch_requests : list Request.t)
    (topic : list (string * pyval)) (topic_requests : list Request.t)
    (broker : list (string * pyval)) (broker_requests : list Request.t)
    (Hdirect : parse_request direct context = Return (Single request))
    (Hkind : batch_of_kind queue "sqs")
    (Hqueue : parse_request queue context = Return (Many queue_requests))
    (Hbatch : parse_request batch context = Return (Many batch_requests))
    (Htopic_kind : batch_of_kind topic "sns")
    (Htopic : parse_request topic context = Return (Many topic_requests))
    (Hbroker_kind : batch_of_kind broker "mq")
    (Hbroker : parse_request broker context = Return (Many broker_requests)) :
  Request._raises_exceptions request = PBool true
  ∧ Forall (λ r, Request._raises_exceptions r = PBool false) queue_requests
  ∧ Forall (λ r, Request._raises_exceptions r
                 = default (PBool true) (event_entry r "eventRaisesExceptions"))
      batch_requests
  ∧ (∃ records,
       batch_records topic "Records" = Return records
       ∧ Forall2 (λ record r,
                    ∃ message document,
                      topic_message record = Return message
                      ∧ loads message = Return document
                      ∧ Request._raises_exceptions r = requested_flag document)
           records topic_requests)
  ∧ (∃ records,
       batch_records broker "messages" = Return records
       ∧ Forall2 (λ record r,
                    ∃ data document,
                      broker_data record = Return data
                      ∧ loads data = Return document
                      ∧ Request._raises_exceptions r = requested_flag document)
           records broker_requests).
Proof.
  split; [| split; [| split; [| split]]].
  - unfold parse_request in Hdirect.
    destruct (assoc_get "requestContext" direct).
    + destruct (Request.aws__init__ _ _ _) as [r|e] eqn:Hinit;
        simpl in Hdirect; simplify_eq.
      apply (aws__init__stores _ _ _ _ Hinit).
    + run_result Hdirect.
  - destruct (parse_request_batch _ _ _ _ Hkind Hqueue)
      as (key & parse & records & Hevent & Hrecords).
    destruct (parse_event_cases _ _ _ Hevent)
      as [[? _]|[[_ ->]|[? _]]]; try discriminate.
    eapply parse_records_sqs_flag; eassumption.
  - unfold parse_request in Hbatch.
    destruct (assoc_get "requestContext" batch);
      [run_result Hbatch |].
    destruct (find_event_source batch) as [source|];
      [| simplify_eq; constructor].
    run_result Hbatch. simplify_eq.
    eapply parse_records_flag; eassumption.
  - destruct (parse_request_batch_records _ _ _ _ Htopic_kind Htopic)
      as (key & parse & records & Hevent & Hread & Hrecords).
    injection Hevent as <- <-.
    exists records. split; [exact Hread |].
    eapply parse_records_requested_flag; [| exact Hrecords].
    apply parse_record_sns_flag.
  - destruct (parse_request_batch_records _ _ _ _ Hbroker_kind Hbroker)
      as (key & parse & records & Hevent & Hread & Hrecords).
    injection Hevent as <- <-.
    exists records. split; [exact Hread |].
    eapply parse_records_requested_flag; [| exact Hrecords].
    apply parse_record_mq_flag.
Qed.

(** C9.  The pairs of a topic ([sns]) or broker ([mq]) batch, whatever their
    status codes, are serialized to [None]. *)
Theorem C9_no_ack_for_topic_and_broker
    (event : list (string * pyval)) (context : pyval) (name : string)
    (requests : list Request.t) (resp_req : list (Response.t * Request.t))
    (Hkind : batch_of_kind event name)
    (Hname : name = "sns" ∨ name = "mq")
    (Hparse : parse_request event context = Return (Many requests))
    (Hpairs : Forall2 (λ request p, same_origin request (snd p))
                requests resp_req) :
  serialize_responses resp_req = Return PNone.
Proof.
  destruct (parse_request_batch _ _ _ _ Hkind Hparse)
    as (key & parse & records & Hevent & Hrecords).
  assert (Hsource : ∃ source name',
             Forall (λ r, event_source r = Return (PStr source)) requests
             ∧ source_name (PStr source) = Return name' ∧ name' ≠ "sqs").
  { destruct (parse_event_cases _ _ _ Hevent)
      as [[-> ->]|[[-> _]|[-> ->]]].
    - exists "aws:mq", "mq". split; [| split; [reflexivity | discriminate]].
      eapply parse_records_source; [| eassumption].
      apply parse_record_mq_spec.
    - destruct Hname; discriminate.
    - exists "aws:sns", "sns". split; [| split; [reflexivity | discriminate]].
      eapply parse_records_source; [| eassumption].
      apply parse_record_sns_spec. }
  destruct Hsource as (source & name' & Hall & Hsplit & Hne).
  destruct Hpairs as [|request [response first_req] requests' rest Horigin _];
    [reflexivity |].
  inversion Hall as [|? ? Hfirst _]; subst.
  eapply serialize_responses_other; [| exact Hsplit | exact Hne].
  destruct Horigin as [Hcls Hev]. simpl in Hcls, Hev.
  unfold event_source, Request.get_event in *.
  rewrite Hcls, Hev. exact Hfirst.
Qed.

(** C10.  The empty batch is serialized to [None] before any request is
    looked at, so an invocation whose payload parses to no request returns
    [None]. *)
Theorem C10_empty_batch
    (schedule : list nat) (routes : gmap string (gmap string Handler._APIRoute))
    (event : list (string * pyval)) (context : pyval)
    (Hparse : parse_request event context = Return (Many [])) :
  serialize_responses [] = Return PNone
  ∧ Handler.__acall__ schedule routes event context = Some (Return PNone).
Proof.
  split; [reflexivity |].
  unfold Handler.__acall__. rewrite Hparse.
  unfold Handler._handle_requests, gather.
  destruct schedule; reflexivity.
Qed.

End TriggerKinds.

(** ** The JSON view of a request *)

Section JsonView.
Context {ext : Externals}.
Import Request.

(** [body()] does not touch the JSON view. *)
Lemma body_keeps_json (self self1 : Request.t) (r : result pyval) :
  body self = (r, self1) → _json self1 = _json self.
Proof.
  unfold body. intros Hbody.
  destruct (_body self) as [b|]; [simplify_eq; reflexivity |].
  destruct (cls self); [simplify_eq; reflexivity |].
  match type of Hbody with
  | match ?res with _ => _ end = _ => destruct res as [b|e]
  end; simplify_eq; reflexivity.
Qed.

(** C7, as the code has it.  On a request whose JSON view is not computed
    yet, [json()] is [None] when the body is [None] and the decoded value
    when [loads] accepts the body.  When [loads] raises, [JSONDecodeError]
    alone is caught: the view is then the body itself, unchanged; any other
    exception of [loads] leaves [json()] and no view is stored.  A value
    [json()] returned is kept for the next call. *)
Theorem C7_json_view
    (self self1 : Request.t) (raw : pyval)
    (Hfresh : _json self = None)
    (Hbody : body self = (Return raw, self1)) :
  (raw = PNone → json self = (Return PNone, with_json self1 PNone))
  ∧ (∀ v, raw ≠ PNone → loads raw = Return v →
          json self = (Return v, with_json self1 v))
  ∧ (raw ≠ PNone → loads raw = Raise JSONDecodeError →
     json self = (Return raw, with_json self1 raw))
  ∧ (∀ e, raw ≠ PNone → loads raw = Raise e → e ≠ JSONDecodeError →
          json self = (Raise e, self1) ∧ _json self1 = None)
  ∧ (∀ v self2, json self = (Return v, self2) → json self2 = (Return v, self2)).
Proof.
  pose proof (body_keeps_json _ _ _ Hbody) as Hkept. rewrite Hfresh in Hkept.
  unfold json. rewrite Hfresh, Hbody.
  split; [| split; [| split; [| split]]].
  - intros ->. reflexivity.
  - intros v Hraw Hloads. rewrite Hloads. destruct raw; congruence.
  - intros Hraw Hloads. rewrite Hloads. destruct raw; congruence.
  - intros e Hraw Hloads He. split; [| exact Hkept].
    rewrite Hloads. destruct raw; try congruence; destruct e; congruence.
  - intros v self2 Hjson.
    assert (Hcached : _json self2 = Some v).
    { destruct raw; try (destruct (loads _) as [?|[]]); simplify_eq; reflexivity. }
    rewrite Hcached. reflexivity.
Qed.

End JsonView.

(** ** The route table *)

Section RouteTable.
Context {ext : Externals}.
Import Handler Registry.

Lemma register_all_snoc regs r :
  register_all (regs ++ [r]) = register (register_all regs) r.
Proof. unfold register_all. rewrite fold_left_app. reflexivity. Qed.

Lemma first_registration_snoc regs r path method :
  first_registration (regs ++ [r]) path method
  = match first_registration regs path method with
    | Some route => Some route
    | None =>
        if String.eqb (reg_path r) path && String.eqb (reg_method r) method
        then Some (route_of r) else None
    end.
Proof.
  induction regs as [|r0 rest IH]; simpl; [reflexivity |].
  destruct (String.eqb (reg_path r0) path && String.eqb (reg_method r0) method);
    [reflexivity | exact IH].
Qed.

Lemma path_registered_snoc regs r path :
  path_registered (regs ++ [r]) path
  = path_registered regs path || String.eqb (reg_path r) path.
Proof.
  unfold path_registered. rewrite existsb_app. simpl.
  rewrite orb_false_r. reflexivity.
Qed.

(** The table after one more registration. *)
Lemma register_lookup (routes : Routes) r path :
  register routes r !! path
  = if String.eqb (reg_path r) path then
      match routes !! path with
      | None => Some {[ reg_method r := route_of r ]}
      | Some path_routes =>
          match path_routes !! reg_method r with
          | None => Some (<[reg_method r := route_of r]> path_routes)
          | Some _ => Some path_routes
          end
      end
    else routes !! path.
Proof.
  unfold register, _api_route. fold (route_of r).
  destruct (String.eqb_spec (reg_path r) path) as [<-|Hne].
  - destruct (routes !! reg_path r) as [path_routes|] eqn:Hp; simpl.
    + destruct (path_routes !! reg_method r) eqn:Hm; simpl.
      * exact Hp.
      * apply lookup_insert_eq.
    + rewrite lookup_empty. simpl. rewrite lookup_insert_eq. reflexivity.
  - destruct (routes !! reg_path r) as [path_routes|] eqn:Hp; simpl.
    + destruct (path_routes !! reg_method r); simpl;
        [reflexivity | by rewrite lookup_insert_ne].
    + rewrite lookup_empty. simpl. by rewrite !lookup_insert_ne.
Qed.

(** The table records the history: a path is a key exactly when some
    registration names it, and under it each method maps to the route of its
    first registration. *)
Lemma register_all_lookup regs path :
  match register_all regs !! path with
  | None => path_registered regs path = false
  | Some path_routes =>
      path_registered regs path = true
      ∧ ∀ method, path_routes !! method = first_registration regs path method
  end.
Proof.
  induction regs as [|r regs IH] using rev_ind.
  - unfold register_all. simpl. rewrite lookup_empty. reflexivity.
  - rewrite register_all_snoc, register_lookup, path_registered_snoc.
    destruct (String.eqb_spec (reg_path r) path) as [<-|Hne].
    + destruct (register_all regs !! reg_path r) as [path_routes|].
      * destruct IH as [-> IH].
        destruct (path_routes !! reg_method r) eqn:Hm; (split; [reflexivity |]);
          intros method; rewrite first_registration_snoc, <- IH.
        -- destruct (path_routes !! method) eqn:Hm'; [reflexivity |].
           rewrite String.eqb_refl. simpl.
           destruct (String.eqb_spec (reg_method r) method); congruence.
        -- rewrite String.eqb_refl. simpl.
           destruct (String.eqb_spec (reg_method r) method) as [<-|Hm'].
           ++ rewrite lookup_insert_eq, Hm. reflexivity.
           ++ rewrite lookup_insert_ne by exact Hm'.
              destruct (path_routes !! method); reflexivity.
      * rewrite orb_true_r. split; [reflexivity |].
        intros method. rewrite first_registration_snoc.
        assert (Hnone : first_registration regs (reg_path r) method = None).
        { clear -IH. induction regs as [|r0 rest IHr]; [reflexivity |].
          simpl in *. apply orb_false_elim in IH as [Hr0 Hrest].
          rewrite Hr0. simpl. auto. }
        rewrite Hnone, String.eqb_refl. simpl.
        destruct (String.eqb_spec (reg_method r) method) as [<-|Hm'].
        -- apply lookup_singleton_eq.
        -- by apply lookup_singleton_ne.
    + rewrite orb_false_r.
      destruct (register_all regs !! path) as [path_routes|]; [| exact IH].
      destruct IH as [-> IH]. split; [reflexivity |].
      intros method. rewrite first_registration_snoc, IH.
      destruct (String.eqb_spec (reg_path r) path); [contradiction |].
      simpl. destruct (first_registration regs path method); reflexivity.
Qed.

(** The response [_handle_request] builds for a failed lookup. *)
Lemma handle_request_lookup_error routes request status :
  lookup_route routes (Request._path request) (Request._method request)
    = Raise (HTTPException status PNone PNone) →
  status ≠ 200 →
  ∃ response ev,
    force (_handle_request routes request) = (Return response, ev, request)
    ∧ Response._status_code response = status
    ∧ Response._content response = PNone
    ∧ ev_status_code ev = Some status.
Proof.
  intros Hlookup Hstatus.
  unfold _handle_request, attempt, _prepare_request. rewrite Hlookup. simpl.
  unfold JSONResponse, Response.__init__, Response.status_code_setter. simpl.
  destruct (Z.eqb_spec status 200); [contradiction |].
  eexists _, _. repeat split.
Qed.

(** C5.  On the table built by the registrations [regs], the lookup of
    [(path, method)] returns the route registered for the pair; it raises
    [HTTPException(404)] when no registration names [path] and
    [HTTPException(405)] when some do but none with [method], whatever the
    methods registered under other paths.  The request is then answered with
    that status. *)
Theorem C5_route_lookup (regs : list registration) (path method : string) :
  lookup_route (register_all regs) (PStr path) (PStr method)
  = match first_registration regs path method with
    | Some route => Return route
    | None =>
        Raise (HTTPException (if path_registered regs path then 405 else 404)
                 PNone PNone)
    end
  ∧ ∀ request,
      Request._path request = PStr path →
      Request._method request = PStr method →
      first_registration regs path method = None →
      ∃ response ev,
        force (_handle_request (register_all regs) request)
        = (Return response, ev, request)
        ∧ Response._status_code response
          = (if path_registered regs path then 405 else 404)
        ∧ ev_status_code ev
          = Some (if path_registered regs path then 405 else 404).
Proof.
  assert (Hlookup :
    lookup_route (register_all regs) (PStr path) (PStr method)
    = match first_registration regs path method with
      | Some route => Return route
      | None =>
          Raise (HTTPException (if path_registered regs path then 405 else 404)
                   PNone PNone)
      end).
  { unfold lookup_route, dict_lookup.
    pose proof (register_all_lookup regs path) as Htable.
    destruct (register_all regs !! path) as [path_routes|].
    - destruct Htable as [-> Hmethods]. rewrite Hmethods.
      destruct (first_registration regs path method); reflexivity.
    - rewrite Htable.
      assert (Hnone : first_registration regs path method = None).
      { clear -Htable. induction regs as [|r0 rest IHr]; [reflexivity |].
        simpl in *. apply orb_false_elim in Htable as [Hr0 Hrest].
        rewrite Hr0. simpl. auto. }
      rewrite Hnone. reflexivity. }
  split; [exact Hlookup |].
  intros request Hpath Hmethod Hnone.
  rewrite Hnone in Hlookup.
  destruct (handle_request_lookup_error (register_all regs) request
              (if path_registered regs path then 405 else 404))
    as (response & ev & Hforce & Hstatus & _ & Hev).
  - rewrite Hpath, Hmethod. exact Hlookup.
  - destruct (path_registered regs path); discriminate.
  - eauto.
Qed.

End RouteTable.

(** ** Fault handling *)

Section Faults.
Context {ext : Externals}.
Import Handler.

Lemma force_handle_request routes request :
  force (_handle_request routes request)
  = match force (attempt routes request (create_event request)) with
    | (Return response, ev, request) => (Return response, ev, request)
    | (Raise e, ev, request) => on_exception e ev request
    end.
Proof.
  unfold _handle_request. rewrite force_coro_bind.
  destruct (force (attempt routes request (create_event request)))
    as [[[response|e] ev] request']; reflexivity.
Qed.

Lemma force_task routes request :
  force (task routes request)
  = match force (_handle_request routes request) with
    | (Return response, _, request) => Return (response, request)
    | (Raise e, _, _) => Raise e
    end.
Proof.
  unfold task. rewrite force_coro_bind.
  destruct (force (_handle_request routes request))
    as [[[response|e] ev] request']; reflexivity.
Qed.

(** A request that does not raise exceptions always gets a response. *)
Lemma absorbing_request_returns routes request r ev request1 :
  force (_handle_request routes request) = (r, ev, request1) →
  truthy (Request._raises_exceptions request1) = false →
  ∃ response, r = Return response.
Proof.
  rewrite force_handle_request.
  destruct (force (attempt routes request (create_event request)))
    as [[[response|e] ev0] request0].
  - intros [= <- _ _] _. eauto.
  - unfold on_exception.
    destruct e; repeat (destruct (JSONResponse _ _ _));
      try (intros [= <- _ _] _; eauto; fail);
      destruct (status_code_from_exception _ _) as [[status message] ev'];
      destruct (JSONResponse _ _ _);
      destruct (truthy (Request._raises_exceptions request0)) eqn:Hflag;
      intros [= <- _ <-] Hfalse; try congruence; eauto.
Qed.

(** C3.  When the attempt raises an exception [e] that is neither an
    [HTTPException] nor a [ValidationError], [_handle_request] asks the
    classifier for a status and a message, builds the error response from
    them, which writes the status into the log event, and then raises [e]
    again when the request raises exceptions, or else returns that response.
    The stored status is the classifier's (204 for a 200 without message).
    Accordingly the task of the request within a batch raises [e] or returns
    the pair of that response and the request, and a direct invocation
    whose request raises exceptions ends with [e]. *)
Theorem C3_unhandled_fault
    (routes : gmap string (gmap string _APIRoute)) (request : Request.t)
    (e : exception) (ev1 : LogEvent) (request1 : Request.t)
    (Hfault : force (attempt routes request (create_event request))
              = (Raise e, ev1, request1))
    (Hunhandled : unhandled_fault e) :
  let '((status, message), ev2) := status_code_from_exception e ev1 in
  let '(response, ev3) := JSONResponse message status ev2 in
  force (_handle_request routes request)
  = (if truthy (Request._raises_exceptions request1)
     then Raise e else Return response, ev3, request1)
  ∧ force (task routes request)
    = (if truthy (Request._raises_exceptions request1)
       then Raise e else Return (response, request1))
  ∧ ev_status_code ev3 = Some (Response._status_code response)
  ∧ Response._status_code response
    = (if Response.is_None message && Z.eqb status 200 then 204 else status)
  ∧ Response._content response = message
  ∧ ∀ schedule event context,
      Backend.parse_request event context = Return (Single request) →
      truthy (Request._raises_exceptions request1) = true →
      __acall__ schedule routes event context = Some (Raise e).
Proof.
  destruct (status_code_from_exception e ev1) as [[status message] ev2] eqn:Hc.
  destruct (JSONResponse message status ev2) as [response ev3] eqn:Hr.
  assert (Hhandle :
    force (_handle_request routes request)
    = (if truthy (Request._raises_exceptions request1)
       then Raise e else Return response, ev3, request1)).
  { rewrite force_handle_request, Hfault. unfold on_exception.
    destruct e; try contradiction; rewrite Hc, Hr;
      destruct (truthy _); reflexivity. }
  split; [exact Hhandle |].
  split.
  { rewrite force_task, Hhandle. destruct (truthy _); reflexivity. }
  unfold JSONResponse in Hr.
  pose proof (init_status Response.JSONResponse message status None None ev2)
    as (Hstatus & Hcontent & Hev).
  rewrite Hr in Hstatus, Hcontent, Hev. simpl in *.
  rewrite Hev, Hstatus. repeat split; [exact Hcontent |].
  intros schedule event context Hparse Hflag.
  unfold __acall__. rewrite Hparse, Hhandle, Hflag. reflexivity.
Qed.

End Faults.

(** ** Batch dispatch: [gather] keeps the order of its arguments *)

Section Gather.
Context {A : Type}.
Implicit Types (tasks : list (coro (result A))) (results : list A).

(** The value a task ends with. *)
Abbreviation ends_with := (λ (c : coro (result A)) (a : A), force c = Return a).

Lemma returned_value_force (c : coro (result A)) a :
  returned_value c = Some a → force c = Return a.
Proof. destruct c as [[?|?]|?]; simpl; congruence. Qed.

Lemma all_returned_results tasks results results' :
  Forall2 ends_with tasks results →
  all_returned tasks = Some results' →
  results' = results.
Proof.
  intros Hends. revert results'.
  induction Hends as [|c a tasks results Hc _ IH]; intros results' Hall;
    simpl in Hall.
  - congruence.
  - destruct (returned_value c) as [a'|] eqn:Hv; [| discriminate].
    destruct (all_returned tasks) as [rs|]; [| discriminate].
    apply returned_value_force in Hv. rewrite Hc in Hv.
    simplify_eq. f_equal. apply IH. reflexivity.
Qed.

Lemma all_returned_done tasks results :
  Forall2 ends_with tasks results →
  Forall (λ c, suspensions c = 0%nat) tasks →
  all_returned tasks = Some results.
Proof.
  induction 1 as [|c a tasks results Hc _ IH]; intros Hdone; [reflexivity |].
  inversion Hdone as [|? ? Hc0 Hrest]; subst.
  destruct c as [r|k]; [| discriminate]. simpl in Hc. subst r. simpl.
  rewrite (IH Hrest). reflexivity.
Qed.

Lemma resume_ends_with tasks results i k :
  Forall2 ends_with tasks results →
  tasks !! i = Some (Suspended k) →
  Forall2 ends_with (<[i := k]> tasks) results.
Proof.
  intros Hends Hi.
  destruct (Forall2_lookup_l _ _ _ _ _ Hends Hi) as (a & Ha & Hforce).
  rewrite <- (list_insert_id results i a Ha).
  apply Forall2_insert; [exact Hends | exact Hforce].
Qed.

(** Whatever the schedule, [gather] resolves to the results in the order of
    the tasks, if it resolves. *)
Lemma gather_loop_ordered schedule tasks results :
  Forall2 ends_with tasks results →
  gather_loop schedule tasks = None
  ∨ gather_loop schedule tasks = Some (Return results).
Proof.
  revert tasks. induction schedule as [|i schedule IH]; intros tasks Hends;
    simpl.
  - destruct (all_returned tasks) as [rs|] eqn:Hall; [right | left; reflexivity].
    rewrite (all_returned_results _ _ _ Hends Hall). reflexivity.
  - destruct (all_returned tasks) as [rs|] eqn:Hall.
    { right. rewrite (all_returned_results _ _ _ Hends Hall). reflexivity. }
    destruct (tasks !! i) as [[r|k]|] eqn:Hi; try (apply IH; exact Hends).
    pose proof (resume_ends_with _ _ _ _ Hends Hi) as Hends'.
    destruct k as [[a|e]|k']; try (apply IH; exact Hends').
    destruct (Forall2_lookup_l _ _ _ _ _ Hends Hi) as (a & _ & Hforce).
    discriminate Hforce.
Qed.

(** A schedule that gives every task enough turns resolves it. *)
Lemma gather_loop_completes schedule tasks results :
  Forall2 ends_with tasks results →
  (∀ i c, tasks !! i = Some c →
          (suspensions c ≤ count_occ Nat.eq_dec schedule i)%nat) →
  gather_loop schedule tasks = Some (Return results).
Proof.
  revert tasks. induction schedule as [|i schedule IH]; intros tasks Hends Hturns;
    simpl.
  - rewrite (all_returned_done _ _ Hends); [reflexivity |].
    apply Forall_lookup. intros j c Hj. specialize (Hturns j c Hj).
    simpl in Hturns. lia.
  - destruct (all_returned tasks) as [rs|] eqn:Hall.
    { rewrite (all_returned_results _ _ _ Hends Hall). reflexivity. }
    assert (Hstay : ∀ j c, j ≠ i → tasks !! j = Some c →
                           (suspensions c ≤ count_occ Nat.eq_dec schedule j)%nat).
    { intros j c Hji Hj. specialize (Hturns j c Hj). simpl in Hturns.
      destruct (Nat.eq_dec i j); [congruence | exact Hturns]. }
    destruct (tasks !! i) as [[r|k]|] eqn:Hi.
    + apply IH; [exact Hends |]. intros j c Hj.
      destruct (decide (j = i)) as [->|Hji]; [| by apply Hstay].
      rewrite Hi in Hj. simplify_eq. simpl. lia.
    + pose proof (resume_ends_with _ _ _ _ Hends Hi) as Hends'.
      assert (Hturns' : ∀ j c, <[i := k]> tasks !! j = Some c →
                (suspensions c ≤ count_occ Nat.eq_dec schedule j)%nat).
      { intros j c Hj. destruct (decide (j = i)) as [->|Hji].
        - rewrite list_lookup_insert_eq in Hj
            by (eapply lookup_lt_Some; exact Hi).
          simplify_eq. specialize (Hturns i _ Hi). simpl in Hturns.
          destruct (Nat.eq_dec i i); [lia | congruence].
        - rewrite list_lookup_insert_ne in Hj by congruence.
          by apply Hstay. }
      destruct k as [[a|e]|k']; try (apply IH; assumption).
      destruct (Forall2_lookup_l _ _ _ _ _ Hends Hi) as (a & _ & Hforce).
      discriminate Hforce.
    + apply IH; [exact Hends |]. intros j c Hj.
      destruct (decide (j = i)) as [->|Hji]; [congruence | by apply Hstay].
Qed.

Lemma spawn_ends_with (coros : list (coro (result A))) results :
  Forall2 ends_with coros results →
  Forall2 ends_with (map spawn coros) results.
Proof. induction 1; constructor; auto. Qed.

Lemma gather_ordered schedule (coros : list (coro (result A))) results :
  Forall2 ends_with coros results →
  (gather schedule coros = None ∨ gather schedule coros = Some (Return results))
  ∧ (enough_turns schedule coros →
     gather schedule coros = Some (Return results)).
Proof.
  intros Hends. split.
  - apply gather_loop_ordered, spawn_ends_with, Hends.
  - intros Hturns. apply gather_loop_completes.
    + apply spawn_ends_with, Hends.
    + intros i c Hi. rewrite list_lookup_fmap in Hi.
      destruct (coros !! i) as [c0|] eqn:Hc0; [| discriminate].
      simpl in Hi. simplify_eq. specialize (Hturns i c0 Hc0).
      unfold spawn. simpl. lia.
Qed.

Lemma all_returned_lookup tasks results i c :
  all_returned tasks = Some results →
  tasks !! i = Some c →
  ∃ a, force c = Return a.
Proof.
  revert results i. induction tasks as [|c0 tasks IH]; intros results i Hall Hi;
    [discriminate |].
  simpl in Hall.
  destruct (returned_value c0) as [a0|] eqn:Hv; [| discriminate].
  destruct (all_returned tasks) as [rs|]; [| discriminate].
  destruct i as [|i]; simpl in Hi.
  - simplify_eq. eauto using returned_value_force.
  - eapply IH; [reflexivity | exact Hi].
Qed.

(** With a task that ends by raising, [gather] never resolves to results,
    whatever the schedule. *)
Lemma gather_loop_never_returns schedule tasks i c e results :
  tasks !! i = Some c →
  force c = Raise e →
  gather_loop schedule tasks ≠ Some (Return results).
Proof.
  revert tasks c. induction schedule as [|j schedule IH];
    intros tasks c Hi Hraise; simpl.
  - destruct (all_returned tasks) as [rs|] eqn:Hall; [| discriminate].
    destruct (all_returned_lookup _ _ _ _ Hall Hi) as [a Ha]. congruence.
  - destruct (all_returned tasks) as [rs|] eqn:Hall.
    { destruct (all_returned_lookup _ _ _ _ Hall Hi) as [a Ha]. congruence. }
    destruct (tasks !! j) as [[r|k]|] eqn:Hj; try (eapply IH; eassumption).
    assert (Hnext : gather_loop schedule (<[j := k]> tasks)
                    ≠ Some (Return results)).
    { destruct (decide (i = j)) as [->|Hij].
      - rewrite Hj in Hi. simplify_eq. simpl in Hraise.
        eapply (IH _ k); [| exact Hraise].
        apply list_lookup_insert_eq. eapply lookup_lt_Some. exact Hj.
      - eapply (IH _ c); [| exact Hraise].
        rewrite list_lookup_insert_ne by congruence. exact Hi. }
    destruct k as [[a|e']|k']; [exact Hnext | discriminate | exact Hnext].
Qed.

Lemma gather_never_returns schedule (coros : list (coro (result A))) i c e
    results :
  coros !! i = Some c →
  force c = Raise e →
  gather schedule coros ≠ Some (Return results).
Proof.
  intros Hi Hraise. unfold gather.
  apply (gather_loop_never_returns _ _ i (spawn c) e); [| exact Hraise].
  rewrite list_lookup_fmap, Hi. reflexivity.
Qed.

End Gather.

(** ** Base64 *)

Module Base64Facts.
Import Base64.

Ltac Zify.zify_post_hook ::= Z.to_euclidean_division_equations.

Lemma table_check :
  forallb
    (λ n, let d := N.of_nat n in
          match val (char d) with Some d' => N.eqb d' d | None => false end
          && negb (is_pad (char d)) && is_ascii (char d))
    (seq 0 64) = true.
Proof. vm_compute. reflexivity. Qed.

(** The alphabet is injective, free of padding and ASCII. *)
Lemma char_spec d :
  (d < 64)%N →
  val (char d) = Some d ∧ is_pad (char d) = false ∧ is_ascii (char d) = true.
Proof.
  intros Hd.
  pose proof (proj1 (forallb_forall _ _) table_check (N.to_nat d)) as Hcheck.
  cbv beta zeta in Hcheck. rewrite N2Nat.id in Hcheck.
  assert (Hin : In (N.to_nat d) (seq 0 64)) by (apply in_seq; lia).
  specialize (Hcheck Hin).
  apply andb_prop in Hcheck as [Hcheck Hascii].
  apply andb_prop in Hcheck as [Hval Hpad].
  repeat split; [| by apply negb_true_iff | exact Hascii].
  destruct (val (char d)) as [d'|]; [| discriminate].
  apply N.eqb_eq in Hval. congruence.
Qed.

Lemma pad_ascii : is_ascii pad = true.
Proof. reflexivity. Qed.

Lemma is_pad_pad : is_pad pad = true.
Proof. reflexivity. Qed.

Lemma sextets_bounds a b c :
  (a < 256 → b < 256 → c < 256 →
   let '(d0, d1, d2, d3) := sextets a b c in
   d0 < 64 ∧ d1 < 64 ∧ d2 < 64 ∧ d3 < 64)%N.
Proof. intros Ha Hb Hc. unfold sextets. repeat split; lia. Qed.

Lemma octets_sextets a b c :
  (a < 256 → b < 256 → c < 256 →
   let '(d0, d1, d2, d3) := sextets a b c in
   octets d0 d1 d2 d3 = (a, b, c))%N.
Proof.
  intros Ha Hb Hc. unfold sextets, octets.
  f_equal; [f_equal |]; lia.
Qed.

Lemma to_N_lt (b : byte) : (Byte.to_N b < 256)%N.
Proof. pose proof (Byte.to_N_bounded b). lia. Qed.

Lemma byte_of_to_N (b : byte) : byte_of (Byte.to_N b) = b.
Proof.
  unfold byte_of. rewrite N.mod_small by apply to_N_lt.
  rewrite Byte.of_to_N. reflexivity.
Qed.

(** Induction three bytes at a time, the step of the encoder. *)
Lemma list_ind3 (P : list byte → Prop) :
  P [] → (∀ a, P [a]) → (∀ a b, P [a; b]) →
  (∀ a b c l, P l → P (a :: b :: c :: l)) →
  ∀ l, P l.
Proof.
  intros H0 H1 H2 H3.
  refine (fix go l :=
            match l with
            | [] => H0
            | [a] => H1 a
            | [a; b] => H2 a b
            | a :: b :: c :: l' => H3 a b c l' (go l')
            end).
Qed.

Lemma lt_0_256 : (0 < 256)%N.
Proof. reflexivity. Qed.

(** One character of the alphabet moves the decoder one place on in its
    group. *)
Lemma a2b_base64_char d rest quad_pos leftchar pads :
  (d < 64)%N →
  a2b_base64 (char d :: rest) quad_pos leftchar pads
  = match quad_pos with
    | 0%nat => a2b_base64 rest 1%nat d 0%nat
    | 1%nat =>
        cons (byte_of (leftchar * 4 + d / 16)%N)
          <$> a2b_base64 rest 2%nat (d mod 16)%N 0%nat
    | 2%nat =>
        cons (byte_of (leftchar * 16 + d / 4)%N)
          <$> a2b_base64 rest 3%nat (d mod 4)%N 0%nat
    | _ =>
        cons (byte_of (leftchar * 64 + d)%N)
          <$> a2b_base64 rest 0%nat 0%N 0%nat
    end.
Proof.
  intros Hd. cbn [a2b_base64].
  destruct (char_spec d Hd) as (-> & -> & _). reflexivity.
Qed.

(** Decoding what the encoder produced gives the bytes back. *)
Lemma b64decode_b64encode (bs : list byte) :
  b64decode (b64encode bs) = Return bs.
Proof.
  unfold b64decode.
  induction bs as [|a|a b|a b c l IH] using list_ind3.
  - reflexivity.
  - pose proof (sextets_bounds _ _ _ (to_N_lt a) lt_0_256 lt_0_256) as Hb.
    pose proof (octets_sextets _ _ _ (to_N_lt a) lt_0_256 lt_0_256) as Ho.
    cbn [b64encode].
    destruct (sextets (Byte.to_N a) 0 0) as [[[d0 d1] d2] d3].
    destruct Hb as (H0 & H1 & _ & _).
    rewrite !a2b_base64_char by assumption.
    unfold octets in Ho. injection Ho as Ha _ _.
    rewrite Ha, byte_of_to_N. reflexivity.
  - pose proof (sextets_bounds _ _ _ (to_N_lt a) (to_N_lt b) lt_0_256) as Hb.
    pose proof (octets_sextets _ _ _ (to_N_lt a) (to_N_lt b) lt_0_256) as Ho.
    cbn [b64encode].
    destruct (sextets (Byte.to_N a) (Byte.to_N b) 0) as [[[d0 d1] d2] d3].
    destruct Hb as (H0 & H1 & H2 & _).
    rewrite !a2b_base64_char by assumption.
    unfold octets in Ho. injection Ho as Ha Hb' _.
    rewrite Ha, Hb', !byte_of_to_N. reflexivity.
  - pose proof (sextets_bounds _ _ _ (to_N_lt a) (to_N_lt b) (to_N_lt c)) as Hb.
    pose proof (octets_sextets _ _ _ (to_N_lt a) (to_N_lt b) (to_N_lt c)) as Ho.
    cbn [b64encode].
    destruct (sextets (Byte.to_N a) (Byte.to_N b) (Byte.to_N c))
      as [[[d0 d1] d2] d3].
    destruct Hb as (H0 & H1 & H2 & H3).
    rewrite !a2b_base64_char by assumption.
    unfold octets in Ho. injection Ho as Ha Hb' Hc.
    rewrite IH, Ha, Hb', Hc, !byte_of_to_N. reflexivity.
Qed.

(** The encoder writes ASCII only. *)
Lemma b64encode_ascii (bs : list byte) :
  forallb is_ascii (b64encode bs) = true.
Proof.
  induction bs as [|a|a b|a b c l IH] using list_ind3.
  - reflexivity.
  - pose proof (sextets_bounds _ _ _ (to_N_lt a) lt_0_256 lt_0_256) as Hb.
    cbn [b64encode].
    destruct (sextets (Byte.to_N a) 0 0) as [[[d0 d1] d2] d3].
    destruct Hb as (H0 & H1 & _ & _).
    cbn [forallb].
    destruct (char_spec d0 H0) as (_ & _ & ->).
    destruct (char_spec d1 H1) as (_ & _ & ->).
    reflexivity.
  - pose proof (sextets_bounds _ _ _ (to_N_lt a) (to_N_lt b) lt_0_256) as Hb.
    cbn [b64encode].
    destruct (sextets (Byte.to_N a) (Byte.to_N b) 0) as [[[d0 d1] d2] d3].
    destruct Hb as (H0 & H1 & H2 & _).
    cbn [forallb].
    destruct (char_spec d0 H0) as (_ & _ & ->).
    destruct (char_spec d1 H1) as (_ & _ & ->).
    destruct (char_spec d2 H2) as (_ & _ & ->).
    reflexivity.
  - pose proof (sextets_bounds _ _ _ (to_N_lt a) (to_N_lt b) (to_N_lt c)) as Hb.
    cbn [b64encode].
    destruct (sextets (Byte.to_N a) (Byte.to_N b) (Byte.to_N c))
      as [[[d0 d1] d2] d3].
    destruct Hb as (H0 & H1 & H2 & H3).
    cbn [forallb].
    destruct (char_spec d0 H0) as (_ & _ & ->).
    destruct (char_spec d1 H1) as (_ & _ & ->).
    destruct (char_spec d2 H2) as (_ & _ & ->).
    destruct (char_spec d3 H3) as (_ & _ & ->).
    exact IH.
Qed.

End Base64Facts.

(** ** The envelope of a direct invocation *)

Section Envelope.
Context {ext : Externals}.
Import Backend.

Lemma decode_b64encode (bs : list byte) :
  ∃ text, bytes_decode (Base64.b64encode bs) = Return text
          ∧ Base64.b64decode (str_encode text) = Return bs.
Proof.
  exists (String.string_of_list_byte (Base64.b64encode bs)). split.
  - unfold bytes_decode. rewrite Base64Facts.b64encode_ascii. reflexivity.
  - unfold str_encode. rewrite String.list_byte_of_string_of_list_byte.
    apply Base64Facts.b64decode_b64encode.
Qed.

(** The body of a plain [Response] whose content is bytes is that content. *)
Lemma binary_body (binary : Response.t) k bs :
  Response.cls binary = Response.Response →
  Response._content binary = PBin k bs →
  ∃ binary1,
    Response.body binary = (Return (PBin k bs), binary1)
    ∧ Response._status_code binary1 = Response._status_code binary.
Proof.
  intros Hcls Hcontent. unfold Response.body, Response._render.
  rewrite Hcontent. simpl. rewrite Hcontent, Hcls. simpl.
  destruct (Response._media_type binary); eexists; split; reflexivity.
Qed.

(** C8.  [serialize_response] returns the envelope with the rendered body,
    the status code as text and the headers; the body is Base64 text and
    [isBase64Encoded] is true exactly when the rendered body is bytes-like,
    and decoding that text gives the rendered bytes back; any other body is
    passed through with the flag false.  In particular a plain [Response]
    with bytes content is sent as Base64 text that decodes to its content. *)
Theorem C8_direct_envelope
    (response response1 : Response.t) (request : Request.t) (rendered : pyval)
    (binary : Response.t) (k : byteslike) (bs : list byte)
    (Hbody : Response.body response = (Return rendered, response1))
    (Hcls : Response.cls binary = Response.Response)
    (Hcontent : Response._content binary = PBin k bs) :
  match rendered with
  | PBin _ raw =>
      ∃ text,
        serialize_response response request
        = (Return (envelope (PStr text) response1 true), response1)
        ∧ Base64.b64decode (str_encode text) = Return raw
  | _ =>
      serialize_response response request
      = (Return (envelope rendered response1 false), response1)
  end
  ∧ ∃ text binary1,
      serialize_response binary request
      = (Return (envelope (PStr text) binary1 true), binary1)
      ∧ Base64.b64decode (str_encode text) = Return bs
      ∧ Response._status_code binary1 = Response._status_code binary.
Proof.
  split.
  - unfold serialize_response. rewrite Hbody.
    destruct rendered as [| | | |k' raw| |]; try reflexivity.
    destruct (decode_b64encode raw) as (text & Hdecode & Hround).
    exists text. rewrite Hdecode. split; [reflexivity | exact Hround].
  - destruct (binary_body binary k bs Hcls Hcontent) as (binary1 & Hb & Hstatus).
    destruct (decode_b64encode bs) as (text & Hdecode & Hround).
    exists text, binary1. unfold serialize_response.
    rewrite Hb, Hdecode. repeat split; assumption.
Qed.

End Envelope.

(** ** Batch dispatch: the pairs handed to the serializer *)

Section BatchDispatch.
Context {ext : Externals}.
Import Handler.

Lemma handled_task routes requests resp_req :
  Forall2 (handled routes) requests resp_req →
  Forall2 (λ c p, force c = Return p) (map (task routes) requests) resp_req.
Proof.
  induction 1 as [|request [response request1] requests resp_req [ev Hh] _ IH];
    simpl; constructor; [| exact IH].
  rewrite force_task. simpl in Hh. rewrite Hh. reflexivity.
Qed.

(** C2, as the code has it.  When the handling of every request of a batch
    returns a response, [__acall__] hands [serialize_responses] one pair per
    request, in the order of the requests: the i-th pair is the response of
    handling the i-th request with that request object.  This holds for
    every schedule: [gather] resolves to these pairs or is still pending,
    and it resolves once every task has had its turns. *)
Theorem C2_pairs_in_input_order
    (schedule : list nat) (routes : gmap string (gmap string _APIRoute))
    (event : list (string * pyval)) (context : pyval)
    (requests : list Request.t) (resp_req : list (Response.t * Request.t))
    (Hparse : Backend.parse_request event context = Return (Many requests))
    (Hhandled : Forall2 (handled routes) requests resp_req) :
  (_handle_requests schedule routes requests = None
   ∨ _handle_requests schedule routes requests = Some (Return resp_req))
  ∧ (enough_turns schedule (map (task routes) requests) →
     _handle_requests schedule routes requests = Some (Return resp_req)
     ∧ __acall__ schedule routes event context
       = Some (Backend.serialize_responses resp_req))
  ∧ length resp_req = length requests
  ∧ ∀ i request, requests !! i = Some request →
      ∃ p, resp_req !! i = Some p ∧ handled routes request p.
Proof.
  pose proof (gather_ordered schedule _ _ (handled_task _ _ _ Hhandled))
    as [Hany Hfair].
  split; [exact Hany |]. split; [| split].
  - intros Hturns. specialize (Hfair Hturns). split; [exact Hfair |].
    unfold __acall__. rewrite Hparse. unfold _handle_requests in *.
    rewrite Hfair. reflexivity.
  - symmetry. eapply Forall2_length. exact Hhandled.
  - intros i request Hi.
    destruct (Forall2_lookup_l _ _ _ _ _ Hhandled Hi) as (p & Hp & Hh). eauto.
Qed.

(** Requests that do not raise exceptions are always handled: the premise
    of C2 holds for a queue batch. *)
Lemma absorbing_requests_handled routes requests :
  Forall (λ request,
            truthy (Request._raises_exceptions
                      (snd (force (_handle_request routes request)))) = false)
    requests →
  ∃ resp_req, Forall2 (handled routes) requests resp_req.
Proof.
  induction 1 as [|request requests Hflag _ [resp_req IH]].
  - exists []. constructor.
  - destruct (force (_handle_request routes request)) as [[r ev] request1] eqn:Hh.
    destruct (absorbing_request_returns _ _ _ _ _ Hh Hflag) as [response ->].
    exists ((response, request1) :: resp_req). constructor; [| exact IH].
    exists ev. exact Hh.
Qed.

End BatchDispatch.

(** A schedule can be checked against the tasks by counting. *)
Lemma enough_turns_by_count {A} (schedule : list nat) (coros : list (coro A)) :
  forallb (λ ic, (suspensions (snd ic)
                  <? count_occ Nat.eq_dec schedule (fst ic))%nat)
    (imap pair coros) = true →
  enough_turns schedule coros.
Proof.
  intros Hall i c Hi. apply Nat.ltb_lt.
  rewrite forallb_forall in Hall. apply (Hall (i, c)).
  apply list_elem_of_In, (elem_of_lookup_imap_2 pair). exact Hi.
Qed.

(** * Examples: the scenarios of the test suite *)

Section Examples.
Import Fixtures.
#[local] Existing Instance fixture_externals.

(** [test_status_code]: [get204] returns [None] on a route whose default
    status is 200. *)
Lemma C6_witness :
  ∃ response ev,
    force (Handler._handle_request routes (direct_request "/"))
    = (Return response, ev, snd (Request.json (direct_request "/")))
    ∧ Response._status_code response = 204.
Proof.
  destruct (C6_status_content_coupling
              (Response.with_content binary_response PNone)
              (Response.with_status_code binary_response 204)
              (PStr "test")
              (Handler.create_event binary_request)
              routes (direct_request "/")
              (snd (Request.json (direct_request "/")))
              {| Handler.status_code := 200; Handler.func := get;
                 Handler.params := [] |}
              PNone
              (λ frame, Suspended (Done (Return (Handler.Content PNone), frame))))
    as (_ & _ & response & ev & Hhandle & Hstatus & _).
  - vm_compute. reflexivity.
  - vm_compute. reflexivity.
  - discriminate.
  - vm_compute. reflexivity.
  - reflexivity.
  - vm_compute. reflexivity.
  - vm_compute. reflexivity.
  - intros frame. reflexivity.
  - exists response, ev. split; assumption.
Defined.

(** [test_batch], queue part: items 2 and 3 fail. *)
Lemma C1_witness :
  Backend._serialize_event_sqs
    (returned_pairs
       (handle_each routes
          (parsed_requests (Backend.parse_request sqs_event PNone))))
  = Return (batchItemFailures [PStr "2"; PStr "3"]).
Proof.
  assert (Hids : Forall2 (λ p id, Backend.message_id (snd p) = Return id)
                   (returned_pairs
                      (handle_each routes
                         (parsed_requests (Backend.parse_request sqs_event PNone))))
                   [PStr "1"; PStr "2"; PStr "3"; PStr "4"]).
  { set (l := returned_pairs _). vm_compute in l. subst l. repeat constructor. }
  pose proof (C1_sqs_failure_report _ _ Hids) as [Hreport _].
  vm_compute in Hreport. vm_compute. exact Hreport.
Defined.

(** [test_batch], queue part, with the attempts completing in another
    order than the records. *)
Lemma C2_witness :
  Handler._handle_requests [3; 2; 1; 0; 0; 1; 2; 3]%nat routes
    (parsed_requests (Backend.parse_request sqs_event PNone))
  = Some (Return
            (returned_pairs
               (handle_each routes
                  (parsed_requests (Backend.parse_request sqs_event PNone))))).
Proof.
  assert (Hparse : Backend.parse_request sqs_event PNone
                   = Return (Many (parsed_requests
                                     (Backend.parse_request sqs_event PNone))))
    by (vm_compute; reflexivity).
  assert (Hhandled :
            Forall2 (handled routes)
              (parsed_requests (Backend.parse_request sqs_event PNone))
              (returned_pairs
                 (handle_each routes
                    (parsed_requests (Backend.parse_request sqs_event PNone))))).
  { set (pairs := returned_pairs _). vm_compute in pairs. subst pairs.
    set (requests := parsed_requests _). vm_compute in requests. subst requests.
    repeat (constructor; [eexists; vm_compute; reflexivity |]). constructor. }
  pose proof (C2_pairs_in_input_order [3; 2; 1; 0; 0; 1; 2; 3]%nat routes
                sqs_event PNone _ _ Hparse Hhandled) as (_ & Hfair & _).
  apply Hfair, enough_turns_by_count. vm_compute. reflexivity.
Defined.

(** The broker batch of [test_batch] with a message for [raise_500]: the
    request raises exceptions, [gather] raises, and no pair reaches the
    serializer, in whatever order the attempts complete. *)
Lemma C2_counterexample :
  Backend.parse_request failing_mq_event PNone
  = Return (Many (parsed_requests (Backend.parse_request failing_mq_event PNone)))
  ∧ length (parsed_requests (Backend.parse_request failing_mq_event PNone)) = 2%nat
  ∧ Handler._handle_requests [0; 0; 1; 1]%nat routes
      (parsed_requests (Backend.parse_request failing_mq_event PNone))
    = Some (Raise (ValueError "Invalid value."))
  ∧ Handler.__acall__ [0; 0; 1; 1]%nat routes failing_mq_event PNone
    = Some (Raise (ValueError "Invalid value."))
  ∧ ∀ schedule,
      ¬ ∃ resp_req,
          Handler._handle_requests schedule routes
            (parsed_requests (Backend.parse_request failing_mq_event PNone))
          = Some (Return resp_req).
Proof.
  repeat split; try (vm_compute; reflexivity).
  intros schedule [resp_req Hpairs]. revert Hpairs.
  unfold Handler._handle_requests.
  set (requests := parsed_requests _). vm_compute in requests. subst requests.
  eapply (gather_never_returns schedule _ 1); [reflexivity |].
  vm_compute. reflexivity.
Qed.

(** [test_exception_handling], [/raise_500]: the [ValueError] is raised
    again after the log event got status 500. *)
Lemma C3_witness :
  fst (fst (force (Handler._handle_request routes (direct_request "/raise_500"))))
  = Raise (ValueError "Invalid value.")
  ∧ ev_status_code
      (snd (fst (force (Handler._handle_request routes
                          (direct_request "/raise_500"))))) = Some 500.
Proof.
  pose proof (C3_unhandled_fault routes (direct_request "/raise_500")
                (ValueError "Invalid value.")
                (snd (fst (force (Handler.attempt routes
                                    (direct_request "/raise_500")
                                    (Handler.create_event
                                       (direct_request "/raise_500"))))))
                (snd (force (Handler.attempt routes
                               (direct_request "/raise_500")
                               (Handler.create_event
                                  (direct_request "/raise_500")))))
                ltac:(vm_compute; reflexivity) I) as Hfault.
  hnf in Hfault. destruct Hfault as (Hhandle & _ & Hev & _).
  vm_compute in Hhandle, Hev.
  split; vm_compute; [| exact Hev].
  exact (f_equal (λ x, fst (fst x)) Hhandle).
Defined.

(** Flags of the requests of a direct invocation, of a queue batch, of a
    topic batch whose second message asks for [False], and of a broker
    batch. *)
Lemma C4_witness :
  Request._raises_exceptions
    (parsed_single (Backend.parse_request (direct_event "/" "GET" PNone) PNone)
       binary_request) = PBool true
  ∧ Forall (λ r, Request._raises_exceptions r = PBool false)
      (parsed_requests (Backend.parse_request sqs_event PNone))
  ∧ (∃ records,
       batch_records quiet_sns_event "Records" = Return records
       ∧ Forall2 (λ record r,
                    ∃ message document,
                      topic_message record = Return message
                      ∧ loads message = Return document
                      ∧ Request._raises_exceptions r = requested_flag document)
           records
           (parsed_requests (Backend.parse_request quiet_sns_event PNone)))
  ∧ (∃ records,
       batch_records failing_mq_event "messages" = Return records
       ∧ Forall2 (λ record r,
                    ∃ data document,
                      broker_data record = Return data
                      ∧ loads data = Return document
                      ∧ Request._raises_exceptions r = requested_flag document)
           records
           (parsed_requests (Backend.parse_request failing_mq_event PNone))).
Proof.
  pose proof (C4_raises_exceptions_by_trigger PNone
                (direct_event "/" "GET" PNone)
                (parsed_single
                   (Backend.parse_request (direct_event "/" "GET" PNone) PNone)
                   binary_request)
                sqs_event
                (parsed_requests (Backend.parse_request sqs_event PNone))
                sns_event
                (parsed_requests (Backend.parse_request sns_event PNone))
                quiet_sns_event
                (parsed_requests (Backend.parse_request quiet_sns_event PNone))
                failing_mq_event
                (parsed_requests (Backend.parse_request failing_mq_event PNone))
                ltac:(vm_compute; reflexivity)
                ltac:(split; [reflexivity
                             | exists (PStr "aws:sqs"); split; reflexivity])
                ltac:(vm_compute; reflexivity)
                ltac:(vm_compute; reflexivity)
                ltac:(split; [reflexivity
                             | exists (PStr "aws:sns"); split; reflexivity])
                ltac:(vm_compute; reflexivity)
                ltac:(split; [reflexivity
                             | exists (PStr "aws:mq"); split; reflexivity])
                ltac:(vm_compute; reflexivity))
    as (Hdirect & Hqueue & _ & Htopic & Hbroker).
  repeat split; assumption.
Defined.

(** The flags of that topic batch: the first message has no entry, the
    second asks for [False]. *)
Example topic_flags_follow_the_message :
  raises_flags (Backend.parse_request quiet_sns_event PNone)
  = [PBool true; PBool false].
Proof. vm_compute. reflexivity. Qed.

(** The requests parsed from the broker and topic batches of [test_batch]
    raise exceptions. *)
Lemma C4_counterexample :
  raises_flags (Backend.parse_request failing_mq_event PNone)
  = [PBool true; PBool true]
  ∧ raises_flags (Backend.parse_request sns_event PNone)
    = [PBool true; PBool true].
Proof. split; vm_compute; reflexivity. Qed.

(** [test_binary_body]: the body [b"test"] is not JSON and is its own JSON
    view; on the body of the single byte [0xff], which is not UTF-8, the
    decoder raises [UnicodeDecodeError] and so does [json()]. *)
Lemma C7_witness :
  Request.json binary_request
  = (Return (PBin Bytes (str_encode "test")),
     Request.with_json binary_request (PBin Bytes (str_encode "test")))
  ∧ Request.json undecodable_request
    = (Raise UnicodeDecodeError, undecodable_request).
Proof.
  split.
  - destruct (C7_json_view binary_request binary_request
                (PBin Bytes (str_encode "test")) eq_refl eq_refl)
      as (_ & _ & Hkept & _).
    apply Hkept; [discriminate | vm_compute; reflexivity].
  - destruct (C7_json_view undecodable_request undecodable_request
                (PBin Bytes [Byte.xff]) eq_refl eq_refl)
      as (_ & _ & _ & Hraised & _).
    apply (Hraised UnicodeDecodeError);
      [discriminate | vm_compute; reflexivity | discriminate].
Defined.

Lemma C7_counterexample :
  loads (PBin Bytes (str_encode "test")) = Raise JSONDecodeError
  ∧ fst (Request.json binary_request) = Return (PBin Bytes (str_encode "test"))
  ∧ fst (Request.json binary_request) ≠ Return PNone.
Proof.
  split; [vm_compute; reflexivity |].
  split; [vm_compute; reflexivity |].
  vm_compute. discriminate.
Qed.

(** [test_binary_body]: the response is sent as Base64 text that decodes to
    [b"test"]. *)
Lemma C8_witness :
  ∃ text,
    fst (Backend.serialize_response binary_response binary_request)
    = Return (envelope (PStr text)
                (snd (Backend.serialize_response binary_response binary_request))
                true)
    ∧ Base64.b64decode (str_encode text) = Return (str_encode "test").
Proof.
  destruct (C8_direct_envelope binary_response
              (snd (Response.body binary_response)) binary_request
              (PBin Bytes (str_encode "test"))
              binary_response Bytes (str_encode "test")
              ltac:(vm_compute; reflexivity) eq_refl eq_refl)
    as (_ & text & binary1 & Hser & Hround & _).
  exists text. rewrite Hser. split; [reflexivity | exact Hround].
Defined.

(** [test_batch], topic part. *)
Lemma C9_witness :
  Backend.serialize_responses
    (returned_pairs
       (handle_each routes
          (parsed_requests (Backend.parse_request sns_event PNone))))
  = Return PNone.
Proof.
  apply (C9_no_ack_for_topic_and_broker sns_event PNone "sns"
           (parsed_requests (Backend.parse_request sns_event PNone))).
  - split; [reflexivity | exists (PStr "aws:sns"); split; reflexivity].
  - left. reflexivity.
  - vm_compute. reflexivity.
  - set (pairs := returned_pairs _). vm_compute in pairs. subst pairs.
    set (requests := parsed_requests _). vm_compute in requests. subst requests.
    repeat (constructor; [split; reflexivity |]). constructor.
Defined.

(** [test_batch]: [dict(Records=[])]. *)
Lemma C10_witness :
  Handler.__acall__ [] routes [("Records", PList [])] PNone = Some (Return PNone).
Proof.
  apply (C10_empty_batch [] routes [("Records", PList [])] PNone eq_refl).
Defined.

(** [test_routing]: 404 for an unknown path, 405 for a known path with
    another method. *)
Example routing_404_405 :
  Handler.lookup_route routes (PStr "/not_exists") (PStr "GET")
  = Raise (HTTPException 404 PNone PNone)
  ∧ Handler.lookup_route routes (PStr "/raise_400") (PStr "PUT")
    = Raise (HTTPException 405 PNone PNone).
Proof. split; vm_compute; reflexivity. Qed.

End Examples.

(** * Further properties of the code *)

(** ** Registration *)

Section Registration.
Import Handler.

Lemma registered_insert (routes : Routes) path method route path' method' :
  registered
    (<[path := <[method := route]> (default ∅ (routes !! path))]> routes)
    path' method'
  = if decide (path' = path ∧ method' = method) then Some route
    else registered routes path' method'.
Proof.
  unfold registered.
  destruct (decide (path' = path)) as [->|Hp].
  - rewrite lookup_insert_eq. simpl.
    destruct (decide (method' = method)) as [->|Hm].
    + rewrite lookup_insert_eq. rewrite decide_True by auto. reflexivity.
    + rewrite lookup_insert_ne by congruence.
      rewrite decide_False by tauto.
      destruct (routes !! path); [reflexivity | apply lookup_empty].
  - rewrite lookup_insert_ne by congruence.
    rewrite decide_False by tauto. reflexivity.
Qed.

Lemma api_route_fresh path method status f ps (routes : Routes) :
  registered routes path method = None →
  _api_route path method status f ps routes
  = (Return (),
     <[path := <[method := new_route status f ps]> (default ∅ (routes !! path))]>
       routes).
Proof.
  unfold registered, _api_route. fold (new_route status f ps).
  destruct (routes !! path) as [path_routes|] eqn:Hp; simpl.
  - intros ->. reflexivity.
  - intros _. rewrite lookup_empty. f_equal.
    apply map_eq. intros k. destruct (decide (k = path)) as [->|Hk].
    + by rewrite !lookup_insert_eq.
    + by rewrite !lookup_insert_ne.
Qed.

(** Registering a pair that is not in the table succeeds; afterwards the
    pair maps to the new route, whose status defaults to 200, and every other
    pair is as before. *)
Theorem api_route_registers
    (path method : string) (status : option Z)
    (f : list (string * arg) → result Coroutine)
    (ps : list (string * param_cls)) (routes : Routes)
    (Hfresh : registered routes path method = None) :
  fst (_api_route path method status f ps routes) = Return ()
  ∧ registered (snd (_api_route path method status f ps routes)) path method
    = Some (new_route status f ps)
  ∧ (∀ path' method',
       (path', method') ≠ (path, method) →
       registered (snd (_api_route path method status f ps routes)) path' method'
       = registered routes path' method')
  ∧ (status = None ∨ status = Some 0 →
     status_code (new_route status f ps) = 200).
Proof.
  rewrite (api_route_fresh _ _ _ _ _ _ Hfresh). simpl.
  split; [reflexivity |]. split; [| split].
  - rewrite registered_insert. rewrite decide_True by auto. reflexivity.
  - intros path' method' Hne. rewrite registered_insert.
    rewrite decide_False; [reflexivity |]. intros [-> ->]. congruence.
  - intros [-> | ->]; reflexivity.
Qed.

Lemma api_route_taken path method status f ps (routes : Routes) route :
  registered routes path method = Some route →
  _api_route path method status f ps routes
  = (Raise (ValueError (already_registered method path)), routes).
Proof.
  unfold registered, _api_route. intros Hregistered.
  destruct (routes !! path) as [path_routes|]; [| discriminate].
  simpl in Hregistered. rewrite Hregistered. reflexivity.
Qed.

(** Registering a pair that is already in the table raises [ValueError],
    whose message names the method and the path, and leaves the table as it
    was: the route registered first stays. *)
Theorem api_route_duplicate
    (path method : string) (status : option Z)
    (f : list (string * arg) → result Coroutine)
    (ps : list (string * param_cls)) (routes : Routes) (route : _APIRoute)
    (Hregistered : registered routes path method = Some route) :
  _api_route path method status f ps routes
  = (Raise (ValueError (already_registered method path)), routes)
  ∧ registered (snd (_api_route path method status f ps routes)) path method
    = Some route.
Proof.
  rewrite (api_route_taken _ _ _ _ _ _ _ Hregistered).
  split; [reflexivity | exact Hregistered].
Qed.

Lemma register_keeps (routes : Routes) r path method route :
  registered routes path method = Some route →
  registered (Registry.register routes r) path method = Some route.
Proof.
  intros Hreg. unfold Registry.register.
  destruct (registered routes (Registry.reg_path r) (Registry.reg_method r))
    as [old|] eqn:Hr.
  - rewrite (api_route_taken _ _ _ _ _ _ _ Hr). exact Hreg.
  - rewrite (api_route_fresh _ _ _ _ _ _ Hr). simpl.
    rewrite registered_insert. rewrite decide_False; [exact Hreg |].
    intros [-> ->]. congruence.
Qed.

(** A registered route is never replaced or removed by later
    registrations, whether they succeed or raise. *)
Theorem registration_is_permanent
    (regs more : list Registry.registration) (path method : string)
    (route : _APIRoute)
    (Hregistered : registered (Registry.register_all regs) path method
                   = Some route) :
  registered (Registry.register_all (regs ++ more)) path method = Some route
  ∧ lookup_route (Registry.register_all (regs ++ more)) (PStr path) (PStr method)
    = Return route.
Proof.
  assert (Hkept : registered (Registry.register_all (regs ++ more)) path method
                  = Some route).
  { unfold Registry.register_all in *. rewrite fold_left_app.
    revert Hregistered. generalize (fold_left Registry.register regs ∅).
    induction more as [|r more IH]; intros routes Hreg; [exact Hreg |].
    simpl. apply IH, register_keeps, Hreg. }
  split; [exact Hkept |].
  unfold registered in Hkept. unfold lookup_route, dict_lookup.
  destruct (Registry.register_all (regs ++ more) !! path) as [path_routes|];
    [| discriminate].
  simpl in Hkept. rewrite Hkept. reflexivity.
Qed.

Lemma path_registered_first regs path :
  Registry.path_registered regs path = true →
  ∃ method route, Registry.first_registration regs path method = Some route.
Proof.
  induction regs as [|r regs IH]; [discriminate |].
  simpl. destruct (String.eqb_spec (Registry.reg_path r) path) as [<-|Hne].
  - intros _. exists (Registry.reg_method r), (Registry.route_of r).
    rewrite String.eqb_refl. reflexivity.
  - simpl. intros Hrest. destruct (IH Hrest) as (method & route & Hfirst).
    exists method, route. exact Hfirst.
Qed.

(** Every path of a table built by registrations serves at least one
    method: a path is never left in the table without a route, so the 405
    answer always means that another method of the path exists. *)
Theorem no_path_without_route
    (regs : list Registry.registration) (path : string)
    (path_routes : gmap string _APIRoute)
    (Hpath : Registry.register_all regs !! path = Some path_routes) :
  ∃ method route,
    path_routes !! method = Some route
    ∧ lookup_route (Registry.register_all regs) (PStr path) (PStr method)
      = Return route.
Proof.
  pose proof (register_all_lookup regs path) as Htable.
  rewrite Hpath in Htable. destruct Htable as [Hreg Hmethods].
  destruct (path_registered_first _ _ Hreg) as (method & route & Hfirst).
  exists method, route. rewrite Hmethods. split; [exact Hfirst |].
  unfold lookup_route, dict_lookup. rewrite Hpath, Hmethods, Hfirst. reflexivity.
Qed.

Lemma decorator_method m d :
  In (m, d) Decorators.all → d = λ path status, _api_route path m status.
Proof.
  unfold Decorators.all. simpl.
  intros H. repeat (destruct H as [[= <- <-]|H]; [reflexivity |]).
  contradiction.
Qed.

(** Two different decorators never conflict on a path: applied one after
    the other to a path that has neither method, both succeed and each method
    finds its own route; the same decorator applied once more raises
    [ValueError] and changes nothing. *)
Theorem decorators_do_not_conflict
    (m1 m2 : string) (d1 d2 : Decorators.decorator)
    (path : string) (s1 s2 : option Z)
    (f1 f2 : list (string * arg) → result Coroutine)
    (p1 p2 : list (string * param_cls)) (routes : Routes)
    (Hd1 : In (m1, d1) Decorators.all)
    (Hd2 : In (m2, d2) Decorators.all)
    (Hdifferent : m1 ≠ m2)
    (Hfree1 : registered routes path m1 = None)
    (Hfree2 : registered routes path m2 = None) :
  let routes1 := snd (d1 path s1 f1 p1 routes) in
  let routes2 := snd (d2 path s2 f2 p2 routes1) in
  fst (d1 path s1 f1 p1 routes) = Return ()
  ∧ fst (d2 path s2 f2 p2 routes1) = Return ()
  ∧ registered routes2 path m1 = Some (new_route s1 f1 p1)
  ∧ registered routes2 path m2 = Some (new_route s2 f2 p2)
  ∧ d2 path s1 f1 p1 routes2
    = (Raise (ValueError (already_registered m2 path)), routes2).
Proof.
  pose proof (decorator_method _ _ Hd1) as ->.
  pose proof (decorator_method _ _ Hd2) as ->.
  pose proof Hdifferent as Hm.
  cbv zeta. cbv beta.
  rewrite (api_route_fresh _ _ _ _ _ _ Hfree1). simpl.
  set (routes1 := <[path := _]> routes).
  assert (Hfree2' : registered routes1 path m2 = None).
  { subst routes1. rewrite registered_insert.
    rewrite decide_False by (intros [_ ?]; congruence). exact Hfree2. }
  assert (Hreg1 : registered routes1 path m1 = Some (new_route s1 f1 p1)).
  { subst routes1. rewrite registered_insert.
    rewrite decide_True by auto. reflexivity. }
  rewrite (api_route_fresh _ _ _ _ _ _ Hfree2'). simpl.
  set (routes2 := <[path := _]> routes1).
  assert (Hreg2 : registered routes2 path m2 = Some (new_route s2 f2 p2)).
  { subst routes2. rewrite registered_insert.
    rewrite decide_True by auto. reflexivity. }
  repeat split.
  - subst routes2. rewrite registered_insert.
    rewrite decide_False by (intros [_ ?]; congruence). exact Hreg1.
  - exact Hreg2.
  - apply (api_route_taken _ _ _ _ _ _ _ Hreg2).
Qed.

End Registration.

(** ** Request headers *)

Section Headers.



Lemma assoc_get_set {V} k k' (v : V) kvs :
  assoc_get k (assoc_set k' v kvs)
  = if String.eqb k k' then Some v else assoc_get k kvs.
Proof.
  destruct (String.eqb_spec k k') as [->|Hne].
  - apply assoc_get_set_eq.
  - apply assoc_get_set_ne, Hne.
Qed.


Lemma find_snoc {A} (p : A → bool) (l : list A) (x : A) :
  List.find p (l ++ [x])
  = match List.find p l with
    | Some y => Some y
    | None => if p x then Some x else None
    end.
Proof.
  induction l as [|y l IH]; simpl; [reflexivity |].
  destruct (p y); [reflexivity | exact IH].
Qed.

(** The dictionary comprehension of [Request.__init__], entry by entry: the
    value under [k] is that of the last header whose lower-cased name is
    [k]. *)
Lemma lower_keys_fold (headers acc : list (string * pyval)) k :
  assoc_get k
    (fold_left (λ acc kv, assoc_set (lower (fst kv)) (snd kv) acc) headers acc)
  = match List.find (λ kv, String.eqb k (lower (fst kv))) (rev headers) with
    | Some kv => Some (snd kv)
    | None => assoc_get k acc
    end.
Proof.
  revert acc. induction headers as [|[k0 v0] rest IH]; intros acc; simpl.
  - reflexivity.
  - rewrite IH, find_snoc. simpl.
    destruct (List.find _ (rev rest)); [reflexivity |].
    rewrite assoc_get_set. destruct (String.eqb k (lower k0)); reflexivity.
Qed.



End Headers.

(** ** The request of an API Gateway event *)

Section AwsRequest.

Lemma assoc_set_absent {V} k (v : V) kvs :
  assoc_get k kvs = None → assoc_set k v kvs = (kvs ++ [(k, v)])%list.
Proof.
  induction kvs as [|[k' v'] rest IH]; simpl; [reflexivity |].
  destruct (String.eqb k k'); [discriminate |].
  intros Hrest. rewrite (IH Hrest). reflexivity.
Qed.

Lemma lower_keys_get headers k :
  assoc_get k (Request.lower_keys headers)
  = snd <$> List.find (λ kv, String.eqb k (lower (fst kv))) (rev headers).
Proof.
  unfold Request.lower_keys. rewrite lower_keys_fold.
  destruct (List.find _ _); reflexivity.
Qed.

(** The headers [aws_lambda.Request.__init__] passes to the base class when
    the event has a request id. *)
Lemma aws__init__headers event ctx flag r request_context request_id :
  Request.aws__init__ (PDict event) ctx flag = Return r →
  assoc_get "requestContext" event = Some (PDict request_context) →
  assoc_get "requestId" request_context = Some request_id →
  Request._headers r
  = Request.lower_keys
      (match assoc_get "x-request-id" (event_headers event) with
       | Some _ => event_headers event
       | None => assoc_set "x-request-id" request_id (event_headers event)
       end).
Proof.
  unfold Request.aws__init__, event_headers. intros Hr Hrc Hid.
  unfold mbind, result_bind in Hr. simpl in Hr. rewrite Hrc in Hr.
  match type of Hr with
  | match ?mp with _ => _ end = _ =>
      destruct mp as [[method path]|e]; [| discriminate]
  end.
  unfold getitem in Hr. rewrite Hid in Hr. unfold py_or in Hr.
  assert (Hfresh : ∀ headers : list (string * pyval),
            match assoc_set "x-request-id" request_id headers with
            | x :: h => Request.lower_keys (x :: h)
            | [] => []
            end
            = Request.lower_keys (assoc_set "x-request-id" request_id headers)).
  { intros [|[k v] headers]; [reflexivity |]. cbn [assoc_set].
    destruct (String.eqb "x-request-id" k); reflexivity. }
  destruct (assoc_get "headers" event) as [h|];
    cbn [default from_option id] in Hr.
  - destruct (truthy h) eqn:Htruthy.
    + destruct h as [| | | | | |kvs]; try discriminate Hr.
      injection Hr as <-. cbn [Request._headers Request.__init__].
      destruct kvs as [|kv kvs]; [discriminate Htruthy |].
      destruct (assoc_get "x-request-id" (kv :: kvs)); [reflexivity |].
      apply Hfresh.
    + injection Hr as <-. cbn [Request._headers Request.__init__].
      assert (Hempty : match h with PDict headers => headers | _ => [] end = []).
      { destruct h as [| | | | | |[|kv kvs]]; try reflexivity.
        discriminate Htruthy. }
      rewrite Hempty. reflexivity.
  - cbn [truthy] in Hr. injection Hr as <-. reflexivity.
Qed.

Lemma find_lower_none (headers : list (string * pyval)) k :
  lower k = k →
  List.find (λ kv, String.eqb k (lower (fst kv))) (rev headers) = None →
  assoc_get k headers = None.
Proof.
  intros Hk. induction headers as [|[k0 v0] rest IH]; [reflexivity |].
  simpl. rewrite find_snoc.
  destruct (List.find _ (rev rest)); [discriminate |].
  simpl. destruct (String.eqb_spec k k0) as [<-|Hne].
  - rewrite Hk, String.eqb_refl. discriminate.
  - intros _. apply IH. reflexivity.
Qed.

(** Unless the event's headers have the key [x-request-id] in exactly
    this case, the request's [x-request-id] header, and with it the id of
    its log event, is [requestContext.requestId]: a header sent as
    [X-Request-Id] does not prevent it. *)
Theorem request_id_from_context
    (event : list (string * pyval)) (ctx flag : pyval) (r : Request.t)
    (request_context : list (string * pyval)) (request_id : pyval)
    (Hr : Request.aws__init__ (PDict event) ctx flag = Return r)
    (Hrc : assoc_get "requestContext" event = Some (PDict request_context))
    (Hid : assoc_get "requestId" request_context = Some request_id)
    (Habsent : assoc_get "x-request-id" (event_headers event) = None) :
  assoc_get "x-request-id" (Request._headers r) = Some request_id
  ∧ ev_id (Handler.create_event r) = request_id.
Proof.
  assert (Hheader : assoc_get "x-request-id" (Request._headers r)
                    = Some request_id).
  { rewrite (aws__init__headers _ _ _ _ _ _ Hr Hrc Hid), Habsent.
    rewrite (assoc_set_absent _ _ _ Habsent), lower_keys_get, rev_app_distr.
    reflexivity. }
  split; [exact Hheader |].
  unfold Handler.create_event. simpl. rewrite Hheader. reflexivity.
Qed.

(** A header [x-request-id] sent in lower case is kept, provided no header
    of another case carries a different id. *)
Theorem request_id_from_header
    (event : list (string * pyval)) (ctx flag : pyval) (r : Request.t)
    (request_context : list (string * pyval)) (request_id sent : pyval)
    (Hr : Request.aws__init__ (PDict event) ctx flag = Return r)
    (Hrc : assoc_get "requestContext" event = Some (PDict request_context))
    (Hid : assoc_get "requestId" request_context = Some request_id)
    (Hsent : assoc_get "x-request-id" (event_headers event) = Some sent)
    (Hsame : ∀ name value,
        In (name, value) (event_headers event) →
        lower name = "x-request-id" → value = sent) :
  assoc_get "x-request-id" (Request._headers r) = Some sent
  ∧ ev_id (Handler.create_event r) = sent.
Proof.
  assert (Hheader : assoc_get "x-request-id" (Request._headers r) = Some sent).
  { rewrite (aws__init__headers _ _ _ _ _ _ Hr Hrc Hid), Hsent, lower_keys_get.
    destruct (List.find _ (rev (event_headers event))) as [[name value]|]
      eqn:Hfind; simpl.
    - apply find_some in Hfind as [Hin Hname].
      cbv beta iota delta [fst] in Hname.
      apply String.eqb_eq in Hname. apply in_rev in Hin.
      rewrite (Hsame name value Hin); congruence.
    - rewrite (find_lower_none _ _ eq_refl Hfind) in Hsent. discriminate. }
  split; [exact Hheader |].
  unfold Handler.create_event. simpl. rewrite Hheader. reflexivity.
Qed.

(** Method and path come from [requestContext.http] (HTTP API) when the
    context has that key, whatever else it has, and from
    [requestContext.httpMethod] and [requestContext.path] (REST API) when it
    has not; the request gets the flag it is given and no body yet. *)
Theorem aws_request_route
    (event : list (string * pyval)) (ctx flag : pyval) (r : Request.t)
    (request_context : list (string * pyval)) (method path : pyval)
    (Hr : Request.aws__init__ (PDict event) ctx flag = Return r)
    (Hrc : assoc_get "requestContext" event = Some (PDict request_context))
    (Hroute :
       (∃ http, assoc_get "http" request_context = Some (PDict http)
                ∧ assoc_get "method" http = Some method
                ∧ assoc_get "path" http = Some path)
       ∨ (assoc_get "http" request_context = None
          ∧ assoc_get "httpMethod" request_context = Some method
          ∧ assoc_get "path" request_context = Some path)) :
  Request._method r = method ∧ Request._path r = path
  ∧ Request.cls r = Request.AwsRequest
  ∧ Request._raises_exceptions r = flag
  ∧ Request._body r = None.
Proof.
  unfold Request.aws__init__ in Hr.
  unfold mbind, result_bind in Hr. simpl in Hr. rewrite Hrc in Hr.
  assert (Hmp :
    match getitem (PDict request_context) "http" with
    | Return http =>
        match getitem http "method" with
        | Return a =>
            match getitem http "path" with
            | Return a0 => Return (a, a0)
            | Raise e => Raise e
            end
        | Raise e => Raise e
        end
    | Raise (KeyError _) =>
        match getitem (PDict request_context) "httpMethod" with
        | Return a =>
            match getitem (PDict request_context) "path" with
            | Return a0 => Return (a, a0)
            | Raise e0 => Raise e0
            end
        | Raise e0 => Raise e0
        end
    | Raise e => Raise e
    end = Return (method, path)).
  { destruct Hroute as [(http & Hhttp & Hm & Hp)|(Hhttp & Hm & Hp)];
      simpl; rewrite Hhttp; simpl; rewrite Hm, Hp; reflexivity. }
  match type of Hr with
  | match ?mp with _ => _ end = _ =>
      change mp with
        (match getitem (PDict request_context) "http" with
         | Return http =>
             match getitem http "method" with
             | Return a =>
                 match getitem http "path" with
                 | Return a0 => Return (a, a0)
                 | Raise e => Raise e
                 end
             | Raise e => Raise e
             end
         | Raise (KeyError _) =>
             match getitem (PDict request_context) "httpMethod" with
             | Return a =>
                 match getitem (PDict request_context) "path" with
                 | Return a0 => Return (a, a0)
                 | Raise e0 => Raise e0
                 end
             | Raise e0 => Raise e0
             end
         | Raise e => Raise e
         end) in Hr
  end.
  rewrite Hmp in Hr.
  repeat case_match; simplify_eq; repeat split.
Qed.

(** An event of the wrong shape is fatal: without [requestContext] the
    constructor raises [KeyError]; a context with neither [http] nor
    [httpMethod] raises [KeyError], and so does an [http] entry without
    [method], which the [except KeyError] around the [http] lookup does not
    cover. *)
Theorem aws_request_missing_keys
    (event request_context http : list (string * pyval)) (ctx flag : pyval) :
  (assoc_get "requestContext" event = None →
   Request.aws__init__ (PDict event) ctx flag
   = Raise (KeyError (PStr "requestContext")))
  ∧ (assoc_get "requestContext" event = Some (PDict request_context) →
     assoc_get "http" request_context = None →
     assoc_get "httpMethod" request_context = None →
     Request.aws__init__ (PDict event) ctx flag
     = Raise (KeyError (PStr "httpMethod")))
  ∧ (assoc_get "requestContext" event = Some (PDict request_context) →
     assoc_get "http" request_context = Some (PDict http) →
     assoc_get "method" http = None →
     Request.aws__init__ (PDict event) ctx flag
     = Raise (KeyError (PStr "method"))).
Proof.
  unfold Request.aws__init__. repeat split.
  - intros Hrc. simpl. rewrite Hrc. reflexivity.
  - intros Hrc Hhttp Hm. simpl. rewrite Hrc. simpl. rewrite Hhttp, Hm.
    reflexivity.
  - intros Hrc Hhttp Hm. simpl. rewrite Hrc. simpl. rewrite Hhttp. simpl.
    rewrite Hm. reflexivity.
Qed.

End AwsRequest.

(** ** Request and response bodies *)

Section Bodies.
Context {ext : Externals}.

(** [body()] of an API Gateway request: no [body] entry gives [None]; a text
    body gives its UTF-8 bytes; with [isBase64Encoded] set, the Base64 text of
    some bytes gives those bytes.  The value is stored in [_body]. *)
Theorem aws_body_decoding
    (r : Request.t) (event : list (string * pyval)) (text : string)
    (bs : list byte)
    (Hcls : Request.cls r = Request.AwsRequest)
    (Hfresh : Request._body r = None)
    (Hevent : Request.event r = PDict event) :
  (assoc_get "body" event = None →
   Request.body r = (Return PNone, Request.with_body r PNone))
  ∧ (assoc_get "body" event = Some (PStr text) →
     truthy (default (PBool false) (assoc_get "isBase64Encoded" event)) = false →
     Request.body r
     = (Return (PBin Bytes (str_encode text)),
        Request.with_body r (PBin Bytes (str_encode text))))
  ∧ (assoc_get "body" event = Some (PStr text) →
     truthy (default (PBool false) (assoc_get "isBase64Encoded" event)) = true →
     str_encode text = Base64.b64encode bs →
     Request.body r
     = (Return (PBin Bytes bs), Request.with_body r (PBin Bytes bs))).
Proof.
  unfold Request.body. rewrite Hfresh, Hcls, Hevent.
  unfold dict_get, mbind, result_bind, fmap, result_fmap.
  repeat split.
  - intros ->. reflexivity.
  - intros -> ->. reflexivity.
  - intros -> -> Henc.
    change (default PNone (Some (PStr text))) with (PStr text). cbv beta iota.
    rewrite Henc, Base64Facts.b64decode_b64encode. reflexivity.
Qed.

(** [body()] is computed once: after a call that returned, a second call
    returns the same value and leaves the request as it is. *)
Theorem body_is_memoized
    (r r1 : Request.t) (value : pyval)
    (Hbody : Request.body r = (Return value, r1)) :
  Request.body r1 = (Return value, r1)
  ∧ Request.cls r1 = Request.cls r
  ∧ Request.event r1 = Request.event r
  ∧ Request._headers r1 = Request._headers r
  ∧ Request._raises_exceptions r1 = Request._raises_exceptions r.
Proof.
  unfold Request.body in *.
  destruct (Request._body r) as [b|] eqn:Hb.
  - simplify_eq. rewrite Hb. auto.
  - destruct (Request.cls r) eqn:Hcls.
    + simplify_eq. rewrite Hb, Hcls. auto.
    + match type of Hbody with
      | match ?res with _ => _ end = _ => destruct res as [b|e]
      end; simplify_eq. simpl. auto.
Qed.

(** A binary response survives the trip through the envelope: the [body]
    and [isBase64Encoded] entries [serialize_response] produces for a plain
    [Response] with bytes content, put into an event, are read back by
    [body()] as the same bytes. *)
Theorem envelope_body_round_trip
    (binary : Response.t) (k : byteslike) (bs : list byte)
    (request : Request.t)
    (Hcls : Response.cls binary = Response.Response)
    (Hcontent : Response._content binary = PBin k bs) :
  ∃ sent binary1,
    Backend.serialize_response binary request
    = (Return (envelope sent binary1 true), binary1)
    ∧ ∀ (r : Request.t) (event : list (string * pyval)),
        Request.cls r = Request.AwsRequest →
        Request._body r = None →
        Request.event r = PDict event →
        assoc_get "body" event = Some sent →
        assoc_get "isBase64Encoded" event = Some (PBool true) →
        fst (Request.body r) = Return (PBin Bytes bs).
Proof.
  destruct (binary_body binary k bs Hcls Hcontent) as (binary1 & Hb & _).
  destruct (decode_b64encode bs) as (text & Hdecode & Hround).
  exists (PStr text), binary1. split.
  - unfold Backend.serialize_response. rewrite Hb, Hdecode. reflexivity.
  - intros r event Hrcls Hfresh Hevent Hbody Hflag.
    unfold Request.body. rewrite Hfresh, Hrcls, Hevent. simpl.
    rewrite Hbody, Hflag. simpl. rewrite Hround. reflexivity.
Qed.

End Bodies.

(** ** Rendering a response *)

Section Rendering.
Context {ext : Externals}.
Import Response.

Lemma assoc_set_same {V} k (v : V) kvs :
  assoc_get k kvs = Some v → assoc_set k v kvs = kvs.
Proof.
  induction kvs as [|[k' v'] rest IH]; simpl; [discriminate |].
  destruct (String.eqb_spec k k') as [->|Hne].
  - intros [= ->]. reflexivity.
  - intros Hrest. rewrite (IH Hrest). reflexivity.
Qed.

(** The error response the dispatcher builds without content is rendered
    from the status message table: its body is the JSON text of
    [{"detail": get_status_message(status)}], which becomes its content, and
    the headers get the length of that text and the JSON media type; the
    status is untouched. *)
Theorem error_body_from_status
    (status : Z) (ev : LogEvent) (text : string)
    (Herror : (400 ≤ status)%Z)
    (Hdumps : dumps (PDict [("detail", PStr (get_status_message status))])
              = Return text) :
  let response := fst (Handler.JSONResponse PNone status ev) in
  body response
  = (Return (PStr text),
     {| cls := JSONResponse;
        _content := PDict [("detail", PStr (get_status_message status))];
        _status_code := status;
        _headers :=
          [("x-request-id", ev_id ev);
           ("content-length", PStr (str_of_int (Z.of_nat (str_len text))));
           ("content-type", PStr "application/json")];
        _media_type := Some "application/json" |}).
Proof.
  cbv zeta.
  unfold Handler.JSONResponse, __init__, status_code_setter. simpl.
  destruct (Z.eqb_spec status 200) as [->|_]; [lia |].
  unfold body, _render. simpl.
  destruct (Z.leb_spec 400 status) as [_|Hlt]; [| lia].
  simpl. rewrite Hdumps. reflexivity.
Qed.

(** [body()] never changes the class, the status code or the media type of
    a response, nor a content that is there; a response without content and
    with a status under 400 has no body and is left as it is. *)
Theorem body_keeps_status
    (self self1 : Response.t) (r : result pyval)
    (Hbody : body self = (r, self1)) :
  cls self1 = cls self
  ∧ _status_code self1 = _status_code self
  ∧ _media_type self1 = _media_type self
  ∧ (_content self ≠ PNone → _content self1 = _content self)
  ∧ (_content self = PNone → (_status_code self < 400)%Z →
     r = Return PNone ∧ self1 = self).
Proof.
  unfold body in Hbody.
  destruct (is_None (_content self)) eqn:Hnone.
  - assert (Hc : _content self = PNone)
      by (destruct (_content self); simpl in Hnone; congruence).
    destruct (Z.leb_spec 400 (_status_code self)) as [Hge|Hlt]; simpl in Hbody.
    + repeat case_match; simplify_eq; simpl;
        repeat split; try congruence; try lia;
        repeat case_match; simpl; congruence.
    + rewrite Hnone in Hbody. simplify_eq. repeat split; congruence.
  - assert (Hc : _content self ≠ PNone)
      by (destruct (_content self); simpl in Hnone; congruence).
    simpl in Hbody. rewrite Hnone in Hbody.
    repeat case_match; simplify_eq; simpl;
      repeat split; try congruence; try lia;
      repeat case_match; simpl; congruence.
Qed.

Lemma body_with_content (t : Response.t) :
  is_None (_content t) = false →
  body t
  = match _render t (_content t) with
    | Raise e => (Raise e, t)
    | Return b =>
        match len b with
        | Raise e => (Raise e, t)
        | Return n =>
            (Return b,
             let t1 := with_header t "content-length"
                         (PStr (str_of_int (Z.of_nat n))) in
             match _media_type t1 with
             | Some m => with_header t1 "content-type" (PStr m)
             | None => t1
             end)
        end
    end.
Proof.
  intros Hnone. unfold body. rewrite Hnone. simpl. rewrite Hnone. reflexivity.
Qed.

Lemma with_headers_again (t : Response.t) (n : nat) :
  let add t :=
    let t1 := with_header t "content-length" (PStr (str_of_int (Z.of_nat n))) in
    match _media_type t1 with
    | Some m => with_header t1 "content-type" (PStr m)
    | None => t1
    end in
  add (add t) = add t.
Proof.
  cbv zeta. unfold with_header. simpl.
  destruct (_media_type t) as [m|]; simpl; f_equal.
  - rewrite (assoc_set_same "content-length")
      by (rewrite assoc_get_set_ne by discriminate; apply assoc_get_set_eq).
    apply assoc_set_same, assoc_get_set_eq.
  - apply assoc_set_same, assoc_get_set_eq.
Qed.

(** [body()] can be called again: a second call on the response it left
    returns the same body and changes nothing more. *)
Theorem body_is_idempotent
    (self self1 : Response.t) (rendered : pyval)
    (Hbody : body self = (Return rendered, self1)) :
  body self1 = (Return rendered, self1).
Proof.
  assert (Hcases :
    self1 = self
    ∨ ∃ t n, is_None (_content t) = false
             ∧ _render t (_content t) = Return rendered
             ∧ len rendered = Return n
             ∧ self1 = (let t1 := with_header t "content-length"
                                    (PStr (str_of_int (Z.of_nat n))) in
                        match _media_type t1 with
                        | Some m => with_header t1 "content-type" (PStr m)
                        | None => t1
                        end)).
  { unfold body in Hbody. cbv zeta in Hbody.
    match type of Hbody with
    | context [is_None (_content ?t)] =>
        lazymatch t with
        | self => fail
        | _ => set (synth := t) in *
        end
    end.
    destruct (is_None (_content synth)) eqn:Hnone.
    - left. assert (Hself : synth = self).
      { subst synth. destruct (is_None (_content self) && _);
          [simpl in Hnone; discriminate | reflexivity]. }
      rewrite Hself in Hbody. congruence.
    - right.
      destruct (_render synth (_content synth)) as [b|e] eqn:Hrender;
        [| discriminate].
      destruct (len b) as [n|e] eqn:Hlen; [| discriminate].
      injection Hbody as <- <-. exists synth, n. auto. }
  destruct Hcases as [-> | (t & n & Hnone & Hrender & Hlen & ->)];
    [exact Hbody |].
  pose proof (with_headers_again t n) as Hagain. cbv zeta in Hagain.
  rewrite body_with_content.
  - assert (Hsame : ∀ t' : Response.t,
              cls t' = cls t → _content t' = _content t →
              _render t' (_content t') = Return rendered).
    { intros t' Hcls Hcontent. unfold _render in *.
      rewrite Hcls, Hcontent. exact Hrender. }
    rewrite Hsame, Hlen;
      [| cbv zeta; destruct (_media_type _); reflexivity ..].
    cbv zeta in *. rewrite Hagain. reflexivity.
  - cbv zeta. destruct (_media_type _); exact Hnone.
Qed.

End Rendering.

(** ** Answering exceptions *)

Section KnownErrors.
Context {ext : Externals}.
Import Handler.


(** An [HTTPException] is answered, never raised again, whatever the
    request's flag: the response has the exception's status (204 for a 200
    without detail) and the content [{"detail": detail}], or none without
    detail; it is the response [JSONResponse] builds from status and detail
    alone, so the internal [error_detail] is not in it.  The log event gets
    the status of the response and the internal detail, which falls back to
    the detail. *)
Theorem http_exception_is_answered
    (routes : gmap string (gmap string _APIRoute)) (request request1 : Request.t)
    (status : Z) (detail internal : pyval) (ev1 : LogEvent)
    (Hattempt : force (attempt routes request (create_event request))
                = (Raise (HTTPException status detail internal), ev1, request1)) :
  let content :=
    match detail with
    | PNone => PNone
    | _ => PDict [("detail", detail)]
    end in
  ∃ ev2,
    force (_handle_request routes request)
    = (Return (fst (JSONResponse content status ev1)), ev2, request1)
    ∧ Response._status_code (fst (JSONResponse content status ev1))
      = (if Response.is_None detail && Z.eqb status 200 then 204 else status)
    ∧ Response._content (fst (JSONResponse content status ev1)) = content
    ∧ ev_status_code ev2
      = Some (Response._status_code (fst (JSONResponse content status ev1)))
    ∧ ev_error_detail ev2
      = (if truthy internal then PStr (py_str internal)
         else if truthy detail then PStr (py_str detail)
         else PNone)
    ∧ ev_id ev2 = ev_id ev1.
Proof.
  cbv zeta. rewrite force_handle_request, Hattempt.
  unfold on_exception, JSONResponse, Response.__init__,
    Response.status_code_setter, error_detail.
  simpl. eexists. split; [reflexivity |].
  destruct detail; simpl; repeat split; reflexivity.
Qed.

(** A [ValidationError] is answered with status 422 and the content
    [{"detail": errors}], whatever the request's flag, and the log event
    gets status 422 and the errors. *)
Theorem validation_error_is_answered
    (routes : gmap string (gmap string _APIRoute)) (request request1 : Request.t)
    (errors : pyval) (ev1 : LogEvent)
    (Hattempt : force (attempt routes request (create_event request))
                = (Raise (ValidationError errors), ev1, request1)) :
  ∃ response ev2,
    force (_handle_request routes request) = (Return response, ev2, request1)
    ∧ Response._status_code response = 422
    ∧ Response._content response = PDict [("detail", errors)]
    ∧ Response.cls response = Response.JSONResponse
    ∧ ev_status_code ev2 = Some 422
    ∧ ev_error_detail ev2 = errors.
Proof.
  rewrite force_handle_request, Hattempt.
  unfold on_exception, JSONResponse, Response.__init__,
    Response.status_code_setter.
  simpl. eexists _, _. repeat split.
Qed.

(** The keyword arguments of the route function: a name declared for
    injection is bound to the live request or response, whatever the JSON
    body has under that name; every other name keeps its body entry. *)
Theorem injected_arguments_win
    (ps : list (string * param_cls)) (kwargs : list (string * arg))
    (name : string) :
  assoc_get name (inject ps kwargs)
  = match List.find (λ p, String.eqb name (fst p)) (rev ps) with
    | Some (_, ParamRequest) => Some ArgRequest
    | Some (_, ParamResponse) => Some ArgResponse
    | None => assoc_get name kwargs
    end.
Proof.
  unfold inject. revert kwargs.
  induction ps as [|[p c] ps IH]; intros kwargs; simpl; [reflexivity |].
  rewrite IH, find_snoc. simpl.
  destruct (List.find _ (rev ps)) as [[p' c']|]; [reflexivity |].
  rewrite assoc_get_set.
  destruct (String.eqb name p); [destruct c; reflexivity | reflexivity].
Qed.

(** A route function that returns a full [Response] is answered with that
    response as it is: the default response of the route and its status are
    dropped, and the dispatcher writes nothing more to the log event. *)
Theorem full_response_replaces_default
    (routes : gmap string (gmap string _APIRoute)) (request request1 : Request.t)
    (route : _APIRoute) (json_body : pyval) (coroutine : Coroutine)
    (returned_response : Response.t) (frame : Frame)
    (Hroute : lookup_route routes (Request._path request)
                (Request._method request) = Return route)
    (Hjson : Request.json request = (Return json_body, request1))
    (Hfunc : func route
               (inject (params route)
                  match json_body with
                  | PDict kvs => map (λ kv, (fst kv, ArgValue (snd kv))) kvs
                  | _ => []
                  end) = Return coroutine)
    (Hreturn :
       force (coroutine
                {| f_event := snd (JSONResponse PNone (status_code route)
                                     (create_event request));
                   f_request := request1;
                   f_response := fst (JSONResponse PNone (status_code route)
                                        (create_event request)) |})
       = (Return (FullResponse returned_response), frame)) :
  force (_handle_request routes request)
  = (Return returned_response, f_event frame, f_request frame).
Proof.
  unfold _handle_request, attempt, _prepare_request.
  rewrite Hroute.
  destruct (JSONResponse PNone (status_code route) (create_event request))
    as [response ev] eqn:Hresp.
  rewrite Hjson, Hfunc. unfold _call_route_function.
  rewrite !force_coro_bind. simpl in Hreturn. rewrite Hreturn. reflexivity.
Qed.

End KnownErrors.

(** ** Payloads without requests, unknown sources, message ids *)

Section PayloadEdges.
Context {ext : Externals}.
Import Backend.

(** A payload that is no direct invocation and names no source, neither
    itself nor in a first record, holds no request: it is parsed to the
    empty batch and the invocation returns [None] without calling any
    route. *)
Theorem payload_without_source_is_empty
    (event : list (string * pyval)) (context : pyval)
    (Hdirect : assoc_get "requestContext" event = None)
    (Hsource : assoc_get "eventSource" event = None)
    (Hrecords :
       assoc_get "Records" event = None
       ∨ assoc_get "Records" event = Some (PList [])
       ∨ ∃ first rest,
           assoc_get "Records" event = Some (PList (PDict first :: rest))
           ∧ assoc_get "eventSource" first = None) :
  parse_request event context = Return (Many [])
  ∧ ∀ schedule routes,
      Handler.__acall__ schedule routes event context = Some (Return PNone).
Proof.
  assert (Hparse : parse_request event context = Return (Many [])).
  { unfold parse_request, find_event_source. rewrite Hdirect. simpl.
    rewrite Hsource.
    destruct Hrecords as [-> | [-> | (first & rest & -> & Hfirst)]];
      simpl; rewrite ?Hfirst; reflexivity. }
  split; [exact Hparse |].
  intros schedule routes. unfold Handler.__acall__. rewrite Hparse.
  unfold Handler._handle_requests, gather. destruct schedule; reflexivity.
Qed.

(** A batch payload whose source is not of the form [prefix:name] with
    [name] one of [mq], [sqs], [sns] is fatal: without a colon the split
    raises [IndexError], and for any other name no parser is found and the
    attribute lookup raises [AttributeError]; the invocation ends with that
    exception. *)
Theorem unknown_source_is_fatal
    (event : list (string * pyval)) (context : pyval) (source : string)
    (Hdirect : assoc_get "requestContext" event = None)
    (Hsource : assoc_get "eventSource" event = Some (PStr source)) :
  (snd (split_colon source) = None →
   parse_request event context = Raise IndexError
   ∧ ∀ schedule routes,
       Handler.__acall__ schedule routes event context = Some (Raise IndexError))
  ∧ (∀ name, snd (split_colon source) = Some name →
       name ≠ "mq" → name ≠ "sqs" → name ≠ "sns" →
       parse_request event context = Raise AttributeError
       ∧ ∀ schedule routes,
           Handler.__acall__ schedule routes event context
           = Some (Raise AttributeError)).
Proof.
  assert (Hacall : ∀ e, parse_request event context = Raise e →
            parse_request event context = Raise e
            ∧ ∀ schedule routes,
                Handler.__acall__ schedule routes event context
                = Some (Raise e)).
  { intros e He. split; [exact He |]. intros schedule routes.
    unfold Handler.__acall__. rewrite He. reflexivity. }
  split.
  - intros Hsplit. apply Hacall.
    unfold parse_request, find_event_source. rewrite Hdirect. simpl.
    rewrite Hsource. simpl. rewrite Hsplit. reflexivity.
  - intros name Hsplit Hmq Hsqs Hsns. apply Hacall.
    unfold parse_request, find_event_source. rewrite Hdirect. simpl.
    rewrite Hsource. simpl. rewrite Hsplit. simpl. unfold _parse_event.
    destruct (String.eqb_spec name "mq"); [contradiction |].
    destruct (String.eqb_spec name "sqs"); [contradiction |].
    destruct (String.eqb_spec name "sns"); [contradiction |].
    reflexivity.
Qed.

Lemma assoc_get_del_ne {V} k k' (kvs : list (string * V)) :
  k ≠ k' → assoc_get k (assoc_del k' kvs) = assoc_get k kvs.
Proof.
  intros Hne. induction kvs as [|[k0 v0] rest IH]; simpl; [reflexivity |].
  destruct (String.eqb_spec k' k0) as [->|Hk'].
  - destruct (String.eqb_spec k k0); [contradiction | reflexivity].
  - simpl. rewrite IH. reflexivity.
Qed.

(** The queue parser files the record, without its body, under
    [eventData]: the message id of the request is the one of the record. *)
Lemma parse_record_sqs_message_id record record_event ctx flag r :
  _parse_record_sqs record = Return record_event →
  Request.aws__init__ record_event ctx flag = Return r →
  message_id r = getitem record "messageId".
Proof.
  unfold _parse_record_sqs. intros Hp Hinit.
  destruct (dict_pop record "body") as [[body record']|] eqn:Hpop;
    [| discriminate].
  simpl in Hp.
  destruct (loads body) as [document|]; [| discriminate]. simpl in Hp.
  destruct (setitem document "eventSource" _) as [e1|] eqn:H1; [| discriminate].
  simpl in Hp.
  destruct (setitem e1 "eventData" record') as [e2|] eqn:H2; [| discriminate].
  simpl in Hp.
  assert (Hdata : getitem record_event "eventData" = Return record').
  { rewrite (getitem_set_ne _ _ _ _ _ Hp) by discriminate.
    eapply getitem_set_eq. exact H2. }
  destruct (aws__init__stores _ _ _ _ Hinit)
    as (Hcls & _ & _ & kvs & kvs' & -> & Hev & Hsame).
  unfold message_id, Request.get_event. rewrite Hcls, Hev. simpl.
  rewrite Hsame by discriminate. simpl in Hdata.
  destruct (assoc_get "eventData" kvs) as [data|]; [| discriminate].
  injection Hdata as ->. simpl.
  destruct record as [| | | |[]| |fields]; try discriminate Hpop.
  simpl in Hpop. destruct (assoc_get "body" fields); [| discriminate].
  injection Hpop as _ <-. simpl.
  rewrite assoc_get_del_ne by discriminate. reflexivity.
Qed.

(** The requests of a queue batch are made of the records under [Records],
    one each and in order; each carries the message id of its record and the
    source [aws:sqs], which is what the failure report is built from. *)
Theorem queue_requests_carry_message_ids
    (event : list (string * pyval)) (context : pyval)
    (requests : list Request.t)
    (Hkind : batch_of_kind event "sqs")
    (Hparse : parse_request event context = Return (Many requests)) :
  ∃ records,
    batch_records event "Records" = Return records
    ∧ Forall2 (λ record r, message_id r = getitem record "messageId")
        records requests
    ∧ Forall (λ r, event_source r = Return (PStr "aws:sqs")) requests.
Proof.
  destruct (parse_request_batch_records _ _ _ _ Hkind Hparse)
    as (key & parse & records & Hevent & Hread & Hrecords).
  injection Hevent as <- <-.
  exists records. split; [exact Hread |]. split.
  - eapply parse_records_Forall2; [| exact Hrecords].
    intros record record_event flag r Hp _ Hinit.
    exact (parse_record_sqs_message_id _ _ _ _ _ Hp Hinit).
  - eapply parse_records_source; [| exact Hrecords].
    intros record record_event Hp. apply (parse_record_sqs_spec _ _ Hp).
Qed.

(** From the payload to the report: for a queue batch whose records have
    the message ids [ids], the pairs made of the parsed requests and any
    responses are serialized to the ids of the records whose response has a
    status of 400 or more, in the order of the records, and to [None] when
    there is none. *)
Theorem queue_report_names_failed_records
    (event : list (string * pyval)) (context : pyval)
    (requests : list Request.t) (records ids : list pyval)
    (resp_req : list (Response.t * Request.t))
    (Hkind : batch_of_kind event "sqs")
    (Hparse : parse_request event context = Return (Many requests))
    (Hrecords : batch_records event "Records" = Return records)
    (Hids : Forall2 (λ record id, getitem record "messageId" = Return id)
              records ids)
    (Hpairs : Forall2 (λ request p, same_origin request (snd p))
                requests resp_req) :
  let failed_ids :=
    map snd (List.filter (λ pi, failed (fst pi)) (zip resp_req ids)) in
  serialize_responses resp_req
  = Return (match failed_ids with
            | [] => PNone
            | _ => batchItemFailures failed_ids
            end).
Proof.
  intros failed_ids.
  destruct (parse_request_batch_records _ _ _ _ Hkind Hparse)
    as (key & parse & records' & Hevent & Hread & Hparsed).
  injection Hevent as <- <-.
  assert (records' = records) as -> by congruence.
  assert (Hmessage : Forall2 (λ record r,
                                message_id r = getitem record "messageId")
                       records requests).
  { eapply parse_records_Forall2; [| exact Hparsed].
    intros record record_event flag r Hp _ Hinit.
    exact (parse_record_sqs_message_id _ _ _ _ _ Hp Hinit). }
  assert (Hsource : Forall (λ r, event_source r = Return (PStr "aws:sqs"))
                      requests).
  { eapply parse_records_source; [| exact Hparsed].
    intros record record_event Hp. apply (parse_record_sqs_spec _ _ Hp). }
  assert (Hown : Forall2 (λ p id, message_id (snd p) = Return id) resp_req ids).
  { clear - Hmessage Hids Hpairs. revert ids resp_req Hids Hpairs.
    induction Hmessage as [|record r records requests Hm _ IH];
      intros ids resp_req Hids Hpairs.
    - inversion Hids; subst. inversion Hpairs; subst. constructor.
    - inversion Hids as [|? id ? ids' Hid Hids']; subst.
      inversion Hpairs as [|? p ? rest [Hcls Hev] Hrest]; subst.
      constructor; [| apply IH; assumption].
      unfold message_id, Request.get_event in *.
      rewrite Hcls, Hev, Hm. exact Hid. }
  assert (Hser : _serialize_event_sqs resp_req
                 = Return (match failed_ids with
                           | [] => PNone
                           | _ => batchItemFailures failed_ids
                           end)).
  { unfold _serialize_event_sqs. rewrite (failures_filter _ _ Hown). simpl.
    fold failed_ids. destruct failed_ids; reflexivity. }
  destruct Hpairs as [|request [response first_req] requests' rest Horigin _];
    [reflexivity |].
  rewrite <- Hser. inversion Hsource as [|? ? Hfirst _]; subst.
  destruct Horigin as [Hcls Hev]. simpl in Hcls, Hev.
  unfold serialize_responses.
  assert (Hsrc : event_source first_req = Return (PStr "aws:sqs")).
  { unfold event_source, Request.get_event in *. rewrite Hcls, Hev.
    exact Hfirst. }
  rewrite Hsrc. reflexivity.
Qed.

End PayloadEdges.

(** ** Base64 bodies as the decoder reads them *)

Section LenientBase64.
Context {ext : Externals}.
Import Base64.

(** The decoder does not see the characters that are neither of the
    alphabet nor the padding character, in whatever state it is. *)
Lemma a2b_base64_significant cs quad_pos leftchar pads :
  a2b_base64 cs quad_pos leftchar pads
  = a2b_base64 (List.filter base64_significant cs) quad_pos leftchar pads.
Proof.
  revert quad_pos leftchar pads.
  induction cs as [|c cs IH]; intros quad_pos leftchar pads; [reflexivity |].
  cbn [List.filter]. unfold base64_significant at 1.
  destruct (is_pad c) eqn:Hpad; cbn [orb].
  - cbn [a2b_base64]. rewrite Hpad.
    destruct (2 <=? quad_pos)%nat; [| apply IH].
    destruct (4 <=? quad_pos + S pads)%nat; [reflexivity | apply IH].
  - destruct (val c) as [d|] eqn:Hval.
    + cbn [a2b_base64]. rewrite Hpad, Hval.
      destruct quad_pos as [|[|[|quad_pos]]]; rewrite IH; reflexivity.
    + cbn [a2b_base64]. rewrite Hpad, Hval. apply IH.
Qed.

(** Once the padding has completed the last group, the decoder stops: what
    follows the Base64 text of bytes whose number is not a multiple of three
    is not read. *)
Lemma a2b_base64_after_padding (bs junk : list byte) :
  (length bs mod 3 ≠ 0)%nat →
  b64decode (b64encode bs ++ junk) = Return bs.
Proof.
  unfold b64decode.
  induction bs as [|a|a b|a b c l IH] using Base64Facts.list_ind3; intros Hlen.
  - contradiction Hlen. reflexivity.
  - pose proof (Base64Facts.sextets_bounds _ _ _ (Base64Facts.to_N_lt a)
                  Base64Facts.lt_0_256 Base64Facts.lt_0_256) as Hb.
    pose proof (Base64Facts.octets_sextets _ _ _ (Base64Facts.to_N_lt a)
                  Base64Facts.lt_0_256 Base64Facts.lt_0_256) as Ho.
    cbn [b64encode].
    destruct (sextets (Byte.to_N a) 0 0) as [[[d0 d1] d2] d3].
    destruct Hb as (H0 & H1 & _ & _).
    cbn [app]. rewrite !Base64Facts.a2b_base64_char by assumption.
    unfold octets in Ho. injection Ho as Ha _ _.
    rewrite Ha, Base64Facts.byte_of_to_N. reflexivity.
  - pose proof (Base64Facts.sextets_bounds _ _ _ (Base64Facts.to_N_lt a)
                  (Base64Facts.to_N_lt b) Base64Facts.lt_0_256) as Hb.
    pose proof (Base64Facts.octets_sextets _ _ _ (Base64Facts.to_N_lt a)
                  (Base64Facts.to_N_lt b) Base64Facts.lt_0_256) as Ho.
    cbn [b64encode].
    destruct (sextets (Byte.to_N a) (Byte.to_N b) 0) as [[[d0 d1] d2] d3].
    destruct Hb as (H0 & H1 & H2 & _).
    cbn [app]. rewrite !Base64Facts.a2b_base64_char by assumption.
    unfold octets in Ho. injection Ho as Ha Hb' _.
    rewrite Ha, Hb', !Base64Facts.byte_of_to_N. reflexivity.
  - pose proof (Base64Facts.sextets_bounds _ _ _ (Base64Facts.to_N_lt a)
                  (Base64Facts.to_N_lt b) (Base64Facts.to_N_lt c)) as Hb.
    pose proof (Base64Facts.octets_sextets _ _ _ (Base64Facts.to_N_lt a)
                  (Base64Facts.to_N_lt b) (Base64Facts.to_N_lt c)) as Ho.
    assert (Hl : (length l mod 3 ≠ 0)%nat).
    { intros Hl. apply Hlen. cbn [length].
      change (S (S (S (length l)))) with (3 + length l)%nat.
      rewrite <- Nat.Div0.add_mod_idemp_l. exact Hl. }
    cbn [b64encode].
    destruct (sextets (Byte.to_N a) (Byte.to_N b) (Byte.to_N c))
      as [[[d0 d1] d2] d3].
    destruct Hb as (H0 & H1 & H2 & H3).
    cbn [app]. rewrite !Base64Facts.a2b_base64_char by assumption.
    unfold octets in Ho. injection Ho as Ha Hb' Hc.
    rewrite (IH Hl), Ha, Hb', Hc, !Base64Facts.byte_of_to_N. reflexivity.
Qed.

(** A Base64 body is read as [base64.b64decode] reads it by default:
    characters outside the alphabet, such as line breaks, are skipped
    wherever they are, and what follows the closing padding is ignored.  So
    a body that is the Base64 text of [bs] with such characters mixed in, or
    with anything appended after its padding, is decoded to [bs]. *)
Theorem aws_body_is_lenient_base64
    (r : Request.t) (event : list (string * pyval)) (text : string)
    (bs : list byte)
    (Hcls : Request.cls r = Request.AwsRequest)
    (Hfresh : Request._body r = None)
    (Hevent : Request.event r = PDict event)
    (Hbody : assoc_get "body" event = Some (PStr text))
    (Hflag : truthy (default (PBool false) (assoc_get "isBase64Encoded" event))
             = true) :
  (List.filter base64_significant (str_encode text) = b64encode bs →
   Request.body r
   = (Return (PBin Bytes bs), Request.with_body r (PBin Bytes bs)))
  ∧ (∀ junk, (length bs mod 3 ≠ 0)%nat →
       str_encode text = (b64encode bs ++ junk)%list →
       Request.body r
       = (Return (PBin Bytes bs), Request.with_body r (PBin Bytes bs))).
Proof.
  assert (Hdecoded : b64decode (str_encode text) = Return bs →
            Request.body r
            = (Return (PBin Bytes bs), Request.with_body r (PBin Bytes bs))).
  { intros Hdec. unfold Request.body. rewrite Hfresh, Hcls, Hevent.
    unfold dict_get, mbind, result_bind, fmap, result_fmap.
    rewrite Hbody, Hflag.
    change (default PNone (Some (PStr text))) with (PStr text). cbv beta iota.
    rewrite Hdec. reflexivity. }
  split.
  - intros Hfilter. apply Hdecoded. unfold b64decode.
    rewrite a2b_base64_significant, Hfilter.
    apply Base64Facts.b64decode_b64encode.
  - intros junk Hlen Htext. apply Hdecoded. rewrite Htext.
    apply a2b_base64_after_padding. exact Hlen.
Qed.

(** Whole groups are decoded one after the other: after the Base64 text of
    bytes whose number is a multiple of three, which has no padding, the
    decoder goes on with what follows. *)
Lemma a2b_base64_groups (bs rest : list byte) :
  (length bs mod 3 = 0)%nat →
  a2b_base64 (b64encode bs ++ rest) 0 0 0
  = app bs <$> a2b_base64 rest 0 0 0.
Proof.
  induction bs as [|a|a b|a b c l IH] using Base64Facts.list_ind3; intros Hlen.
  - cbn [b64encode app]. destruct (a2b_base64 rest 0 0 0); reflexivity.
  - discriminate Hlen.
  - discriminate Hlen.
  - pose proof (Base64Facts.sextets_bounds _ _ _ (Base64Facts.to_N_lt a)
                  (Base64Facts.to_N_lt b) (Base64Facts.to_N_lt c)) as Hb.
    pose proof (Base64Facts.octets_sextets _ _ _ (Base64Facts.to_N_lt a)
                  (Base64Facts.to_N_lt b) (Base64Facts.to_N_lt c)) as Ho.
    assert (Hl : (length l mod 3 = 0)%nat).
    { cbn [length] in Hlen.
      change (S (S (S (length l)))) with (3 + length l)%nat in Hlen.
      rewrite <- Nat.Div0.add_mod_idemp_l in Hlen. exact Hlen. }
    cbn [b64encode].
    destruct (sextets (Byte.to_N a) (Byte.to_N b) (Byte.to_N c))
      as [[[d0 d1] d2] d3].
    destruct Hb as (H0 & H1 & H2 & H3).
    cbn [app]. rewrite !Base64Facts.a2b_base64_char by assumption.
    unfold octets in Ho. injection Ho as Ha Hb' Hc.
    rewrite (IH Hl), Ha, Hb', Hc, !Base64Facts.byte_of_to_N.
    destruct (a2b_base64 rest 0 0 0); reflexivity.
Qed.

(** A Base64 body that is cut short is refused: when the text ends inside a
    group of four, after one, two or three of its characters, or after one
    padding character where two are due, [body()] raises [binascii.Error]
    and stores nothing. *)
Theorem aws_body_rejects_open_group
    (r : Request.t) (event : list (string * pyval)) (text : string)
    (bs : list byte) (d0 d1 d2 : N)
    (Hcls : Request.cls r = Request.AwsRequest)
    (Hfresh : Request._body r = None)
    (Hevent : Request.event r = PDict event)
    (Hbody : assoc_get "body" event = Some (PStr text))
    (Hflag : truthy (default (PBool false) (assoc_get "isBase64Encoded" event))
             = true)
    (Hwhole : (length bs mod 3 = 0)%nat)
    (Hd0 : (d0 < 64)%N) (Hd1 : (d1 < 64)%N) (Hd2 : (d2 < 64)%N)
    (Htext : str_encode text = (b64encode bs ++ [char d0])%list
             ∨ str_encode text = (b64encode bs ++ [char d0; char d1])%list
             ∨ str_encode text = (b64encode bs ++ [char d0; char d1; pad])%list
             ∨ str_encode text
               = (b64encode bs ++ [char d0; char d1; char d2])%list) :
  Request.body r = (Raise BinasciiError, r).
Proof.
  assert (Hdec : b64decode (str_encode text) = Raise BinasciiError).
  { unfold b64decode.
    destruct Htext as [-> | [-> | [-> | ->]]];
      rewrite (a2b_base64_groups _ _ Hwhole),
        !Base64Facts.a2b_base64_char by assumption; reflexivity. }
  unfold Request.body. rewrite Hfresh, Hcls, Hevent.
  unfold dict_get, mbind, result_bind, fmap, result_fmap.
  rewrite Hbody, Hflag.
  change (default PNone (Some (PStr text))) with (PStr text). cbv beta iota.
  rewrite Hdec. reflexivity.
Qed.

End LenientBase64.

(** ** Faults in a batch and answers of a direct invocation *)

Section Invocations.
Context {ext : Externals}.
Import Handler.

(** One item that raises is fatal to its batch: when the handling of some
    request of a batch ends with an exception, the dispatcher never gets the
    pairs to serialize and the invocation never returns a value, in whatever
    order the attempts complete; the responses of the other items are
    lost. *)
Theorem batch_fault_is_fatal
    (routes : gmap string (gmap string _APIRoute))
    (event : list (string * pyval)) (context : pyval)
    (requests : list Request.t) (i : nat) (request request1 : Request.t)
    (e : exception) (ev : LogEvent)
    (Hparse : Backend.parse_request event context = Return (Many requests))
    (Hitem : requests !! i = Some request)
    (Hraise : force (_handle_request routes request) = (Raise e, ev, request1)) :
  ∀ schedule,
    (∀ resp_req,
       _handle_requests schedule routes requests ≠ Some (Return resp_req))
    ∧ (∀ v, __acall__ schedule routes event context ≠ Some (Return v)).
Proof.
  intros schedule.
  assert (Hnever : ∀ resp_req,
            _handle_requests schedule routes requests ≠ Some (Return resp_req)).
  { intros resp_req. unfold _handle_requests.
    apply (gather_never_returns schedule _ i (task routes request) e).
    - rewrite list_lookup_fmap, Hitem. reflexivity.
    - rewrite force_task, Hraise. reflexivity. }
  split; [exact Hnever |].
  intros v. unfold __acall__. rewrite Hparse.
  destruct (_handle_requests schedule routes requests) as [[resp_req|e']|]
    eqn:Hgather; [| discriminate | discriminate].
  exfalso. exact (Hnever resp_req eq_refl).
Qed.

(** A direct invocation of a path that has no route is answered, not
    raised: the invocation returns the envelope of a 404 response whose body
    is the JSON text of [{"detail": get_status_message(404)}], with the
    request id, the length of that text and the JSON media type as
    headers. *)
Theorem unknown_path_is_answered_404
    (schedule : list nat) (routes : gmap string (gmap string _APIRoute))
    (event : list (string * pyval)) (context : pyval)
    (request : Request.t) (path text : string)
    (Hparse : Backend.parse_request event context = Return (Single request))
    (Hpath : Request._path request = PStr path)
    (Hunknown : routes !! path = None)
    (Hdumps : dumps (PDict [("detail", PStr (get_status_message 404))])
              = Return text) :
  __acall__ schedule routes event context
  = Some (Return
            (PDict [("body", PStr text);
                    ("statusCode", PStr "404");
                    ("headers",
                     PDict [("x-request-id", ev_id (create_event request));
                            ("content-length",
                             PStr (str_of_int (Z.of_nat (str_len text))));
                            ("content-type", PStr "application/json")]);
                    ("isBase64Encoded", PBool false)])).
Proof.
  unfold __acall__. rewrite Hparse.
  unfold _handle_request, attempt, _prepare_request, lookup_route, dict_lookup.
  rewrite Hpath, Hunknown. simpl.
  unfold Backend.serialize_response, Response.body, Response._render. simpl.
  rewrite Hdumps. reflexivity.
Qed.

End Invocations.

(** * Examples of the further properties *)

Section FurtherExamples.
Import Fixtures Scenarios.
#[local] Existing Instance fixture_externals.

(** The first registration of [GET /] on the empty table. *)
Lemma api_route_registers_witness :
  fst (Handler._api_route "/" "GET" None get [] no_routes) = Return ()
  ∧ registered (snd (Handler._api_route "/" "GET" None get [] no_routes))
      "/" "GET"
    = Some (new_route None get []).
Proof.
  opose proof* (api_route_registers "/" "GET" None get [] no_routes)
    as (Hok & Hroute & _); [vm_compute; reflexivity |].
  split; assumption.
Defined.

(** [GET /] registered again on the table of the test suite. *)
Lemma api_route_duplicate_witness :
  Handler._api_route "/" "GET" (Some 201) get400 [] routes
  = (Raise (ValueError (Handler.already_registered "GET" "/")), routes).
Proof.
  opose proof* (api_route_duplicate "/" "GET" (Some 201) get400 [] routes
                  (Registry.route_of root_registration))
    as (Hraise & _); [vm_compute; reflexivity |].
  exact Hraise.
Defined.

(** [GET /] stays what it was when it is registered twice more. *)
Lemma registration_is_permanent_witness :
  registered
    (Registry.register_all
       ([root_registration] ++ [root_registration; root_registration]))
    "/" "GET"
  = Some (Registry.route_of root_registration).
Proof.
  opose proof* (registration_is_permanent [root_registration]
                  [root_registration; root_registration] "/" "GET"
                  (Registry.route_of root_registration))
    as (Hkept & _); [vm_compute; reflexivity |].
  exact Hkept.
Defined.

(** The path [/] of a table with one registration serves a method. *)
Lemma no_path_without_route_witness :
  ∃ method route,
    default ∅ (Registry.register_all [root_registration] !! "/") !! method
    = Some route
    ∧ Handler.lookup_route (Registry.register_all [root_registration])
        (PStr "/") (PStr method)
      = Return route.
Proof.
  opose proof* (no_path_without_route [root_registration] "/"
                  (default ∅ (Registry.register_all [root_registration] !! "/")))
    as Hserved; [vm_compute; reflexivity |].
  exact Hserved.
Defined.

(** [get] and [post] on the same path of the empty table. *)
Lemma decorators_do_not_conflict_witness :
  fst (Decorators.get "/" None get [] no_routes) = Return ()
  ∧ fst (Decorators.post "/" None get400 []
           (snd (Decorators.get "/" None get [] no_routes))) = Return ().
Proof.
  opose proof* (decorators_do_not_conflict "GET" "POST" Decorators.get
                  Decorators.post "/" None None get get400 [] [] no_routes)
    as (Hfirst & Hsecond & _);
    [right; left; reflexivity | do 5 right; left; reflexivity | discriminate
    | vm_compute; reflexivity | vm_compute; reflexivity |].
  split; assumption.
Defined.


(** The REST event: the request id of the context replaces the one the
    client sent as [X-Request-Id]. *)
Lemma request_id_from_context_witness :
  assoc_get "x-request-id" (Request._headers (request_of rest_event))
  = Some (PStr "0123456789abcdef").
Proof.
  opose proof* (request_id_from_context rest_event PNone (PBool true)
                  (request_of rest_event) rest_context
                  (PStr "0123456789abcdef"))
    as (Hheader & _); [vm_compute; reflexivity .. |].
  exact Hheader.
Defined.

(** The HTTP event: the request id the client sent in lower case stays. *)
Lemma request_id_from_header_witness :
  assoc_get "x-request-id" (Request._headers (request_of traced_event))
  = Some (PStr "sent-by-client").
Proof.
  opose proof* (request_id_from_header traced_event PNone (PBool true)
                  (request_of traced_event) http_context
                  (PStr "0123456789abcdef") (PStr "sent-by-client"))
    as (Hheader & _);
    [vm_compute; reflexivity | vm_compute; reflexivity
    | vm_compute; reflexivity | vm_compute; reflexivity | |].
  - intros name value Hin _. vm_compute in Hin.
    destruct Hin as [[= <- <-]|[]]. reflexivity.
  - exact Hheader.
Defined.

(** Method and path of the REST event. *)
Lemma aws_request_route_witness :
  Request._method (request_of rest_event) = PStr "GET"
  ∧ Request._path (request_of rest_event) = PStr "/".
Proof.
  opose proof* (aws_request_route rest_event PNone (PBool true)
                  (request_of rest_event) rest_context (PStr "GET") (PStr "/"))
    as (Hmethod & Hpath & _);
    [vm_compute; reflexivity | vm_compute; reflexivity | |].
  - right. split; [| split]; vm_compute; reflexivity.
  - split; assumption.
Defined.

(** The empty event has no request context. *)
Lemma aws_request_missing_keys_witness :
  Request.aws__init__ (PDict []) PNone (PBool true)
  = Raise (KeyError (PStr "requestContext")).
Proof.
  destruct (aws_request_missing_keys [] [] [] PNone (PBool true))
    as (Hcontext & _).
  apply Hcontext. reflexivity.
Defined.

(** The Base64 text of [b"test"] as a body. *)
Lemma aws_body_decoding_witness :
  Request.body (encoded_request "dGVzdA==")
  = (Return (PBin Bytes (str_encode "test")),
     Request.with_body (encoded_request "dGVzdA==")
       (PBin Bytes (str_encode "test"))).
Proof.
  opose proof* (aws_body_decoding (encoded_request "dGVzdA==")
                  (encoded_event "dGVzdA==") "dGVzdA==" (str_encode "test"))
    as (_ & _ & Hdecoded); [reflexivity .. |].
  apply Hdecoded; vm_compute; reflexivity.
Defined.

Lemma body_is_memoized_witness :
  Request.body (snd (Request.body (encoded_request "dGVzdA==")))
  = (Return (PBin Bytes (str_encode "test")),
     snd (Request.body (encoded_request "dGVzdA=="))).
Proof.
  opose proof* (body_is_memoized (encoded_request "dGVzdA==")
                  (snd (Request.body (encoded_request "dGVzdA==")))
                  (PBin Bytes (str_encode "test")))
    as (Hagain & _); [vm_compute; reflexivity |].
  exact Hagain.
Defined.

(** [test_binary_body]: the response body comes back as a request body. *)
Lemma envelope_body_round_trip_witness :
  ∃ sent binary1,
    Backend.serialize_response binary_response binary_request
    = (Return (envelope sent binary1 true), binary1)
    ∧ fst (Request.body
             (Request.__init__ Request.AwsRequest
                (PDict [("body", sent); ("isBase64Encoded", PBool true)])
                PNone (PStr "/") (PStr "POST") None PNone (PBool true)))
      = Return (PBin Bytes (str_encode "test")).
Proof.
  opose proof* (envelope_body_round_trip binary_response Bytes
                  (str_encode "test") binary_request)
    as (sent & binary1 & Hsent & Hback); [reflexivity .. |].
  exists sent, binary1. split; [exact Hsent |].
  apply (Hback _ [("body", sent); ("isBase64Encoded", PBool true)]);
    reflexivity.
Defined.

(** The body of the 404 answer. *)
Lemma error_body_from_status_witness :
  fst (Response.body
         (fst (Handler.JSONResponse PNone 404
                 (Handler.create_event (direct_request "/missing")))))
  = Return (PStr not_found_text).
Proof.
  opose proof* (error_body_from_status 404
                  (Handler.create_event (direct_request "/missing"))
                  not_found_text) as Hbody;
    [vm_compute; discriminate | vm_compute; reflexivity |].
  cbv zeta in Hbody. rewrite Hbody. reflexivity.
Defined.

Lemma body_keeps_status_witness :
  Response._status_code (snd (Response.body binary_response))
  = Response._status_code binary_response.
Proof.
  opose proof* (body_keeps_status binary_response
                  (snd (Response.body binary_response))
                  (fst (Response.body binary_response)))
    as (_ & Hstatus & _); [vm_compute; reflexivity |].
  exact Hstatus.
Defined.

Lemma body_is_idempotent_witness :
  Response.body (snd (Response.body binary_response))
  = (Return (PBin Bytes (str_encode "test")),
     snd (Response.body binary_response)).
Proof.
  opose proof* (body_is_idempotent binary_response
                  (snd (Response.body binary_response))
                  (PBin Bytes (str_encode "test")))
    as Hagain; [vm_compute; reflexivity |].
  exact Hagain.
Defined.



(** [test_exception_handling], [/raise_400]: the request is answered with
    status 400. *)
Lemma http_exception_is_answered_witness :
  ∃ response ev request1,
    force (Handler._handle_request routes (direct_request "/raise_400"))
    = (Return response, ev, request1)
    ∧ Response._status_code response = 400.
Proof.
  opose proof* (http_exception_is_answered routes
                  (direct_request "/raise_400")
                  (snd (force (Handler.attempt routes
                                 (direct_request "/raise_400")
                                 (Handler.create_event
                                    (direct_request "/raise_400")))))
                  400 PNone PNone
                  (snd (fst (force (Handler.attempt routes
                                      (direct_request "/raise_400")
                                      (Handler.create_event
                                         (direct_request "/raise_400")))))))
    as Hanswer; [vm_compute; reflexivity |].
  cbv zeta in Hanswer. destruct Hanswer as (ev2 & Hhandled & Hstatus & _).
  eexists _, _, _. split; [exact Hhandled | exact Hstatus].
Defined.

(** A route whose validation fails is answered with status 422. *)
Lemma validation_error_is_answered_witness :
  ∃ response ev request1,
    force (Handler._handle_request more_routes (direct_request "/invalid"))
    = (Return response, ev, request1)
    ∧ Response._status_code response = 422.
Proof.
  opose proof* (validation_error_is_answered more_routes
                  (direct_request "/invalid")
                  (snd (force (Handler.attempt more_routes
                                 (direct_request "/invalid")
                                 (Handler.create_event
                                    (direct_request "/invalid")))))
                  (PList [PStr "value is not a valid integer"])
                  (snd (fst (force (Handler.attempt more_routes
                                      (direct_request "/invalid")
                                      (Handler.create_event
                                         (direct_request "/invalid")))))))
    as (response & ev2 & Hhandled & Hstatus & _); [vm_compute; reflexivity |].
  eexists _, _, _. split; [exact Hhandled | exact Hstatus].
Defined.

(** A route that returns its own response with status 418. *)
Lemma full_response_replaces_default_witness :
  ∃ response ev request1,
    force (Handler._handle_request more_routes (direct_request "/teapot"))
    = (Return response, ev, request1)
    ∧ Response._status_code response = 418
    ∧ Response._content response = PStr "tea".
Proof.
  opose proof* (full_response_replaces_default more_routes
                  (direct_request "/teapot")
                  (snd (Request.json (direct_request "/teapot")))
                  (Registry.route_of teapot_registration) PNone
                  teapot_coroutine
                  (fst (Response.__init__ Response.Response (PStr "tea") 418
                          None (Some "text/plain")
                          (Handler.f_event teapot_frame)))
                  (snd (force (teapot_coroutine
                                 {| Handler.f_event := Handler.f_event teapot_frame;
                                    Handler.f_request :=
                                      snd (Request.json (direct_request "/teapot"));
                                    Handler.f_response :=
                                      Handler.f_response teapot_frame |}))))
    as Hhandled;
    [vm_compute; reflexivity | vm_compute; reflexivity | reflexivity
    | vm_compute; reflexivity |].
  eexists _, _, _. split; [exact Hhandled |]. split; reflexivity.
Defined.

(** The empty payload holds no request. *)
Lemma payload_without_source_is_empty_witness :
  Backend.parse_request [] PNone = Return (Many [])
  ∧ Handler.__acall__ [] routes [] PNone = Some (Return PNone).
Proof.
  opose proof* (payload_without_source_is_empty [] PNone)
    as (Hparse & Hcall); [reflexivity | reflexivity | left; reflexivity |].
  split; [exact Hparse | apply Hcall].
Defined.

(** A stream batch has no parser. *)
Lemma unknown_source_is_fatal_witness :
  Backend.parse_request stream_event PNone = Raise AttributeError.
Proof.
  opose proof* (unknown_source_is_fatal stream_event PNone "aws:kinesis")
    as (_ & Hname); [reflexivity | reflexivity |].
  apply (Hname "kinesis"); [reflexivity | discriminate ..].
Defined.

(** [test_batch], queue part: the requests carry the ids 1 to 4. *)
Lemma queue_requests_carry_message_ids_witness :
  ∃ records,
    batch_records sqs_event "Records" = Return records
    ∧ Forall2 (λ record r,
                 Backend.message_id r = getitem record "messageId")
        records (parsed_requests (Backend.parse_request sqs_event PNone)).
Proof.
  opose proof* (queue_requests_carry_message_ids sqs_event PNone
                  (parsed_requests (Backend.parse_request sqs_event PNone)))
    as (records & Hread & Hids & _).
  - split; [reflexivity | exists (PStr "aws:sqs"); split; reflexivity].
  - vm_compute. reflexivity.
  - exists records. split; assumption.
Defined.

(** [test_batch], queue part: the report names the records 2 and 3. *)
Lemma queue_report_names_failed_records_witness :
  Backend.serialize_responses
    (returned_pairs
       (handle_each routes
          (parsed_requests (Backend.parse_request sqs_event PNone))))
  = Return (batchItemFailures [PStr "2"; PStr "3"]).
Proof.
  opose proof* (queue_report_names_failed_records sqs_event PNone
                  (parsed_requests (Backend.parse_request sqs_event PNone))
                  [sqs_record "1" (req "/"); sqs_record "2" (req "/raise_400");
                   sqs_record "3" (req "/raise_500"); sqs_record "4" (req "/")]
                  [PStr "1"; PStr "2"; PStr "3"; PStr "4"]
                  (returned_pairs
                     (handle_each routes
                        (parsed_requests
                           (Backend.parse_request sqs_event PNone)))))
    as Hreport.
  - split; [reflexivity | exists (PStr "aws:sqs"); split; reflexivity].
  - vm_compute. reflexivity.
  - reflexivity.
  - repeat constructor.
  - set (pairs := returned_pairs _). vm_compute in pairs. subst pairs.
    set (requests := parsed_requests _). vm_compute in requests. subst requests.
    repeat (constructor; [split; reflexivity |]). constructor.
  - cbv zeta in Hreport. vm_compute in Hreport. vm_compute. exact Hreport.
Defined.

(** The Base64 text of [b"test"] with a line feed in it, and with another
    group after its padding. *)
Lemma aws_body_is_lenient_base64_witness :
  fst (Request.body (encoded_request broken_text))
  = Return (PBin Bytes (str_encode "test"))
  ∧ fst (Request.body (encoded_request "dGVzdA==QQ=="))
    = Return (PBin Bytes (str_encode "test")).
Proof.
  split.
  - opose proof* (aws_body_is_lenient_base64 (encoded_request broken_text)
                    (encoded_event broken_text) broken_text (str_encode "test"))
      as (Hskipped & _); [reflexivity .. |].
    rewrite Hskipped; [reflexivity | vm_compute; reflexivity].
  - opose proof* (aws_body_is_lenient_base64 (encoded_request "dGVzdA==QQ==")
                    (encoded_event "dGVzdA==QQ==") "dGVzdA==QQ=="
                    (str_encode "test"))
      as (_ & Hignored); [reflexivity .. |].
    rewrite (Hignored (str_encode "QQ==")); [reflexivity | vm_compute; lia
                                            | vm_compute; reflexivity].
Defined.

(** The Base64 text of [b"test"] cut after its fifth character. *)
Lemma aws_body_rejects_open_group_witness :
  Request.body (encoded_request "dGVzd")
  = (Raise BinasciiError, encoded_request "dGVzd").
Proof.
  apply (aws_body_rejects_open_group (encoded_request "dGVzd")
           (encoded_event "dGVzd") "dGVzd" (str_encode "tes") 29 0 0);
    try reflexivity.
  left. vm_compute. reflexivity.
Defined.

(** [test_batch], broker part: the second message reaches [get500], and the
    invocation never returns a value. *)
Lemma batch_fault_is_fatal_witness :
  (∀ resp_req,
     Handler._handle_requests [0; 0; 1; 1]%nat routes
       (parsed_requests (Backend.parse_request failing_mq_event PNone))
     ≠ Some (Return resp_req))
  ∧ (∀ v, Handler.__acall__ [0; 0; 1; 1]%nat routes failing_mq_event PNone
          ≠ Some (Return v)).
Proof.
  opose proof* (batch_fault_is_fatal routes failing_mq_event PNone
                  (parsed_requests
                     (Backend.parse_request failing_mq_event PNone))
                  1%nat failing_request
                  (snd (force (Handler._handle_request routes failing_request)))
                  (ValueError "Invalid value.")
                  (snd (fst (force (Handler._handle_request routes
                                      failing_request))))
                  _ _ _ [0; 0; 1; 1]%nat)
    as Hnever; [vm_compute; reflexivity .. |].
  exact Hnever.
Defined.

(** A direct invocation of [/missing]. *)
Lemma unknown_path_is_answered_404_witness :
  ∃ headers,
    Handler.__acall__ [] routes (direct_event "/missing" "GET" PNone) PNone
    = Some (Return (PDict [("body", PStr not_found_text);
                           ("statusCode", PStr "404");
                           ("headers", headers);
                           ("isBase64Encoded", PBool false)])).
Proof.
  opose proof* (unknown_path_is_answered_404 [] routes
                  (direct_event "/missing" "GET" PNone) PNone
                  (request_of (direct_event "/missing" "GET" PNone))
                  "/missing" not_found_text)
    as Hanswer; [vm_compute; reflexivity .. |].
  eexists. exact Hanswer.
Defined.

End FurtherExamples.
